(** * Keyword analyser: provider dispatch and response interpretation

    A shallow embedding of [src/index.tsx]: the prompt builder, the
    four-provider dispatcher [performAnalysis], the submit handler that
    extracts and parses the JSON answer, and the renderer.

    Conventions.
    - A JavaScript string is a [string] holding its UTF-8 bytes.  The
      program only searches for the ASCII characters [{] and [}] and cuts
      at their positions, so the text selected is the same whether
      positions count bytes or UTF-16 code units.
    - [undefined] is [None] at type [jsval]; [null] is [JNull].
    - A number is an exact rational ([Q]); rounding to binary64 is not
      modelled.
    - Effects (globals, DOM, console, outbound calls) are threaded
      through a state-and-exception monad [M] over [World]; an exception
      keeps the mutations made before it, as in the source.
    - The markup assigned to [innerHTML] is kept as the data the
      template was filled with.  Labels and items go into it unescaped,
      so whether [document.getElementById] then finds a canvas is asked
      of the environment, as the parser of the browser decides it. *)

From Stdlib Require Import String Ascii ZArith QArith List Bool Lia.
From stdpp Require Import gmap strings.
Import ListNotations.
Local Open Scope Z_scope.

(* ================================================================== *)
(** ** Strings: the built-in methods the program calls *)

Module JSString.

Definition dquote : string := String (ascii_of_nat 34) EmptyString.

(** [`"${s}"`] *)
Definition quoted (s : string) : string := dquote +:+ s +:+ dquote.

Fixpoint drop (n : nat) (s : string) : string :=
  match n, s with
  | O, _ => s
  | S n', String _ r => drop n' r
  | S _, EmptyString => EmptyString
  end.

(** [s.indexOf(pat)]: the first position at which [pat] occurs, or -1. *)
Fixpoint indexOf_from (pat s : string) (i : Z) : Z :=
  if String.prefix pat s then i
  else match s with
       | EmptyString => -1
       | String _ r => indexOf_from pat r (i + 1)
       end.

Definition indexOf (s pat : string) : Z := indexOf_from pat s 0.

(** [s.lastIndexOf(pat)]: the last position at which [pat] occurs, or -1. *)
Fixpoint lastIndexOf_from (pat s : string) (i found : Z) : Z :=
  let found' := if String.prefix pat s then i else found in
  match s with
  | EmptyString => found'
  | String _ r => lastIndexOf_from pat r (i + 1) found'
  end.

Definition lastIndexOf (s pat : string) : Z := lastIndexOf_from pat s 0 (-1).

Definition clamp (n len : Z) : Z := Z.min (Z.max n 0) len.

(** [s.substring(start, end)]: both arguments are clamped to
    [0 .. length], and swapped when [start > end]. *)
Definition substring (s : string) (start end_ : Z) : string :=
  let len := Z.of_nat (String.length s) in
  let finalStart := clamp start len in
  let finalEnd := clamp end_ len in
  let from := Z.min finalStart finalEnd in
  let to := Z.max finalStart finalEnd in
  String.substring (Z.to_nat from) (Z.to_nat (to - from)) s.

Definition byte_is (c : ascii) (n : nat) : bool := Nat.eqb (nat_of_ascii c) n.

(** Width in bytes of the white-space or line-terminator character
    at the head of [s] (TAB LF VT FF CR SP, U+00A0, U+1680,
    U+2000..U+200A, U+2028, U+2029, U+202F, U+205F, U+3000, U+FEFF),
    0 when there is none. *)
Definition ws_width (s : string) : nat :=
  match s with
  | EmptyString => 0%nat
  | String a r =>
    let n := nat_of_ascii a in
    if ((9 <=? n) && (n <=? 13))%nat || Nat.eqb n 32 then 1%nat
    else match r with
    | String b r' =>
      if byte_is a 194 && byte_is b 160 then 2%nat
      else match r' with
      | String c _ =>
        let m := nat_of_ascii c in
        if byte_is a 225 && byte_is b 154 && byte_is c 128 then 3%nat
        else if byte_is a 226 && byte_is b 128
                && (((128 <=? m) && (m <=? 138))%nat || Nat.eqb m 168
                    || Nat.eqb m 169 || Nat.eqb m 175) then 3%nat
        else if byte_is a 226 && byte_is b 129 && byte_is c 159 then 3%nat
        else if byte_is a 227 && byte_is b 128 && byte_is c 128 then 3%nat
        else if byte_is a 239 && byte_is b 187 && byte_is c 191 then 3%nat
        else 0%nat
      | EmptyString => 0%nat
      end
    | EmptyString => 0%nat
    end
  end.

Fixpoint trimStart_fuel (fuel : nat) (s : string) : string :=
  match fuel with
  | O => s
  | S fuel' =>
    match ws_width s with
    | O => s
    | w => trimStart_fuel fuel' (drop w s)
    end
  end.

(** Every round removes at least one byte, so [length s] rounds suffice. *)
Definition trimStart (s : string) : string := trimStart_fuel (String.length s) s.

Definition is_blank (s : string) : bool :=
  match trimStart s with EmptyString => true | _ => false end.

Fixpoint trimEnd (s : string) : string :=
  match s with
  | EmptyString => EmptyString
  | String c r => if is_blank s then EmptyString else String c (trimEnd r)
  end.

(** [s.trim()] *)
Definition trim (s : string) : string := trimEnd (trimStart s).

(** Truthiness of a string: only the empty string is falsy. *)
Definition nonempty (s : string) : bool :=
  match s with EmptyString => false | _ => true end.

End JSString.

(* ================================================================== *)
(** ** JSON values and [JSON.parse] *)

Module JSON.

#[warnings="-register-all"] Inductive json : Type :=
| JNull
| JBool (b : bool)
| JNum (q : Q)
| JStr (s : string)
| JArr (items : list json)
| JObj (members : list (string * json)).

Definition chr (n : nat) : ascii := ascii_of_nat n.
Definition code_is (c : ascii) (n : nat) : bool := Nat.eqb (nat_of_ascii c) n.

(** JSON white space: space, TAB, LF, CR. *)
Definition is_ws (c : ascii) : bool := code_is c 32 || code_is c 9 || code_is c 10 || code_is c 13.

Fixpoint skip_ws (s : string) : string :=
  match s with
  | String c r => if is_ws c then skip_ws r else s
  | EmptyString => s
  end.

Definition digit_of (c : ascii) : option Z :=
  let n := Z.of_nat (nat_of_ascii c) in
  if (48 <=? n) && (n <=? 57) then Some (n - 48) else None.

(** Reads a run of digits: the value accumulated, how many digits
    were read, and the rest. *)
Fixpoint span_digits (s : string) (acc : Z) (count : nat) : Z * nat * string :=
  match s with
  | String c r =>
    match digit_of c with
    | Some d => span_digits r (10 * acc + d) (S count)
    | None => (acc, count, s)
    end
  | EmptyString => (acc, count, s)
  end.

(** int = [0] | [1-9][0-9]* *)
Definition parse_int (s : string) : option (Z * string) :=
  match s with
  | String c r =>
    match digit_of c with
    | Some 0 => Some (0, r)
    | Some d => let '(n, _, r') := span_digits r d 1 in Some (n, r')
    | None => None
    end
  | EmptyString => None
  end.

(** frac = [.] [0-9]+ ; returns the mantissa extended by the
    fractional digits and their number. *)
Definition parse_frac (s : string) (n : Z) : option (Z * nat * string) :=
  match s with
  | String c r =>
    if code_is c 46 then
      let '(m, k, r') := span_digits r n 0 in
      match k with O => None | _ => Some (m, k, r') end
    else Some (n, 0%nat, s)
  | EmptyString => Some (n, 0%nat, s)
  end.

(** exp = [eE] [+-]? [0-9]+ *)
Definition parse_exp (s : string) : option (Z * string) :=
  match s with
  | String c r =>
    if code_is c 101 || code_is c 69 then
      let '(neg, r1) :=
        match r with
        | String c' r' =>
          if code_is c' 45 then (true, r') else if code_is c' 43 then (false, r') else (false, r)
        | EmptyString => (false, r)
        end in
      let '(e, k, r2) := span_digits r1 0 0 in
      match k with O => None | _ => Some (if neg then - e else e, r2) end
    else Some (0, s)
  | EmptyString => Some (0, s)
  end.

Definition pow10 (e : Z) : Q :=
  if 0 <=? e then inject_Z (10 ^ e) else 1 # Z.to_pos (10 ^ (- e)).

Definition parse_number (s : string) : option (Q * string) :=
  let '(neg, s1) :=
    match s with
    | String c r => if code_is c 45 then (true, r) else (false, s)
    | EmptyString => (false, s)
    end in
  match parse_int s1 with
  | None => None
  | Some (n, s2) =>
    match parse_frac s2 n with
    | None => None
    | Some (m, k, s3) =>
      match parse_exp s3 with
      | None => None
      | Some (e, s4) =>
        let q := Qred (inject_Z m * pow10 (e - Z.of_nat k)) in
        Some (if neg then Qopp q else q, s4)
      end
    end
  end.

(** A character of a string literal: a byte copied from the text, or
    the UTF-16 code unit of a [\uXXXX] escape. *)
Inductive str_item : Type :=
| Raw (c : ascii)
| CodeUnit (u : Z).

Definition hex_of (c : ascii) : option Z :=
  let n := Z.of_nat (nat_of_ascii c) in
  if (48 <=? n) && (n <=? 57) then Some (n - 48)
  else if (65 <=? n) && (n <=? 70) then Some (n - 55)
  else if (97 <=? n) && (n <=? 102) then Some (n - 87)
  else None.

Definition hex4 (a b c d : ascii) : option Z :=
  match hex_of a, hex_of b, hex_of c, hex_of d with
  | Some x, Some y, Some z, Some w => Some (((x * 16 + y) * 16 + z) * 16 + w)
  | _, _, _, _ => None
  end.

Definition simple_escape (e : ascii) : option ascii :=
  if code_is e 34 then Some (chr 34)
  else if code_is e 92 then Some (chr 92)
  else if code_is e 47 then Some (chr 47)
  else if code_is e 98 then Some (chr 8)
  else if code_is e 102 then Some (chr 12)
  else if code_is e 110 then Some (chr 10)
  else if code_is e 114 then Some (chr 13)
  else if code_is e 116 then Some (chr 9)
  else None.

(** The characters of a string literal after its opening quote, up
    to and including the closing quote. *)
Fixpoint parse_chars (s : string) (acc : list str_item) : option (list str_item * string) :=
  match s with
  | EmptyString => None
  | String c r =>
    if code_is c 34 then Some (rev acc, r)
    else if code_is c 92 then
      match r with
      | EmptyString => None
      | String e r1 =>
        if code_is e 117 then
          match r1 with
          | String h1 (String h2 (String h3 (String h4 r2))) =>
            match hex4 h1 h2 h3 h4 with
            | Some u => parse_chars r2 (CodeUnit u :: acc)
            | None => None
            end
          | _ => None
          end
        else
          match simple_escape e with
          | Some x => parse_chars r1 (Raw x :: acc)
          | None => None
          end
      end
    else if (nat_of_ascii c <? 32)%nat then None
    else parse_chars r (Raw c :: acc)
  end.

Definition byte (n : Z) : string := String (ascii_of_nat (Z.to_nat n)) EmptyString.

Definition utf8 (cp : Z) : string :=
  if cp <? 128 then byte cp
  else if cp <? 2048 then byte (192 + cp / 64) +:+ byte (128 + cp mod 64)
  else if cp <? 65536 then
    byte (224 + cp / 4096) +:+ byte (128 + (cp / 64) mod 64) +:+ byte (128 + cp mod 64)
  else
    byte (240 + cp / 262144) +:+ byte (128 + (cp / 4096) mod 64)
    +:+ byte (128 + (cp / 64) mod 64) +:+ byte (128 + cp mod 64).

Definition is_high (u : Z) : bool := (55296 <=? u) && (u <=? 56319).
Definition is_low (u : Z) : bool := (56320 <=? u) && (u <=? 57343).

(** The bytes of the decoded literal; a surrogate pair of escapes is
    one code point. *)
Fixpoint encode_items (l : list str_item) : string :=
  match l with
  | [] => EmptyString
  | Raw c :: r => String c (encode_items r)
  | CodeUnit hi :: r =>
    match r with
    | CodeUnit lo :: r' =>
      if is_high hi && is_low lo
      then utf8 (65536 + (hi - 55296) * 1024 + (lo - 56320)) +:+ encode_items r'
      else utf8 hi +:+ encode_items r
    | _ => utf8 hi +:+ encode_items r
    end
  end.

Definition parse_literal (lit : string) (v : json) (s : string) : option (json * string) :=
  if String.prefix lit s then Some (v, JSString.drop (String.length lit) s) else None.

(** value, elements (after [[]) and members (after [{]); every call
    spends one unit of fuel. *)
Fixpoint parse_value (fuel : nat) (s : string) {struct fuel} : option (json * string) :=
  match fuel with
  | O => None
  | S fuel' =>
    match s with
    | EmptyString => None
    | String c r =>
      if code_is c 123 then
        match skip_ws r with
        | String c' r' =>
          if code_is c' 125 then Some (JObj [], r') else parse_members fuel' (skip_ws r) []
        | EmptyString => None
        end
      else if code_is c 91 then
        match skip_ws r with
        | String c' r' =>
          if code_is c' 93 then Some (JArr [], r') else parse_elements fuel' (skip_ws r) []
        | EmptyString => None
        end
      else if code_is c 34 then
        match parse_chars r [] with
        | Some (items, r') => Some (JStr (encode_items items), r')
        | None => None
        end
      else if code_is c 116 then parse_literal "true" (JBool true) s
      else if code_is c 102 then parse_literal "false" (JBool false) s
      else if code_is c 110 then parse_literal "null" JNull s
      else
        match parse_number s with
        | Some (q, r') => Some (JNum q, r')
        | None => None
        end
    end
  end
with parse_elements (fuel : nat) (s : string) (acc : list json) {struct fuel}
     : option (json * string) :=
  match fuel with
  | O => None
  | S fuel' =>
    match parse_value fuel' s with
    | None => None
    | Some (v, r) =>
      match skip_ws r with
      | String c r' =>
        if code_is c 44 then parse_elements fuel' (skip_ws r') (v :: acc)
        else if code_is c 93 then Some (JArr (rev (v :: acc)), r')
        else None
      | EmptyString => None
      end
    end
  end
with parse_members (fuel : nat) (s : string) (acc : list (string * json)) {struct fuel}
     : option (json * string) :=
  match fuel with
  | O => None
  | S fuel' =>
    match s with
    | String c r =>
      if code_is c 34 then
        match parse_chars r [] with
        | None => None
        | Some (items, r1) =>
          match skip_ws r1 with
          | String c1 r2 =>
            if code_is c1 58 then
              match parse_value fuel' (skip_ws r2) with
              | None => None
              | Some (v, r3) =>
                match skip_ws r3 with
                | String c2 r4 =>
                  if code_is c2 44
                  then parse_members fuel' (skip_ws r4) ((encode_items items, v) :: acc)
                  else if code_is c2 125
                  then Some (JObj (rev ((encode_items items, v) :: acc)), r4)
                  else None
                | EmptyString => None
                end
              end
            else None
          | EmptyString => None
          end
        end
      else None
    | EmptyString => None
    end
  end.

(** [JSON.parse(text)]: [None] stands for the SyntaxError it throws.
    Two units of fuel per character cover every chain of calls. *)
Definition parse (text : string) : option json :=
  match parse_value (2 * String.length text + 2) (skip_ws text) with
  | Some (v, r) => match skip_ws r with EmptyString => Some v | _ => None end
  | None => None
  end.

(** Own property [k] of an object built by [JSON.parse]: of two
    members with one key the later wins. *)
Fixpoint get_member (k : string) (ms : list (string * json)) : option json :=
  match ms with
  | [] => None
  | (k', v) :: r =>
    match get_member k r with
    | Some v' => Some v'
    | None => if String.eqb k k' then Some v else None
    end
  end.

End JSON.
Export JSON.

(* ================================================================== *)
(** ** Values, exceptions and the coercions of the language *)

(** A value of type [any] coming from parsed data: [None] is [undefined]. *)
Definition jsval : Type := option json.

Inductive number : Type :=
| NaN
| Infinity (negative : bool)
| Fin (q : Q).

Inductive exn : Type :=
| TypeError
| SyntaxError
| Error (message : string)
| External (reason : string).

Inductive Result (A : Type) : Type :=
| Return (a : A)
| Throw (e : exn).
Arguments Return {A} a.
Arguments Throw {A} e.

(** [a <= b] on numbers. *)
Definition num_le (a b : number) : bool :=
  match a, b with
  | NaN, _ | _, NaN => false
  | Infinity true, _ => true
  | _, Infinity false => true
  | Fin x, Fin y => Qle_bool x y
  | _, _ => false
  end.

Definition truthy (v : jsval) : bool :=
  match v with
  | None | Some JNull => false
  | Some (JBool b) => b
  | Some (JNum q) => negb (Qeq_bool q 0)
  | Some (JStr s) => JSString.nonempty s
  | Some (JArr _) | Some (JObj _) => true
  end.

(** [v.name] for the property names the program reads ([choices],
    [message], [content] and the seven keys of the answer): none of
    them is defined by a built-in prototype, so only an object parsed
    from JSON can carry one; reading from [null] or [undefined] throws. *)
Definition get_prop (v : jsval) (name : string) : Result jsval :=
  match v with
  | None | Some JNull => Throw TypeError
  | Some (JObj ms) => Return (get_member name ms)
  | Some _ => Return None
  end.

(** [v[0]]; of a string, its first unit. *)
Definition get_index0 (v : jsval) : Result jsval :=
  match v with
  | None | Some JNull => Throw TypeError
  | Some (JArr l) => Return (head l)
  | Some (JObj ms) => Return (get_member "0" ms)
  | Some (JStr (String c _)) => Return (Some (JStr (String c EmptyString)))
  | Some _ => Return None
  end.

(** Receiver of [.indexOf], [.lastIndexOf] and [.substring]: on
    anything but a string one of the three calls throws a TypeError
    ([undefined] has no properties; numbers, booleans, arrays and parsed
    objects have no callable [substring]). *)
Definition string_receiver (v : jsval) : Result string :=
  match v with
  | Some (JStr s) => Return s
  | _ => Throw TypeError
  end.

(* ================================================================== *)
(** ** Data of the application *)

(** [type AIProvider = 'Google AI' | 'OpenAI' | 'Mistral' | 'OpenRouter'] *)
Inductive AIProvider : Type := GoogleAI | OpenAI | Mistral | OpenRouter.

Definition provider_text (p : AIProvider) : string :=
  match p with
  | GoogleAI => "Google AI"
  | OpenAI => "OpenAI"
  | Mistral => "Mistral"
  | OpenRouter => "OpenRouter"
  end.

(** [provider === 'Google AI'] *)
Definition is_google (p : AIProvider) : bool :=
  match p with GoogleAI => true | _ => false end.

(** The SDK client; it keeps the key it was constructed with. *)
Record GoogleGenAI : Type := { apiKey : option string }.

Record GenerateContentParameters : Type := {
  model : string;
  contents : string;
  config_tools_googleSearch : bool
}.

Record GroundingChunkWeb : Type := { uri : option string; title : option string }.
Record GroundingChunk : Type := { web : option GroundingChunkWeb }.
Record GroundingMetadata : Type := { groundingChunks : option (list GroundingChunk) }.
Record Candidate : Type := { groundingMetadata : option GroundingMetadata }.
Record GenerateContentResponse : Type := {
  text : option string;
  candidates : option (list Candidate)
}.

(** The body of a request is the serialisation of a JSON value; the
    value is kept. *)
Inductive Body : Type := JSON_stringify (v : json).

Record Request : Type := {
  url : string;
  method : string;
  headers : gmap string string;
  body : Body
}.

Record Response : Type := {
  status : Z;
  statusText : string;
  bodyText : string
}.

(** [response.ok]: the status is in the range 200..299. *)
Definition ok (r : Response) : bool := (200 <=? status r) && (status r <=? 299).

Inductive OutboundCall : Type :=
| Fetch (req : Request)
| GenerateContent (client : GoogleGenAI) (params : GenerateContentParameters)
| GenerateImages (client : GoogleGenAI).

(** [sources] as [performAnalysis] returns it. *)
Inductive Sources : Type :=
| SourcesNull
| SourcesUndefined
| SourcesChunks (chunks : list GroundingChunk).

Record Analysis : Type := { responseText : jsval; sources : Sources }.

Inductive Chart : Type :=
| BarChart (value : json) (titleText : string)
| DoughnutChart (score : number) (color : string).

(** Markup of the results container, one constructor per template. *)
Record Card : Type := { card_text : string; card_canvas : bool }.
Record SourceLink : Type := { href : string; link_text : string }.
Record ResultsView : Type := {
  volume_card : option Card;
  competition_card : option Card;
  alternatives_items : list string;
  suggestedTitles_items : list string;
  longTailKeywords_items : list string;
  sources_card : option (list SourceLink)
}.

Inductive Markup : Type :=
| MEmpty
| MLoader
| MError (message : string)
| MResults (view : ResultsView).

Inductive LogoMarkup : Type := LogoEmpty | LogoLoader | LogoImage (src : string).

Record Globals : Type := {
  ai : option GoogleGenAI;
  currentProvider : option AIProvider;
  currentApiKey : option string;
  searchVolumeChart : option Chart;
  competitionChart : option Chart
}.

(** The keyword form: its [disabled] class, the [disabled] flags of its
    controls, and the caption of the button. *)
Record Controls : Type := {
  form_disabled : bool;
  input_disabled : bool;
  countryInput_disabled : bool;
  languageInput_disabled : bool;
  button_disabled : bool;
  button_textContent : string
}.

(** What the user typed. *)
Record Fields : Type := {
  input_value : string;
  countryInput_value : string;
  languageInput_value : string
}.

Record Panels : Type := { settingsPanel_hidden : bool; setupMessage_hidden : bool }.

Record World : Type := {
  globals : Globals;
  controls : Controls;
  fields : Fields;
  panels : Panels;
  resultsContainer : Markup;
  logoContainer : LogoMarkup;
  console : list (string * exn);
  outbound : list OutboundCall
}.

(** The two canvases the program looks up: [search-volume-chart] and
    [competition-chart]. *)
Inductive Canvas : Type := SearchVolumeCanvas | CompetitionCanvas.

(** What lies outside the program: the conversions the language
    applies to values of a type the program does not expect
    ([ToString_other] to anything but a string, [ToNumber_other] to
    anything but a number, [toLocaleString_other] to anything but a
    number or [null]), the locale formatting of a number, the parser
    of the browser, the build-time key, and the answers of the
    collaborators.

    [document_getElementById id m] is whether the document holds an
    element with the id of the canvas [id] once the results container
    has received the markup [m].  The program writes labels and items
    into that markup as they come, unescaped, so what the parser makes
    of the text is not decided by the template alone: a label that
    opens a comment hides every canvas after it. *)
Record Env : Type := {
  ToString_other : json -> Result string;
  ToNumber_other : json -> Result number;
  Number_toLocaleString_arEG : Q -> string;
  toLocaleString_other : json -> Result string;
  document_getElementById : Canvas -> Markup -> bool;
  process_env_API_KEY : option string;
  GoogleGenAI_rejects : option string -> option exn;
  fetch : Request -> Result Response;
  generateContent : GoogleGenAI -> GenerateContentParameters -> Result GenerateContentResponse
}.

(* ------------------------------------------------------------------ *)
(** *** Assignments *)

Definition set_globals (g : Globals) (w : World) : World :=
  {| globals := g; controls := controls w; fields := fields w; panels := panels w;
     resultsContainer := resultsContainer w; logoContainer := logoContainer w;
     console := console w; outbound := outbound w |}.

Definition set_controls (c : Controls) (w : World) : World :=
  {| globals := globals w; controls := c; fields := fields w; panels := panels w;
     resultsContainer := resultsContainer w; logoContainer := logoContainer w;
     console := console w; outbound := outbound w |}.

Definition set_panels (p : Panels) (w : World) : World :=
  {| globals := globals w; controls := controls w; fields := fields w; panels := p;
     resultsContainer := resultsContainer w; logoContainer := logoContainer w;
     console := console w; outbound := outbound w |}.

Definition set_resultsContainer (m : Markup) (w : World) : World :=
  {| globals := globals w; controls := controls w; fields := fields w; panels := panels w;
     resultsContainer := m; logoContainer := logoContainer w;
     console := console w; outbound := outbound w |}.

Definition set_logoContainer (l : LogoMarkup) (w : World) : World :=
  {| globals := globals w; controls := controls w; fields := fields w; panels := panels w;
     resultsContainer := resultsContainer w; logoContainer := l;
     console := console w; outbound := outbound w |}.

Definition log_error (label : string) (e : exn) (w : World) : World :=
  {| globals := globals w; controls := controls w; fields := fields w; panels := panels w;
     resultsContainer := resultsContainer w; logoContainer := logoContainer w;
     console := console w ++ [(label, e)]; outbound := outbound w |}.

Definition record_call (c : OutboundCall) (w : World) : World :=
  {| globals := globals w; controls := controls w; fields := fields w; panels := panels w;
     resultsContainer := resultsContainer w; logoContainer := logoContainer w;
     console := console w; outbound := outbound w ++ [c] |}.

Definition set_ai (v : option GoogleGenAI) (g : Globals) : Globals :=
  {| ai := v; currentProvider := currentProvider g; currentApiKey := currentApiKey g;
     searchVolumeChart := searchVolumeChart g; competitionChart := competitionChart g |}.

Definition set_currentProvider (v : option AIProvider) (g : Globals) : Globals :=
  {| ai := ai g; currentProvider := v; currentApiKey := currentApiKey g;
     searchVolumeChart := searchVolumeChart g; competitionChart := competitionChart g |}.

Definition set_currentApiKey (v : option string) (g : Globals) : Globals :=
  {| ai := ai g; currentProvider := currentProvider g; currentApiKey := v;
     searchVolumeChart := searchVolumeChart g; competitionChart := competitionChart g |}.

Definition set_searchVolumeChart (v : option Chart) (g : Globals) : Globals :=
  {| ai := ai g; currentProvider := currentProvider g; currentApiKey := currentApiKey g;
     searchVolumeChart := v; competitionChart := competitionChart g |}.

Definition set_competitionChart (v : option Chart) (g : Globals) : Globals :=
  {| ai := ai g; currentProvider := currentProvider g; currentApiKey := currentApiKey g;
     searchVolumeChart := searchVolumeChart g; competitionChart := v |}.

(* ------------------------------------------------------------------ *)
(** *** Statements: state passing with exceptions *)

Definition M (A : Type) : Type := World -> Result A * World.

Definition ret {A} (a : A) : M A := fun w => (Return a, w).
Definition throw {A} (e : exn) : M A := fun w => (Throw e, w).
Definition lift {A} (r : Result A) : M A := fun w => (r, w).
Definition gets {A} (f : World -> A) : M A := fun w => (Return (f w), w).
Definition modify (f : World -> World) : M unit := fun w => (Return tt, f w).
Definition assign (f : Globals -> Globals) : M unit :=
  modify (fun w => set_globals (f (globals w)) w).

Definition bind {A B} (m : M A) (k : A -> M B) : M B :=
  fun w =>
    match m w with
    | (Return a, w') => k a w'
    | (Throw e, w') => (Throw e, w')
    end.

(** [try { body } catch (error) { handler }] *)
Definition try_catch {A} (body : M A) (handler : exn -> M A) : M A :=
  fun w =>
    match body w with
    | (Return a, w') => (Return a, w')
    | (Throw e, w') => handler e w'
    end.

(** [... finally { cleanup }] *)
Definition finally {A} (body : M A) (cleanup : M unit) : M A :=
  fun w =>
    let '(r, w') := body w in
    match cleanup w' with
    | (Return _, w'') => (r, w'')
    | (Throw e, w'') => (Throw e, w'')
    end.

(** Statements are sequenced with the monad notations of stdpp:
    [x ← m; k] and [m;; k]. *)
#[global] Instance M_ret : MRet M := @ret.
#[global] Instance M_bind : MBind M := fun A B k m => bind m k.

(** The outbound calls a statement adds to the record. *)
Definition calls_issued {A} (m : M A) (w : World) : list OutboundCall :=
  skipn (length (outbound w)) (outbound (snd (m w))).

(* ================================================================== *)
(** ** The program *)

Definition nl : string := String (ascii_of_nat 10) EmptyString.

Definition searchInstruction (useGoogleSearch : bool) : string :=
  if useGoogleSearch then "using Google Search" else "based on your extensive knowledge".

Definition locationInstruction (country language : string) : string :=
  if JSString.nonempty country && JSString.nonempty language
  then " for the target country " +:+ JSString.quoted country
       +:+ " and language " +:+ JSString.quoted language
  else if JSString.nonempty country
  then " for the target country " +:+ JSString.quoted country
  else if JSString.nonempty language
  then " for the target language " +:+ JSString.quoted language
  else "".

Definition createPrompt (keyword country language : string) (useGoogleSearch : bool) : string :=
  let q := JSString.quoted in
  nl
  +:+ "      You are an expert SEO analyst. Analyze the keyword " +:+ q keyword
  +:+ locationInstruction country language +:+ " " +:+ searchInstruction useGoogleSearch
  +:+ "." +:+ nl
  +:+ "      Provide a complete and detailed study." +:+ nl
  +:+ "      You MUST ONLY return a valid JSON object. Do not include markdown formatting like ```json."
  +:+ nl
  +:+ "      The JSON object must have these exact keys:" +:+ nl
  +:+ "      - " +:+ q "searchVolume"
  +:+ ": A string describing the estimated monthly search volume (e.g., "
  +:+ q "High (10k-100k)" +:+ ", " +:+ q "Medium (1k-10k)" +:+ ", " +:+ q "Low (100-1k)"
  +:+ ")." +:+ nl
  +:+ "      - " +:+ q "searchVolumeValue"
  +:+ ": An integer representing the estimated average monthly search volume (e.g., for "
  +:+ q "10k-100k" +:+ " you could return 55000)." +:+ nl
  +:+ "      - " +:+ q "competition"
  +:+ ": A string describing the SEO competition difficulty (e.g., "
  +:+ q "High" +:+ ", " +:+ q "Medium" +:+ ", " +:+ q "Low" +:+ ")." +:+ nl
  +:+ "      - " +:+ q "competitionScore"
  +:+ ": An integer from 0 (very easy) to 100 (very hard) representing SEO competition difficulty."
  +:+ nl
  +:+ "      - " +:+ q "alternatives" +:+ ": An array of 3-5 strong alternative keywords." +:+ nl
  +:+ "      - " +:+ q "suggestedTitles"
  +:+ ": An array of 3-5 compelling, SEO-friendly article titles." +:+ nl
  +:+ "      - " +:+ q "longTailKeywords"
  +:+ ": An array of 3-5 related long-tail keywords that are easier to rank for." +:+ nl
  +:+ "    ".

(** The [switch] over the provider: endpoint, model and headers.  The
    branch for ['Google AI'] is the state of the variables when no case
    matches. *)
Definition endpoint (provider : AIProvider) : string :=
  match provider with
  | OpenAI => "https://api.openai.com/v1/chat/completions"
  | Mistral => "https://api.mistral.ai/v1/chat/completions"
  | OpenRouter => "https://openrouter.ai/api/v1/chat/completions"
  | GoogleAI => ""
  end.

Definition model_id (provider : AIProvider) : string :=
  match provider with
  | OpenAI => "gpt-4o"
  | Mistral => "mistral-large-latest"
  | OpenRouter => "google/gemini-flash-1.5"
  | GoogleAI => ""
  end.

Definition request_headers (provider : AIProvider) (apiKey : string) : gmap string string :=
  let headers : gmap string string :=
    <["Authorization" := "Bearer " +:+ apiKey]> (<["Content-Type" := "application/json"]> ∅) in
  match provider with
  | OpenRouter =>
    <["X-Title" := "Keyword Analyzer"]>
      (<["HTTP-Referer" := "https://keyword-analyzer.com"]> headers)
  | _ => headers
  end.

Definition request_body (provider : AIProvider) (prompt : string) : Body :=
  JSON_stringify (JObj [
    ("model", JStr (model_id provider));
    ("messages", JArr [JObj [("role", JStr "user"); ("content", JStr prompt)]]);
    ("response_format", JObj [("type", JStr "json_object")])
  ]).

(** [response.candidates?.[0]?.groundingMetadata?.groundingChunks] *)
Definition grounding_sources (response : GenerateContentResponse) : Sources :=
  match candidates response with
  | Some (c :: _) =>
    match groundingMetadata c with
    | Some md =>
      match groundingChunks md with
      | Some chunks => SourcesChunks chunks
      | None => SourcesUndefined
      end
    | None => SourcesUndefined
    end
  | _ => SourcesUndefined
  end.

Definition jsval_of_text (t : option string) : jsval :=
  match t with Some s => Some (JStr s) | None => None end.

(** [`API request failed for ${provider}: ${response.statusText} - ${errorBody}`] *)
Definition http_error (provider : AIProvider) (response : Response) : exn :=
  Error ("API request failed for " +:+ provider_text provider +:+ ": "
         +:+ statusText response +:+ " - " +:+ bodyText response).

(** [response.json()] *)
Definition response_json (response : Response) : Result json :=
  match JSON.parse (bodyText response) with
  | Some data => Return data
  | None => Throw SyntaxError
  end.

Definition setup_failed_message : string := "فشل تهيئة العميل. يرجى التحقق من مفتاح API الخاص بك.".
Definition not_configured_message : string := "يرجى إعداد مزود الخدمة ومفتاح API الخاص بك أولاً.".
Definition generic_error_message : string := "حدث خطأ أثناء تحليل الكلمة المفتاحية. يرجى التأكد من أن الإدخال صحيح والمحاولة مرة أخرى.".
Definition loading_caption : string := "جاري التحليل...".
Definition idle_caption : string := "تحليل".
Definition unavailable : string := "غير متوفر".

Definition template_text (o : option string) : string :=
  match o with Some s => s | None => "undefined" end.

(** One entry of the source list, or nothing for a chunk without [web]. *)
Definition source_link (source : GroundingChunk) : option SourceLink :=
  match web source with
  | Some w =>
    Some {| href := template_text (uri w);
            link_text := match title w with
                         | Some t => if JSString.nonempty t then t else template_text (uri w)
                         | None => template_text (uri w)
                         end |}
  | None => None
  end.

(** The source card [renderResults] appends, if any. *)
Definition sources_markup (srcs : Sources) : option (list SourceLink) :=
  match srcs with
  | SourcesChunks chunks =>
    match omap source_link chunks with
    | [] => None
    | links => Some links
    end
  | _ => None
  end.

Definition append_sources (links : list SourceLink) (m : Markup) : Markup :=
  match m with
  | MResults v =>
    MResults {| volume_card := volume_card v; competition_card := competition_card v;
                alternatives_items := alternatives_items v;
                suggestedTitles_items := suggestedTitles_items v;
                longTailKeywords_items := longTailKeywords_items v;
                sources_card := Some links |}
  | _ => m
  end.

(** The colour of the gauge. *)
Definition gauge_color (score : number) : string :=
  if num_le score (Fin 33) then "#34A853"
  else if num_le score (Fin 66) then "#FBBC05"
  else "#EA4335".

Definition is_defined (v : jsval) : bool :=
  match v with Some _ => true | None => false end.

Definition Result_bind {A B} (r : Result A) (k : A -> Result B) : Result B :=
  match r with
  | Return a => k a
  | Throw e => Throw e
  end.

Section Program.

Variable env : Env.

(** [`${v}`] *)
(** [document.getElementById(id)] for the two canvases, in the state
    of the page. *)
Definition getElementById (id : Canvas) (w : World) : bool :=
  document_getElementById env id (resultsContainer w).

Definition interpolate (v : json) : Result string :=
  match v with
  | JStr s => Return s
  | _ => ToString_other env v
  end.

(** The numeric value of [v] in a comparison. *)
Definition to_number (v : json) : Result number :=
  match v with
  | JNum q => Return (Fin q)
  | _ => ToNumber_other env v
  end.

(** [v.toLocaleString('ar-EG')] *)
Definition toLocaleString (v : json) : Result string :=
  match v with
  | JNull => Throw TypeError
  | JNum q => Return (Number_toLocaleString_arEG env q)
  | _ => toLocaleString_other env v
  end.

(** [`${label || 'غير متوفر'}`] *)
Definition label_text (label : jsval) : Result string :=
  match label with
  | Some v => if truthy label then interpolate v else Return unavailable
  | None => Return unavailable
  end.

(** A card and its optional canvas:
    [(value !== undefined || label) ? `... ${label || 'غير متوفر'} ...` : ''] *)
Definition card (value label : jsval) : Result (option Card) :=
  if is_defined value || truthy label then
    Result_bind (label_text label) (fun t =>
    Return (Some {| card_text := t; card_canvas := is_defined value |}))
  else Return None.

Fixpoint map_items (l : list json) : Result (list string) :=
  match l with
  | [] => Return []
  | item :: r =>
    Result_bind (interpolate item) (fun s =>
    Result_bind (map_items r) (fun ss =>
    Return (s :: ss)))
  end.

(** [(v || []).map((item) => `<li>${item}</li>`)] *)
Definition list_items (v : jsval) : Result (list string) :=
  if truthy v then
    match v with
    | Some (JArr l) => map_items l
    | _ => Throw TypeError
    end
  else Return [].

(** The template of [renderResults], evaluated in source order. *)
Definition results_view (searchVolume searchVolumeValue competition competitionScore
                         alternatives suggestedTitles longTailKeywords : jsval)
  : Result ResultsView :=
  Result_bind (card searchVolumeValue searchVolume) (fun c1 =>
  Result_bind (card competitionScore competition) (fun c2 =>
  Result_bind (list_items alternatives) (fun l1 =>
  Result_bind (list_items suggestedTitles) (fun l2 =>
  Result_bind (list_items longTailKeywords) (fun l3 =>
  Return {| volume_card := c1; competition_card := c2;
            alternatives_items := l1; suggestedTitles_items := l2;
            longTailKeywords_items := l3; sources_card := None |}))))).

Definition call_fetch (req : Request) : M Response :=
  fun w => (fetch env req, record_call (Fetch req) w).

Definition call_generateContent (client : GoogleGenAI) (params : GenerateContentParameters)
  : M GenerateContentResponse :=
  fun w => (generateContent env client params, record_call (GenerateContent client params) w).

(** [new GoogleGenAI({ apiKey: key })] *)
Definition new_GoogleGenAI (key : option string) : M GoogleGenAI :=
  match GoogleGenAI_rejects env key with
  | Some e => throw e
  | None => ret {| apiKey := key |}
  end.

Definition performAnalysis (keyword country language : string) (provider : AIProvider)
                           (apiKey : string) : M Analysis :=
  let prompt := createPrompt keyword country language (is_google provider) in
  if is_google provider then
    client ← gets (fun w => ai (globals w));
    match client with
    | None => throw (Error "Google AI client not initialized.")
    | Some c =>
      response ← call_generateContent c
        {| model := "gemini-2.5-flash"; contents := prompt;
           config_tools_googleSearch := true |};
      ret {| responseText := jsval_of_text (text response);
             sources := grounding_sources response |}
    end
  else
    response ← call_fetch
      {| url := endpoint provider; method := "POST";
         headers := request_headers provider apiKey;
         body := request_body provider prompt |};
    if negb (ok response) then throw (http_error provider response)
    else
      data ← lift (response_json response);
      choices ← lift (get_prop (Some data) "choices");
      choice ← lift (get_index0 choices);
      message ← lift (get_prop choice "message");
      content ← lift (get_prop message "content");
      ret {| responseText := content; sources := SourcesNull |}.

Definition setLoading (isLoading : bool) : M unit :=
  modify (fun w => set_controls
    {| form_disabled := form_disabled (controls w);
       input_disabled := isLoading;
       countryInput_disabled := isLoading;
       languageInput_disabled := isLoading;
       button_disabled := isLoading;
       button_textContent := if isLoading then loading_caption else idle_caption |} w).

Definition renderError (message : string) : M unit :=
  modify (set_resultsContainer (MError message)).

Definition renderSearchVolumeChart (value : json) : M unit :=
  ctx ← gets (getElementById SearchVolumeCanvas);
  if negb ctx then ret tt
  else
    titleText ← lift (toLocaleString value);
    assign (set_searchVolumeChart (Some (BarChart value titleText))).

Definition renderCompetitionChart (score : json) : M unit :=
  ctx ← gets (getElementById CompetitionCanvas);
  if negb ctx then ret tt
  else
    n ← lift (to_number score);
    assign (set_competitionChart (Some (DoughnutChart n (gauge_color n)))).

Definition renderResults (data : json) (srcs : Sources) : M unit :=
  assign (set_searchVolumeChart None);;
  assign (set_competitionChart None);;
  modify (set_resultsContainer MEmpty);;
  searchVolume ← lift (get_prop (Some data) "searchVolume");
  searchVolumeValue ← lift (get_prop (Some data) "searchVolumeValue");
  competition ← lift (get_prop (Some data) "competition");
  competitionScore ← lift (get_prop (Some data) "competitionScore");
  alternatives ← lift (get_prop (Some data) "alternatives");
  suggestedTitles ← lift (get_prop (Some data) "suggestedTitles");
  longTailKeywords ← lift (get_prop (Some data) "longTailKeywords");
  view ← lift (results_view searchVolume searchVolumeValue competition competitionScore
                             alternatives suggestedTitles longTailKeywords);
  modify (set_resultsContainer (MResults view));;
  match searchVolumeValue with
  | Some v => renderSearchVolumeChart v
  | None => ret tt
  end;;
  match competitionScore with
  | Some v => renderCompetitionChart v
  | None => ret tt
  end;;
  match sources_markup srcs with
  | Some links => modify (fun w => set_resultsContainer (append_sources links (resultsContainer w)) w)
  | None => ret tt
  end.

(** The span from the first [{] to the last [}]. *)
Definition jsonString (responseText : string) : string :=
  JSString.substring responseText
    (JSString.indexOf responseText "{")
    (JSString.lastIndexOf responseText "}" + 1).

(** The body of the [try] block of the submit handler. *)
Definition analyse_and_render (keyword country language : string) (provider : AIProvider)
                              (apiKey : string) : M unit :=
  analysis ← performAnalysis keyword country language provider apiKey;
  responseText ← lift (string_receiver (responseText analysis));
  match JSON.parse (jsonString responseText) with
  | None => throw SyntaxError
  | Some data => renderResults data (sources analysis)
  end.

(** The submit handler of the keyword form. *)
Definition on_submit : M unit :=
  provider ← gets (fun w => currentProvider (globals w));
  apiKey ← gets (fun w => currentApiKey (globals w));
  match provider, apiKey with
  | Some provider, Some (String a k) =>
    let apiKey := String a k in
    keyword ← gets (fun w => JSString.trim (input_value (fields w)));
    country ← gets (fun w => JSString.trim (countryInput_value (fields w)));
    language ← gets (fun w => JSString.trim (languageInput_value (fields w)));
    if negb (JSString.nonempty keyword) then ret tt
    else
      setLoading true;;
      modify (set_resultsContainer MLoader);;
      finally
        (try_catch
           (analyse_and_render keyword country language provider apiKey)
           (fun error =>
              modify (log_error "" error);;
              renderError generic_error_message))
        (setLoading false)
  | _, _ => renderError not_configured_message
  end.

Definition showSetup : M unit :=
  modify (set_panels {| settingsPanel_hidden := false; setupMessage_hidden := false |});;
  modify (fun w => set_controls
    {| form_disabled := true; input_disabled := true; countryInput_disabled := true;
       languageInput_disabled := true; button_disabled := true;
       button_textContent := button_textContent (controls w) |} w).

(** [generateAndSetLogo()] up to its first [await]: the call is not
    awaited by [setupApplication], and what happens when the image
    arrives is outside this model. *)
Definition generateAndSetLogo : M unit :=
  client ← gets (fun w => ai (globals w));
  match client with
  | None => ret tt
  | Some c =>
    modify (set_logoContainer LogoLoader);;
    modify (record_call (GenerateImages c))
  end.

Definition setupApplication (provider : AIProvider) (apiKey : string) : M unit :=
  try_catch
    (assign (set_currentProvider (Some provider));;
     assign (set_currentApiKey (Some apiKey));;
     (if is_google provider then
        client ← new_GoogleGenAI (process_env_API_KEY env);
        assign (set_ai (Some client));;
        generateAndSetLogo
      else
        assign (set_ai None);;
        modify (set_logoContainer LogoEmpty));;
     modify (set_panels {| settingsPanel_hidden := true; setupMessage_hidden := true |});;
     modify (fun w => set_controls
       {| form_disabled := false; input_disabled := false; countryInput_disabled := false;
          languageInput_disabled := false; button_disabled := false;
          button_textContent := button_textContent (controls w) |} w))
    (fun error =>
       modify (log_error "Failed to initialize:" error);;
       renderError setup_failed_message;;
       showSetup).

End Program.

(* ================================================================== *)
(** ** Notions used in the statements *)

(** The prompt an outbound call carries: [contents] of a generation
    call, [messages[0].content] of a chat completion request. *)
Definition prompt_of_call (c : OutboundCall) : option string :=
  match c with
  | GenerateContent _ params => Some (contents params)
  | Fetch req =>
    match body req with
    | JSON_stringify (JObj ms) =>
      match get_member "messages" ms with
      | Some (JArr (JObj m :: _)) =>
        match get_member "content" m with
        | Some (JStr prompt) => Some prompt
        | _ => None
        end
      | _ => None
      end
    | _ => None
    end
  | GenerateImages _ => None
  end.

(** Whether [performAnalysis] stops at its guard: the provider is
    ['Google AI'] and there is no client. *)
Definition guard_stops (provider : AIProvider) (w : World) : bool :=
  match provider, ai (globals w) with
  | GoogleAI, None => true
  | _, _ => false
  end.

(** A projection [f] of the state is kept by the statement [m]. *)
Definition frame {A B} (f : World -> B) (m : M A) : Prop :=
  forall w, f (snd (m w)) = f w.

(** The client, the provider and the key. *)
Definition session (w : World) : option GoogleGenAI * option AIProvider * option string :=
  (ai (globals w), currentProvider (globals w), currentApiKey (globals w)).

(** The state in which the [try] block of the submit handler starts:
    controls disabled, loader shown. *)
Definition loading (w : World) : World :=
  set_resultsContainer MLoader (snd (setLoading true w)).

(** The state in which the submit handler ends when [e] was thrown
    in state [w]: the error logged, the generic message shown, the
    controls enabled again. *)
Definition failed (e : exn) (w : World) : World :=
  snd (setLoading false
         (set_resultsContainer (MError generic_error_message) (log_error "" e w))).

(** The state in which the submit handler ends when the [try] block
    completed in state [w]. *)
Definition succeeded (w : World) : World := snd (setLoading false w).

(** [r] with a thrown exception read as [undefined], as the optional
    chaining [?.] would. *)
Definition optional (r : Result jsval) : jsval :=
  match r with
  | Return v => v
  | Throw _ => None
  end.

(** [null] or [undefined]: the values through which a property
    cannot be read. *)
Definition nullish (v : jsval) : bool :=
  match v with
  | None | Some JNull => true
  | Some _ => false
  end.

(** The content of the chat completion envelope of [data], if it has
    one: [data?.choices?.[0]?.message?.content]. *)
Definition envelope_content (data : json) : jsval :=
  let choices := optional (get_prop (Some data) "choices") in
  let choice := optional (get_index0 choices) in
  let message := optional (get_prop choice "message") in
  optional (get_prop message "content").

(** The request [performAnalysis] sends to a provider other than
    ['Google AI']. *)
Definition chat_request (keyword country language : string) (provider : AIProvider)
                        (apiKey : string) : Request :=
  {| url := endpoint provider; method := "POST";
     headers := request_headers provider apiKey;
     body := request_body provider (createPrompt keyword country language false) |}.

(** The keyword, country and language a submission reads from the form. *)
Definition typed_keyword (w : World) : string := JSString.trim (input_value (fields w)).
Definition typed_country (w : World) : string := JSString.trim (countryInput_value (fields w)).
Definition typed_language (w : World) : string := JSString.trim (languageInput_value (fields w)).

(** A label as the card shows it. *)
Definition shown_label (label : option string) : string :=
  match label with
  | Some (String a s) => String a s
  | _ => unavailable
  end.

(** The card of a label and its number, both optional. *)
Definition shown_card (label : option string) (value : option Q) : option Card :=
  match value, label with
  | None, None | None, Some EmptyString => None
  | _, _ => Some {| card_text := shown_label label;
                    card_canvas := match value with Some _ => true | None => false end |}
  end.

(** The last character of a string, and whether a character occurs in it. *)
Fixpoint last_char (s : string) : option ascii :=
  match s with
  | EmptyString => None
  | String c EmptyString => Some c
  | String _ r => last_char r
  end.

Fixpoint has_char (c : ascii) (s : string) : bool :=
  match s with
  | EmptyString => false
  | String a r => Ascii.eqb a c || has_char c r
  end.

Definition lbrace : ascii := ascii_of_nat 123.
Definition rbrace : ascii := ascii_of_nat 125.

(** [consumed s r c]: [r] is what is left of [s] after a non-empty
    prefix whose last character is [c]. *)
Definition consumed (s r : string) (c : ascii) : Prop :=
  exists p, s = p +:+ String c r.

Definition is_digit (c : ascii) : Prop := exists d, digit_of c = Some d.

(** What a value consumed: a non-empty prefix, and if that prefix ends
    with a closing brace then it starts with an opening one. *)
Definition value_consumed (s r : string) : Prop :=
  exists c, consumed s r c /\ (c = rbrace -> exists t, s = String lbrace t).

(* ================================================================== *)
(** ** The settings form, the storage and the start of the script *)

(** The page beyond the keyword form: the entries of [localStorage],
    the two controls of the settings form, and whether the logo
    container has [display: none]. *)
Record Page : Type := {
  world : World;
  localStorage : gmap string string;
  providerSelect_value : string;
  apiKeyInput_value : string;
  logoContainer_hidden : bool
}.

Definition set_world (w : World) (pg : Page) : Page :=
  {| world := w; localStorage := localStorage pg;
     providerSelect_value := providerSelect_value pg;
     apiKeyInput_value := apiKeyInput_value pg;
     logoContainer_hidden := logoContainer_hidden pg |}.

(** [localStorage.setItem(key, value)] *)
Definition setItem (key value : string) (pg : Page) : Page :=
  {| world := world pg; localStorage := <[key := value]> (localStorage pg);
     providerSelect_value := providerSelect_value pg;
     apiKeyInput_value := apiKeyInput_value pg;
     logoContainer_hidden := logoContainer_hidden pg |}.

(** [localStorage.getItem(key)] *)
Definition getItem (key : string) (pg : Page) : option string := localStorage pg !! key.

(** [providerSelect.value = provider; apiKeyInput.value = apiKey] *)
Definition set_settings_fields (provider apiKey : string) (pg : Page) : Page :=
  {| world := world pg; localStorage := localStorage pg;
     providerSelect_value := provider;
     apiKeyInput_value := apiKey;
     logoContainer_hidden := logoContainer_hidden pg |}.

(** [logoContainer.style.display = 'none'] *)
Definition hide_logo (pg : Page) : Page :=
  {| world := world pg; localStorage := localStorage pg;
     providerSelect_value := providerSelect_value pg;
     apiKeyInput_value := apiKeyInput_value pg;
     logoContainer_hidden := true |}.

(** The cast [text as AIProvider]: the provider a text denotes.  A
    text that is none of the four has no value at the type. *)
Definition as_AIProvider (text : string) : option AIProvider :=
  if String.eqb text "Google AI" then Some GoogleAI
  else if String.eqb text "OpenAI" then Some OpenAI
  else if String.eqb text "Mistral" then Some Mistral
  else if String.eqb text "OpenRouter" then Some OpenRouter
  else None.

(** A statement on the keyword form, run on the page. *)
Definition on_world {A} (m : M A) (pg : Page) : Result A * Page :=
  let '(r, w) := m (world pg) in (r, set_world w pg).

(** [settingsPanel.classList.toggle('hidden')], the click handler of
    the settings button. *)
Definition on_settings_toggle : M unit :=
  modify (fun w => set_panels
    {| settingsPanel_hidden := negb (settingsPanel_hidden (panels w));
       setupMessage_hidden := setupMessage_hidden (panels w) |} w).

Record Image : Type := { imageBytes : option string }.
Record GeneratedImage : Type := { image : option Image }.
Record GenerateImagesResponse : Type := { generatedImages : option (list GeneratedImage) }.

(** [response.generatedImages[0].image.imageBytes] *)
Definition first_imageBytes (response : GenerateImagesResponse) : Result (option string) :=
  match generatedImages response with
  | Some (g :: _) =>
    match image g with
    | Some i => Return (imageBytes i)
    | None => Throw TypeError
    end
  | _ => Throw TypeError
  end.

(** [generateAndSetLogo()] from the moment the awaited image request
    settles, with its response or its rejection. *)
Definition generateAndSetLogo_settled (outcome : Result GenerateImagesResponse) (pg : Page)
  : Page :=
  match Result_bind outcome first_imageBytes with
  | Return base64ImageBytes =>
    set_world (set_logoContainer
                 (LogoImage ("data:image/png;base64," +:+ template_text base64ImageBytes))
                 (world pg)) pg
  | Throw error =>
    hide_logo (set_world (log_error "Error generating logo:" error (world pg)) pg)
  end.

Section Settings.

Variable env : Env.

(** The submit handler of the settings form.  [None]: the text of the
    select is none of the four providers, which its cast excludes. *)
Definition on_apiKey_submit (pg : Page) : option (Result unit * Page) :=
  let provider := providerSelect_value pg in
  let apiKey := JSString.trim (apiKeyInput_value pg) in
  if JSString.nonempty apiKey && JSString.nonempty provider then
    match as_AIProvider provider with
    | Some p =>
      Some (on_world (setupApplication env p apiKey)
                     (setItem "api_key" apiKey (setItem "ai_provider" provider pg)))
    | None => None
    end
  else Some (Return tt, pg).

(** [main()], run when the script loads.  [None]: the stored provider
    is none of the four, which its cast excludes. *)
Definition main (pg : Page) : option (Result unit * Page) :=
  match getItem "ai_provider" pg, getItem "api_key" pg with
  | Some (String a savedProvider), Some (String b savedApiKey) =>
    match as_AIProvider (String a savedProvider) with
    | Some p =>
      Some (on_world (setupApplication env p (String b savedApiKey))
                     (set_settings_fields (String a savedProvider) (String b savedApiKey) pg))
    | None => None
    end
  | _, _ => Some (on_world showSetup pg)
  end.

End Settings.

(** The charts are those the two renderers create: a bar chart in the
    first slot, and in the second a doughnut whose colour is the one of
    its score. *)
Definition charts_well_formed (w : World) : Prop :=
  match searchVolumeChart (globals w) with
  | Some (DoughnutChart _ _) => False
  | _ => True
  end
  /\ match competitionChart (globals w) with
     | Some (BarChart _ _) => False
     | Some (DoughnutChart n c) => c = gauge_color n
     | None => True
     end.

(** Whether the template wrote a canvas into the card. *)
Definition canvas_of (c : option Card) : bool :=
  match c with Some cd => card_canvas cd | None => false end.

(** Where the code of the page starts to run: the call of [main] that
    ends the script, the three listeners it registers, each run to
    completion, and the settling of the image request. *)
Inductive Event : Type :=
| ScriptRuns
| ApiKeyFormSubmit
| KeywordFormSubmit
| SettingsToggleClick
| LogoRequestSettles (outcome : Result GenerateImagesResponse).

(** The page after the code started by an event has run.  [None]: a
    text outside the four providers reached a cast. *)
Definition handle (env : Env) (ev : Event) (pg : Page) : option Page :=
  match ev with
  | ScriptRuns => snd <$> main env pg
  | ApiKeyFormSubmit => snd <$> on_apiKey_submit env pg
  | KeywordFormSubmit => Some (snd (on_world (on_submit env) pg))
  | SettingsToggleClick => Some (snd (on_world on_settings_toggle pg))
  | LogoRequestSettles outcome => Some (generateAndSetLogo_settled outcome pg)
  end.

(** A property of the state is kept by the statement [m], whether [m]
    returns or throws. *)
Definition preserves {A} (P : World -> Prop) (m : M A) : Prop :=
  forall w, P w -> P (snd (m w)).

(** The provider and the key of the session are those in the storage,
    and the key is not empty. *)
Definition session_saved (pg : Page) : Prop :=
  (forall p, currentProvider (globals (world pg)) = Some p ->
     exists text, getItem "ai_provider" pg = Some text /\ as_AIProvider text = Some p)
  /\ (forall k, currentApiKey (globals (world pg)) = Some k ->
        getItem "api_key" pg = Some k /\ k <> "").

(** The client a call goes through, for the calls to Google. *)
Definition client_of_call (c : OutboundCall) : option GoogleGenAI :=
  match c with
  | GenerateContent client _ => Some client
  | GenerateImages client => Some client
  | Fetch _ => None
  end.

(** Google is only ever reached with the build-time key: a client
    exists only while the provider is ['Google AI'], it holds the
    build-time key, which the constructor accepted, and so does every
    client a recorded call went through. *)
Definition google_key_is_build_key (env : Env) (w : World) : Prop :=
  (forall c, ai (globals w) = Some c ->
     apiKey c = process_env_API_KEY env
     /\ currentProvider (globals w) = Some GoogleAI
     /\ GoogleGenAI_rejects env (process_env_API_KEY env) = None)
  /\ Forall (fun call => forall c, client_of_call call = Some c ->
                                   apiKey c = process_env_API_KEY env) (outbound w).

(** The three fields and the button of the keyword form are enabled or
    disabled together. *)
Definition controls_agree (w : World) : Prop :=
  countryInput_disabled (controls w) = input_disabled (controls w)
  /\ languageInput_disabled (controls w) = input_disabled (controls w)
  /\ button_disabled (controls w) = input_disabled (controls w).

(* ================================================================== *)
(** ** Sample surroundings for concrete runs *)

Module Sample.

(** Whether the text of a card opens a comment. *)
Definition opens_comment (c : option Card) : bool :=
  match c with
  | Some cd => 0 <=? JSString.indexOf (card_text cd) "<!--"
  | None => false
  end.

(** A stand-in for the parser of the browser, right for texts whose
    only markup is the opening of a comment that is never closed: the
    rest of the template then is a comment, so a canvas is found when
    its card was written with it and no label before it opens a
    comment. *)
Definition sample_getElementById (id : Canvas) (m : Markup) : bool :=
  match m with
  | MResults v =>
    match id with
    | SearchVolumeCanvas =>
      canvas_of (volume_card v) && negb (opens_comment (volume_card v))
    | CompetitionCanvas =>
      canvas_of (competition_card v) && negb (opens_comment (volume_card v))
      && negb (opens_comment (competition_card v))
    end
  | _ => false
  end.

(** Collaborators that always give the same answers.  The conversions
    of unexpected types are never reached by the sample data. *)
Definition sample_env (API_KEY : option string) (answer : Result Response)
                      (grounded : Result GenerateContentResponse) : Env :=
  {| ToString_other := fun _ => Return "[object Object]";
     ToNumber_other := fun _ => Return NaN;
     Number_toLocaleString_arEG := fun _ => "٥٬٠٠٠";
     toLocaleString_other := fun _ => Return "[object Object]";
     document_getElementById := sample_getElementById;
     process_env_API_KEY := API_KEY;
     GoogleGenAI_rejects := fun key =>
       match key with
       | Some _ => None
       | None => Some (External "An API Key must be set when running in a browser")
       end;
     fetch := fun _ => answer;
     generateContent := fun _ _ => grounded |}.

(** The state when the script starts, with the given text typed in the
    keyword field. *)
Definition initial_world (keyword : string) : World :=
  {| globals := {| ai := None; currentProvider := None; currentApiKey := None;
                   searchVolumeChart := None; competitionChart := None |};
     controls := {| form_disabled := false; input_disabled := false;
                    countryInput_disabled := false; languageInput_disabled := false;
                    button_disabled := false; button_textContent := idle_caption |};
     fields := {| input_value := keyword; countryInput_value := "";
                  languageInput_value := "" |};
     panels := {| settingsPanel_hidden := true; setupMessage_hidden := true |};
     resultsContainer := MEmpty;
     logoContainer := LogoEmpty;
     console := [];
     outbound := [] |}.

(** A 200 response whose JSON body wraps [content], the text of a
    string literal with its escapes, in the chat completion envelope. *)
Definition completion (content : string) : Response :=
  {| status := 200; statusText := "OK";
     bodyText := "{" +:+ JSString.quoted "choices" +:+ ":[{" +:+ JSString.quoted "message"
                 +:+ ":{" +:+ JSString.quoted "content" +:+ ":" +:+ JSString.quoted content
                 +:+ "}}]}" |}.

Definition no_grounded_answer : Result GenerateContentResponse :=
  Throw (External "not used").

(** The state after setup with a provider and a key. *)
Definition configured (e : Env) (provider : AIProvider) (apiKey keyword : string) : World :=
  snd (setupApplication e provider apiKey (initial_world keyword)).

Definition openai_key : string := "sk-user-key".

(** An OpenAI session whose provider answers [response]. *)
Definition openai_env (response : Response) : Env :=
  sample_env None (Return response) no_grounded_answer.

Definition openai_world (response : Response) : World :=
  configured (openai_env response) OpenAI openai_key "seo tools".

(** The answer of the example: prose and a fence around an object
    with two of the seven keys. *)
Definition fenced_answer : Response :=
  completion ("Sure! ```json\n{\" +:+ JSString.quoted "searchVolume\" +:+ ":\"
              +:+ JSString.quoted "High\" +:+ ",\" +:+ JSString.quoted "searchVolumeValue\"
              +:+ ":5000}\n```").

(** An answer with a number before an opening brace that is never closed. *)
Definition unclosed_answer : Response := completion "1{".

(** A 200 response whose message has no [content]. *)
Definition contentless_answer : Response :=
  {| status := 200; statusText := "OK";
     bodyText := "{" +:+ JSString.quoted "choices" +:+ ":[{" +:+ JSString.quoted "message"
                 +:+ ":{" +:+ JSString.quoted "role" +:+ ":" +:+ JSString.quoted "assistant"
                 +:+ "}}]}" |}.

Definition server_error : Response :=
  {| status := 500; statusText := "Internal Server Error"; bodyText := "upstream failure" |}.

(** Two failures over HTTP/2, where a response has no status text. *)
Definition http2_not_found : Response :=
  {| status := 404; statusText := ""; bodyText := "upstream failure" |}.

Definition http2_unavailable : Response :=
  {| status := 503; statusText := ""; bodyText := "upstream failure" |}.

(** A build with a key of its own, and a build without one. *)
Definition keyed_env : Env :=
  sample_env (Some "build-key") (Throw (External "not used")) no_grounded_answer.

Definition keyless_env : Env :=
  sample_env None (Throw (External "not used")) no_grounded_answer.

(** A grounded answer with two chunks, one of them without [web]. *)
Definition grounded_answer : GenerateContentResponse :=
  {| text := Some "{}";
     candidates := Some [{| groundingMetadata := Some {| groundingChunks := Some [
       {| web := Some {| uri := Some "https://example.com/a"; title := Some "A" |} |};
       {| web := None |} ] |} |}] |}.

Definition grounded_env : Env :=
  sample_env (Some "build-key") (Throw (External "not used")) (Return grounded_answer).

Definition grounded_world : World :=
  configured grounded_env GoogleAI "user-key" "seo tools".

(** A page showing a competition card with its canvas. *)
Definition gauge_world : World :=
  set_resultsContainer
    (MResults {| volume_card := None;
                 competition_card := Some {| card_text := "High"; card_canvas := true |};
                 alternatives_items := []; suggestedTitles_items := [];
                 longTailKeywords_items := []; sources_card := None |})
    (initial_world "seo tools").

(** A provider that cannot be reached. *)
Definition offline_env : Env :=
  sample_env (Some "build-key") (Throw (External "Failed to fetch"))
             (Throw (External "Failed to fetch")).

(** A grounded answer with neither text nor candidates. *)
Definition bare_answer : GenerateContentResponse := {| text := None; candidates := None |}.

Definition bare_env : Env :=
  sample_env (Some "build-key") (Throw (External "not used")) (Return bare_answer).

Definition bare_world : World := configured bare_env GoogleAI "user-key" "seo tools".

(** A page with nothing stored, the given state of the keyword form
    and the given texts in the settings form. *)
Definition sample_page (w : World) (provider apiKey : string) : Page :=
  {| world := w; localStorage := ∅; providerSelect_value := provider;
     apiKeyInput_value := apiKey; logoContainer_hidden := false |}.

(** A page on which settings were stored by an earlier visit. *)
Definition returning_page (provider apiKey : string) : Page :=
  {| world := initial_world "";
     localStorage := <["api_key" := apiKey]> (<["ai_provider" := provider]> ∅);
     providerSelect_value := "Google AI";
     apiKeyInput_value := ""; logoContainer_hidden := false |}.

(** An image response with one image. *)
Definition logo_response : GenerateImagesResponse :=
  {| generatedImages := Some [{| image := Some {| imageBytes := Some "iVBORw0KGgo=" |} |}] |}.

End Sample.

(* ================================================================== *)
(** ** Properties *)

Import Sample.

(** *** Evaluating statements *)

Ltac run :=
  unfold mbind, M_bind, mret, M_ret, bind, ret, throw, lift, gets, modify, assign,
         try_catch, finally in *;
  cbn [fst snd] in *.

Lemma append_inj_l (p a b : string) : p +:+ a = p +:+ b -> a = b.
Proof.
  induction p as [|c p IH]; cbn; intros H; [exact H | injection H as H; auto].
Qed.

Lemma nonempty_true (s : string) : s <> "" -> JSString.nonempty s = true.
Proof. destruct s; [congruence | reflexivity]. Qed.

Lemma calls_issued_app {A} (m : M A) (w : World) (cs : list OutboundCall) :
  outbound (snd (m w)) = outbound w ++ cs -> calls_issued m w = cs.
Proof. unfold calls_issued. intros ->. apply drop_app_length. Qed.

(** *** The gauge *)

Lemma gauge_color_low (q : Q) : (q <= 33)%Q -> gauge_color (Fin q) = "#34A853".
Proof.
  intros H. unfold gauge_color, num_le.
  apply Qle_bool_iff in H. now rewrite H.
Qed.

Lemma gauge_color_mid (q : Q) : (33 < q)%Q -> (q <= 66)%Q -> gauge_color (Fin q) = "#FBBC05".
Proof.
  intros H1 H2. unfold gauge_color, num_le.
  destruct (Qle_bool q 33) eqn:E.
  - apply Qle_bool_iff in E. exfalso. exact (Qlt_not_le _ _ H1 E).
  - apply Qle_bool_iff in H2. now rewrite H2.
Qed.

Lemma gauge_color_high (q : Q) : (66 < q)%Q -> gauge_color (Fin q) = "#EA4335".
Proof.
  intros H. unfold gauge_color, num_le.
  destruct (Qle_bool q 33) eqn:E1.
  - apply Qle_bool_iff in E1. exfalso.
    apply (Qlt_not_le _ _ H). apply Qle_trans with 33%Q; [exact E1 | discriminate].
  - destruct (Qle_bool q 66) eqn:E2; [| reflexivity].
    apply Qle_bool_iff in E2. exfalso. exact (Qlt_not_le _ _ H E2).
Qed.

(** C9.  Drawing the gauge for a score [q], with its canvas in the
    page, installs a doughnut chart of that score whose colour is green
    ([#34A853]) when [q <= 33], yellow ([#FBBC05]) when [33 < q <= 66]
    and red ([#EA4335]) when [66 < q]; so 75 is red, 50 yellow and 20
    green. *)
Theorem competition_gauge_color (env : Env) (w : World) (q : Q) :
  getElementById env CompetitionCanvas w = true ->
  exists color,
    renderCompetitionChart env (JNum q) w
      = (Return tt, set_globals (set_competitionChart
                                   (Some (DoughnutChart (Fin q) color)) (globals w)) w)
    /\ ((q <= 33)%Q -> color = "#34A853")
    /\ ((33 < q)%Q /\ (q <= 66)%Q -> color = "#FBBC05")
    /\ ((66 < q)%Q -> color = "#EA4335")
    /\ gauge_color (Fin 75) = "#EA4335"
    /\ gauge_color (Fin 50) = "#FBBC05"
    /\ gauge_color (Fin 20) = "#34A853".
Proof.
  intros Hctx. exists (gauge_color (Fin q)).
  split; [| repeat split].
  - unfold renderCompetitionChart. run. rewrite Hctx. reflexivity.
  - apply gauge_color_low.
  - intros [H1 H2]. now apply gauge_color_mid.
  - apply gauge_color_high.
Qed.

Lemma append_assoc (a b c : string) : (a +:+ b) +:+ c = a +:+ (b +:+ c).
Proof.
  induction a as [|x a IH]; [reflexivity |].
  change (String x ((a +:+ b) +:+ c) = String x (a +:+ (b +:+ c))). now f_equal.
Qed.

Ltac break_match :=
  match goal with
  | |- context [match ?x with _ => _ end] => destruct x eqn:?
  end.

Lemma performAnalysis_world (env : Env) (keyword country language : string)
      (provider : AIProvider) (apiKey : string) (w : World) :
  snd (performAnalysis env keyword country language provider apiKey w) =
    match provider, ai (globals w) with
    | GoogleAI, None => w
    | GoogleAI, Some c =>
      record_call (GenerateContent c
        {| model := "gemini-2.5-flash";
           contents := createPrompt keyword country language true;
           config_tools_googleSearch := true |}) w
    | _, _ =>
      record_call (Fetch
        {| url := endpoint provider; method := "POST";
           headers := request_headers provider apiKey;
           body := request_body provider (createPrompt keyword country language false) |}) w
    end.
Proof.
  unfold performAnalysis, call_fetch, call_generateContent.
  destruct provider; cbn [is_google]; run.
  - destruct (ai (globals w)); [| reflexivity].
    destruct (generateContent env _ _); reflexivity.
  - destruct (fetch env _) as [resp|e]; [| reflexivity].
    destruct (negb (ok resp)); [reflexivity |].
    repeat (break_match; try reflexivity).
  - destruct (fetch env _) as [resp|e]; [| reflexivity].
    destruct (negb (ok resp)); [reflexivity |].
    repeat (break_match; try reflexivity).
  - destruct (fetch env _) as [resp|e]; [| reflexivity].
    destruct (negb (ok resp)); [reflexivity |].
    repeat (break_match; try reflexivity).
Qed.

(** *** Frames: what a statement leaves unchanged *)

Section Frames.
Context {B : Type} (f : World -> B).

Lemma frame_ret {A} (a : A) : frame f (mret a).
Proof. intro w. reflexivity. Qed.

Lemma frame_throw {A} (e : exn) : frame f (@throw A e).
Proof. intro w. reflexivity. Qed.

Lemma frame_lift {A} (r : Result A) : frame f (lift r).
Proof. intro w. reflexivity. Qed.

Lemma frame_gets {A} (g : World -> A) : frame f (gets g).
Proof. intro w. reflexivity. Qed.

Lemma frame_modify (g : World -> World) : (forall w, f (g w) = f w) -> frame f (modify g).
Proof. intros H w. apply H. Qed.

(** After a statement, a continuation that keeps [f] leaves [f] as the
    statement left it. *)
Lemma after_bind {A C} (m : M A) (k : A -> M C) (w : World) :
  (forall a, frame f (k a)) -> f (snd ((m ≫= k) w)) = f (snd (m w)).
Proof.
  intros Hk. run. destruct (m w) as [[a|e] w']; cbn; [apply Hk | reflexivity].
Qed.

Lemma frame_bind {A C} (m : M A) (k : A -> M C) :
  frame f m -> (forall a, frame f (k a)) -> frame f (m ≫= k).
Proof. intros Hm Hk w. rewrite after_bind by exact Hk. apply Hm. Qed.

Lemma after_try_catch {A} (m : M A) (h : exn -> M A) (w : World) :
  (forall e, frame f (h e)) -> f (snd (try_catch m h w)) = f (snd (m w)).
Proof.
  intros Hh. unfold try_catch. destruct (m w) as [[a|e] w']; cbn; [reflexivity | apply Hh].
Qed.

Lemma after_finally {A} (m : M A) (c : M unit) (w : World) :
  frame f c -> f (snd (finally m c w)) = f (snd (m w)).
Proof.
  intros Hc. unfold finally. destruct (m w) as [r w']; cbn.
  specialize (Hc w'). destruct (c w') as [[u|e] w'']; exact Hc.
Qed.

End Frames.

Ltac frame_step :=
  lazymatch goal with
  | |- frame _ (_ ≫= _) => apply frame_bind; [| intros ?]
  | |- frame _ (mret _) => apply frame_ret
  | |- frame _ (ret _) => apply (frame_ret _)
  | |- frame _ (throw _) => apply frame_throw
  | |- frame _ (lift _) => apply frame_lift
  | |- frame _ (gets _) => apply frame_gets
  | |- frame _ (modify _) => apply frame_modify; intros ?; reflexivity
  | |- frame _ (assign _) => apply frame_modify; intros ?; reflexivity
  | |- frame _ (match ?x with _ => _ end) => destruct x
  | |- frame _ (if ?x then _ else _) => destruct x
  end.

Lemma renderResults_outbound env data srcs :
  frame outbound (renderResults env data srcs).
Proof.
  unfold renderResults, renderSearchVolumeChart, renderCompetitionChart.
  repeat frame_step.
Qed.

Lemma renderResults_session env data srcs :
  frame session (renderResults env data srcs).
Proof.
  unfold renderResults, renderSearchVolumeChart, renderCompetitionChart.
  repeat frame_step.
Qed.


Lemma performAnalysis_calls (env : Env) (keyword country language : string)
      (provider : AIProvider) (apiKey : string) (w : World) :
  calls_issued (performAnalysis env keyword country language provider apiKey) w =
    match provider, ai (globals w) with
    | GoogleAI, None => []
    | GoogleAI, Some c =>
      [GenerateContent c
        {| model := "gemini-2.5-flash";
           contents := createPrompt keyword country language true;
           config_tools_googleSearch := true |}]
    | _, _ =>
      [Fetch
        {| url := endpoint provider; method := "POST";
           headers := request_headers provider apiKey;
           body := request_body provider (createPrompt keyword country language false) |}]
    end.
Proof.
  apply calls_issued_app. rewrite performAnalysis_world.
  destruct provider; try reflexivity.
  destruct (ai (globals w)); [reflexivity |]. now rewrite app_nil_r.
Qed.

Lemma location_both (country language : string) :
  country <> "" -> language <> "" ->
  locationInstruction country language =
    " for the target country " +:+ JSString.quoted country
    +:+ " and language " +:+ JSString.quoted language.
Proof.
  intros Hc Hl. unfold locationInstruction.
  now rewrite (nonempty_true _ Hc), (nonempty_true _ Hl).
Qed.

Lemma location_country (country : string) :
  country <> "" ->
  locationInstruction country "" = " for the target country " +:+ JSString.quoted country.
Proof.
  intros Hc. unfold locationInstruction.
  rewrite (nonempty_true _ Hc). reflexivity.
Qed.

Lemma location_language (language : string) :
  language <> "" ->
  locationInstruction "" language = " for the target language " +:+ JSString.quoted language.
Proof.
  intros Hl. unfold locationInstruction.
  rewrite (nonempty_true _ Hl). reflexivity.
Qed.

Lemma quoted_tail_neq (s x : string) (c : ascii) :
  JSString.quoted s +:+ String c x <> JSString.quoted s.
Proof.
  unfold JSString.quoted. intros H.
  rewrite !append_assoc in H.
  apply append_inj_l in H. apply append_inj_l in H.
  discriminate H.
Qed.

(** C2.  The prompt is a function of the keyword, the country, the
    language and the grounding flag.  For a non-empty country and
    language the location phrase takes its four documented forms (both,
    country only, language only, empty), which are pairwise distinct;
    the search phrase is "using Google Search" exactly when grounding is
    requested and "based on your extensive knowledge" otherwise; the
    dispatcher requests grounding exactly for ['Google AI'], and the
    prompt of the call it issues is the one built with that flag. *)
Theorem createPrompt_instructions (keyword country language : string) :
  country <> "" -> language <> "" ->
  let both := " for the target country " +:+ JSString.quoted country
              +:+ " and language " +:+ JSString.quoted language in
  let country_only := " for the target country " +:+ JSString.quoted country in
  let language_only := " for the target language " +:+ JSString.quoted language in
  locationInstruction country language = both
  /\ locationInstruction country "" = country_only
  /\ locationInstruction "" language = language_only
  /\ locationInstruction "" "" = ""
  /\ NoDup [both; country_only; language_only; ""]
  /\ (forall g, searchInstruction g = "using Google Search" <-> g = true)
  /\ (forall g, searchInstruction g = "based on your extensive knowledge" <-> g = false)
  /\ (forall provider, is_google provider = true <-> provider = GoogleAI)
  /\ (exists rest, forall k c l g,
        createPrompt k c l g =
          nl +:+ "      You are an expert SEO analyst. Analyze the keyword "
          +:+ JSString.quoted k +:+ locationInstruction c l +:+ " "
          +:+ searchInstruction g +:+ "." +:+ rest)
  /\ (forall env provider apiKey w,
        map prompt_of_call
            (calls_issued (performAnalysis env keyword country language provider apiKey) w)
        = if guard_stops provider w then []
          else [Some (createPrompt keyword country language (is_google provider))]).
Proof.
  intros Hc Hl both country_only language_only.
  split; [now apply location_both |].
  split; [now apply location_country |].
  split; [now apply location_language |].
  split; [reflexivity |].
  split.
  { assert (Hbc : both <> country_only).
    { unfold both, country_only. intros H. apply append_inj_l in H.
      exact (quoted_tail_neq _ _ _ H). }
    assert (Hbl : both <> language_only).
    { unfold both, language_only. intros H. vm_compute in H. discriminate H. }
    assert (Hcl : country_only <> language_only).
    { unfold country_only, language_only. intros H. vm_compute in H. discriminate H. }
    repeat constructor; rewrite ?elem_of_cons, ?elem_of_nil;
      intuition (try congruence); discriminate. }
  split; [intros []; split; (reflexivity || discriminate) |].
  split; [intros []; split; (reflexivity || discriminate) |].
  split; [intros []; split; (reflexivity || discriminate) |].
  split; [eexists; intros; unfold createPrompt; reflexivity |].
  intros env provider apiKey w. rewrite performAnalysis_calls.
  unfold guard_stops.
  destruct provider; try reflexivity.
  destruct (ai (globals w)); reflexivity.
Qed.

(** C3.  For OpenAI, Mistral and OpenRouter the dispatcher issues one
    POST to the fixed endpoint of the provider, with headers
    [Content-Type: application/json] and [Authorization: Bearer <key>]
    and the body [{model, messages: [{role: "user", content: prompt}],
    response_format: {type: "json_object"}}] with the fixed model of
    the provider.  For OpenAI with empty country and language the
    request goes to [https://api.openai.com/v1/chat/completions] with
    model [gpt-4o], the location phrase is empty and the search phrase
    is "based on your extensive knowledge". *)
Theorem http_providers_request (env : Env) (keyword country language : string)
        (provider : AIProvider) (apiKey : string) (w : World) :
  provider <> GoogleAI ->
  (exists req,
    calls_issued (performAnalysis env keyword country language provider apiKey) w = [Fetch req]
    /\ url req = match provider with
                 | OpenAI => "https://api.openai.com/v1/chat/completions"
                 | Mistral => "https://api.mistral.ai/v1/chat/completions"
                 | _ => "https://openrouter.ai/api/v1/chat/completions"
                 end
    /\ method req = "POST"
    /\ headers req !! "Content-Type" = Some "application/json"
    /\ headers req !! "Authorization" = Some ("Bearer " +:+ apiKey)
    /\ body req =
         JSON_stringify (JObj [
           ("model", JStr match provider with
                          | OpenAI => "gpt-4o"
                          | Mistral => "mistral-large-latest"
                          | _ => "google/gemini-flash-1.5"
                          end);
           ("messages", JArr [JObj [("role", JStr "user");
                                    ("content", JStr (createPrompt keyword country language false))]]);
           ("response_format", JObj [("type", JStr "json_object")])]))
  /\ calls_issued (performAnalysis env "seo tools" "" "" OpenAI apiKey) w =
       [Fetch {| url := "https://api.openai.com/v1/chat/completions";
                 method := "POST";
                 headers := <["Authorization" := "Bearer " +:+ apiKey]>
                              (<["Content-Type" := "application/json"]> ∅);
                 body := JSON_stringify (JObj [
                   ("model", JStr "gpt-4o");
                   ("messages", JArr [JObj [("role", JStr "user");
                                            ("content", JStr (createPrompt "seo tools" "" "" false))]]);
                   ("response_format", JObj [("type", JStr "json_object")])]) |}]
  /\ locationInstruction "" "" = ""
  /\ searchInstruction (is_google OpenAI) = "based on your extensive knowledge"
  /\ exists rest,
       createPrompt "seo tools" "" "" false =
         nl +:+ "      You are an expert SEO analyst. Analyze the keyword "
         +:+ JSString.quoted "seo tools" +:+ " based on your extensive knowledge." +:+ rest.
Proof.
  intros Hp. split.
  - eexists. rewrite performAnalysis_calls.
    destruct provider; [congruence | | |];
      (split; [reflexivity |]); cbn [url method headers body];
      repeat split; try reflexivity; unfold request_headers; by simplify_map_eq.
  - split; [now rewrite performAnalysis_calls |].
    split; [reflexivity |]. split; [reflexivity |].
    eexists. unfold createPrompt. vm_compute. reflexivity.
Qed.


(** The submit handler, once the session is configured and a keyword
    is present. *)
Lemma on_submit_run (env : Env) (w : World) (p : AIProvider) (a : ascii) (k : string) :
  currentProvider (globals w) = Some p ->
  currentApiKey (globals w) = Some (String a k) ->
  JSString.nonempty (JSString.trim (input_value (fields w))) = true ->
  on_submit env w =
    match analyse_and_render env (JSString.trim (input_value (fields w)))
            (JSString.trim (countryInput_value (fields w)))
            (JSString.trim (languageInput_value (fields w))) p (String a k) (loading w) with
    | (Return _, w') => (Return tt, succeeded w')
    | (Throw e, w') => (Return tt, failed e w')
    end.
Proof.
  intros Hp Hk Hkw. unfold on_submit. run. rewrite Hp, Hk. cbn. rewrite Hkw. cbn.
  unfold loading, succeeded, failed, setLoading, renderError. run.
  destruct (analyse_and_render _ _ _ _ _ _ _) as [[[]|e] w']; reflexivity.
Qed.

Lemma analyse_and_render_outbound (env : Env) (kw c l : string) (p : AIProvider)
      (k : string) (w : World) :
  outbound (snd (analyse_and_render env kw c l p k w)) =
  outbound (snd (performAnalysis env kw c l p k w)).
Proof.
  unfold analyse_and_render. apply after_bind. intros analysis.
  apply frame_bind; [apply frame_lift |]. intros t.
  destruct (JSON.parse _); [apply renderResults_outbound | apply frame_throw].
Qed.

Lemma performAnalysis_session (env : Env) (kw c l : string) (p : AIProvider) (k : string) :
  frame session (performAnalysis env kw c l p k).
Proof.
  intros w. rewrite performAnalysis_world.
  destruct p; try reflexivity. destruct (ai (globals w)); reflexivity.
Qed.

Lemma on_submit_session (env : Env) : frame session (on_submit env).
Proof.
  intros w. unfold on_submit.
  rewrite after_bind; [reflexivity |]. intros provider.
  apply frame_bind; [apply frame_gets |]. intros apiKey.
  destruct provider as [p|]; [| apply frame_modify; reflexivity].
  destruct apiKey as [[|a k]|]; try (apply frame_modify; reflexivity).
  cbn zeta. repeat (apply frame_bind; [apply frame_gets |]; intros ?).
  destruct (negb _); [apply (frame_ret _) |].
  apply frame_bind; [apply frame_modify; reflexivity |]. intros _.
  apply frame_bind; [apply frame_modify; reflexivity |]. intros _.
  intros w1. rewrite after_finally by (apply frame_modify; reflexivity).
  rewrite after_try_catch.
  - unfold analyse_and_render. rewrite after_bind; [apply performAnalysis_session |].
    intros analysis. apply frame_bind; [apply frame_lift |]. intros t.
    destruct (JSON.parse _); [apply renderResults_session | apply frame_throw].
  - intros e. apply frame_bind; [apply frame_modify; reflexivity |]. intros _.
    apply frame_modify; reflexivity.
Qed.

Lemma on_submit_calls (env : Env) (w : World) :
  calls_issued (on_submit env) w =
    match currentProvider (globals w), currentApiKey (globals w) with
    | Some p, Some (String a k) =>
      if JSString.nonempty (JSString.trim (input_value (fields w)))
      then calls_issued
             (performAnalysis env (JSString.trim (input_value (fields w)))
                (JSString.trim (countryInput_value (fields w)))
                (JSString.trim (languageInput_value (fields w))) p (String a k)) (loading w)
      else []
    | _, _ => []
    end.
Proof.
  destruct (currentProvider (globals w)) as [p|] eqn:Hp;
    [destruct (currentApiKey (globals w)) as [[|a k]|] eqn:Hk |].
  2: destruct (JSString.nonempty (JSString.trim (input_value (fields w)))) eqn:Hkw.
  2: { unfold calls_issued at 1. rewrite (on_submit_run env w p a k Hp Hk Hkw).
       unfold calls_issued.
       pose proof (analyse_and_render_outbound env
         (JSString.trim (input_value (fields w)))
         (JSString.trim (countryInput_value (fields w)))
         (JSString.trim (languageInput_value (fields w))) p (String a k) (loading w)) as H.
       destruct (analyse_and_render _ _ _ _ _ _ _) as [[u|e] w']; cbn [snd] in *;
         unfold succeeded, failed, setLoading; run; cbn; rewrite H; reflexivity. }
  all: apply calls_issued_app; unfold on_submit; run; rewrite ?Hp, ?Hk; cbn;
    rewrite ?Hkw; cbn; now rewrite app_nil_r.
Qed.

(** C4, amended.  One invocation of the dispatcher issues exactly one
    outbound call, except when the provider is ['Google AI'] and no
    client exists: then it throws "Google AI client not initialized."
    and issues none.  It leaves every global as it was.  A submission
    issues a call only when the session is configured and the trimmed
    keyword is not empty, and then as many as the dispatcher does. *)
Theorem dispatch_issues_at_most_one_call (env : Env) (keyword country language : string)
        (provider : AIProvider) (apiKey : string) (w : World) :
  let dispatch := performAnalysis env keyword country language provider apiKey in
  length (calls_issued dispatch w) = (if guard_stops provider w then 0 else 1)%nat
  /\ (if guard_stops provider w
      then dispatch w = (Throw (Error "Google AI client not initialized."), w)
      else exists call, outbound (snd (dispatch w)) = outbound w ++ [call])
  /\ globals (snd (dispatch w)) = globals w
  /\ length (calls_issued (on_submit env) w) =
       match currentProvider (globals w), currentApiKey (globals w) with
       | Some p, Some (String _ _) =>
         if JSString.nonempty (JSString.trim (input_value (fields w)))
         then (if guard_stops p w then 0 else 1)%nat
         else 0%nat
       | _, _ => 0%nat
       end
  /\ session (snd (on_submit env w)) = session w.
Proof.
  cbn zeta. split; [| split; [| split; [| split]]].
  - rewrite performAnalysis_calls. unfold guard_stops.
    destruct provider; try reflexivity. destruct (ai (globals w)); reflexivity.
  - unfold guard_stops. destruct provider.
    + destruct (ai (globals w)) eqn:E.
      * eexists. rewrite performAnalysis_world, E. reflexivity.
      * unfold performAnalysis. cbn [is_google]. run. now rewrite E.
    + eexists. rewrite performAnalysis_world. reflexivity.
    + eexists. rewrite performAnalysis_world. reflexivity.
    + eexists. rewrite performAnalysis_world. reflexivity.
  - rewrite performAnalysis_world.
    destruct provider; try reflexivity. destruct (ai (globals w)); reflexivity.
  - rewrite on_submit_calls.
    destruct (currentProvider (globals w)) as [p|]; [| reflexivity].
    destruct (currentApiKey (globals w)) as [[|a k]|]; try reflexivity.
    destruct (JSString.nonempty _); [| reflexivity].
    rewrite performAnalysis_calls. unfold guard_stops.
    change (ai (globals (loading w))) with (ai (globals w)).
    destruct p; try reflexivity. destruct (ai (globals w)); reflexivity.
  - apply on_submit_session.
Qed.

(** *** Inverting a run that returned *)

Lemma bind_returns {A C} (m : M A) (k : A -> M C) (w w' : World) (c : C) :
  (m ≫= k) w = (Return c, w') ->
  exists a w1, m w = (Return a, w1) /\ k a w1 = (Return c, w').
Proof.
  run. destruct (m w) as [[a|e] w1]; [eauto | discriminate].
Qed.

Lemma lift_returns {A} (r : Result A) (w w' : World) (a : A) :
  lift r w = (Return a, w') -> r = Return a /\ w' = w.
Proof. unfold lift. intros H. injection H as -> ->. auto. Qed.

Lemma renderSearchVolumeChart_markup env v :
  frame resultsContainer (renderSearchVolumeChart env v).
Proof. unfold renderSearchVolumeChart. repeat frame_step. Qed.

Lemma renderCompetitionChart_markup env v :
  frame resultsContainer (renderCompetitionChart env v).
Proof. unfold renderCompetitionChart. repeat frame_step. Qed.

(** When [renderResults] returns, the seven reads and the template
    succeeded, and the container holds the view with the source card
    appended. *)
Lemma renderResults_returns (env : Env) (data : json) (srcs : Sources) (w w' : World) :
  renderResults env data srcs w = (Return tt, w') ->
  exists sv svv c cs al st lt view,
    get_prop (Some data) "searchVolume" = Return sv
    /\ get_prop (Some data) "searchVolumeValue" = Return svv
    /\ get_prop (Some data) "competition" = Return c
    /\ get_prop (Some data) "competitionScore" = Return cs
    /\ get_prop (Some data) "alternatives" = Return al
    /\ get_prop (Some data) "suggestedTitles" = Return st
    /\ get_prop (Some data) "longTailKeywords" = Return lt
    /\ results_view env sv svv c cs al st lt = Return view
    /\ resultsContainer w' =
         match sources_markup srcs with
         | Some links => append_sources links (MResults view)
         | None => MResults view
         end.
Proof.
  unfold renderResults. intros H.
  apply bind_returns in H as ([] & w1 & _ & H).
  apply bind_returns in H as ([] & w2 & _ & H).
  apply bind_returns in H as ([] & w3 & _ & H).
  apply bind_returns in H as (sv & w4 & [Hsv ->]%lift_returns & H).
  apply bind_returns in H as (svv & w5 & [Hsvv ->]%lift_returns & H).
  apply bind_returns in H as (c & w6 & [Hc ->]%lift_returns & H).
  apply bind_returns in H as (cs & w7 & [Hcs ->]%lift_returns & H).
  apply bind_returns in H as (al & w8 & [Hal ->]%lift_returns & H).
  apply bind_returns in H as (st & w9 & [Hst ->]%lift_returns & H).
  apply bind_returns in H as (lt & w10 & [Hlt ->]%lift_returns & H).
  apply bind_returns in H as (view & w11 & [Hview ->]%lift_returns & H).
  apply bind_returns in H as ([] & w12 & Hset & H).
  apply bind_returns in H as ([] & w13 & H13 & H).
  apply bind_returns in H as ([] & w14 & H14 & H).
  exists sv, svv, c, cs, al, st, lt, view. repeat (split; [assumption |]).
  assert (Hm : resultsContainer w14 = MResults view).
  { assert (E14 : resultsContainer w14 = resultsContainer w13).
    { destruct cs as [v|].
      - pose proof (renderCompetitionChart_markup env v w13) as F. now rewrite H14 in F.
      - unfold ret in H14. now injection H14 as ->. }
    assert (E13 : resultsContainer w13 = resultsContainer w12).
    { destruct svv as [v|].
      - pose proof (renderSearchVolumeChart_markup env v w12) as F. now rewrite H13 in F.
      - unfold ret in H13. now injection H13 as ->. }
    rewrite E14, E13. unfold modify in Hset. now injection Hset as <-. }
  destruct (sources_markup srcs) as [links|].
  - unfold modify in H. injection H as <-. cbn. now rewrite Hm.
  - unfold ret in H. injection H as <-. exact Hm.
Qed.

Lemma omap_source_link (chunks : list GroundingChunk) :
  omap source_link chunks =
    map (fun wb => {| href := template_text (uri wb);
                      link_text := match title wb with
                                   | Some (String a t) => String a t
                                   | _ => template_text (uri wb)
                                   end |})
        (omap web chunks).
Proof.
  induction chunks as [|[[[u t]|]] chunks IH]; cbn; [reflexivity | | exact IH].
  rewrite <- IH. unfold source_link at 1. cbn. destruct t as [[|a t]|]; reflexivity.
Qed.

(** C5.  When the dispatcher returns for OpenAI, Mistral or OpenRouter
    its [sources] is [null] whatever the response held, and a page
    rendered from it has no source card.  When it returns for
    ['Google AI'], [sources] is
    [response.candidates?.[0]?.groundingMetadata?.groundingChunks]:
    the grounding chunks of the first candidate of the response of the
    client, and [undefined] when the candidates, the metadata of the
    first one or its chunks are missing.  The source card of a rendered
    page then holds one entry per chunk that has a [web] source, in
    order, with the [uri] of the chunk as its link and its [title], or
    the [uri] when the title is missing or empty, as its text; chunks
    without a [web] source are left out, and with none left, or with
    no chunks at all, there is no card. *)
Theorem citations_only_when_grounded (env : Env) (keyword country language : string)
        (provider : AIProvider) (apiKey : string) (w w' : World) (analysis : Analysis) :
  performAnalysis env keyword country language provider apiKey w = (Return analysis, w') ->
  (provider <> GoogleAI ->
     sources analysis = SourcesNull
     /\ forall data w1 w2,
          renderResults env data (sources analysis) w1 = (Return tt, w2) ->
          exists view, resultsContainer w2 = MResults view /\ sources_card view = None)
  /\ (provider = GoogleAI ->
      exists client response,
        ai (globals w) = Some client
        /\ generateContent env client
             {| model := "gemini-2.5-flash";
                contents := createPrompt keyword country language true;
                config_tools_googleSearch := true |} = Return response
        /\ sources analysis =
             match ((candidates response ≫= head) ≫= groundingMetadata)
                   ≫= groundingChunks with
             | Some chunks => SourcesChunks chunks
             | None => SourcesUndefined
             end
        /\ forall data w1 w2,
             renderResults env data (sources analysis) w1 = (Return tt, w2) ->
             exists view,
               resultsContainer w2 = MResults view
               /\ sources_card view =
                    match ((candidates response ≫= head) ≫= groundingMetadata)
                          ≫= groundingChunks with
                    | Some chunks =>
                      match omap web chunks with
                      | [] => None
                      | webs =>
                        Some (map (fun wb =>
                                {| href := template_text (uri wb);
                                   link_text := match title wb with
                                                | Some (String a t) => String a t
                                                | _ => template_text (uri wb)
                                                end |}) webs)
                      end
                    | None => None
                    end).
Proof.
  intros Hrun. split.
  - intros Hp.
    assert (Hs : sources analysis = SourcesNull).
    { unfold performAnalysis, call_fetch in Hrun.
      destruct provider; [congruence | | |]; cbn [is_google] in Hrun; run;
        (destruct (fetch env _) as [resp|e]; [| discriminate]);
        (destruct (negb (ok resp)); [discriminate |]);
        repeat (match type of Hrun with
                | context [match ?x with _ => _ end] => destruct x; try discriminate
                end);
        injection Hrun as <- _; reflexivity. }
    split; [exact Hs |]. intros data w1 w2 Hr. rewrite Hs in Hr.
    apply renderResults_returns in Hr as (sv & svv & c & cs & al & st & lt & view & H).
    destruct H as (_ & _ & _ & _ & _ & _ & _ & Hview & Hm).
    exists view. split; [exact Hm |].
    unfold results_view, Result_bind in Hview.
    repeat (match type of Hview with
            | context [match ?x with _ => _ end] => destruct x; try discriminate
            end).
    now injection Hview as <-.
  - intros ->. unfold performAnalysis, call_generateContent in Hrun.
    cbn [is_google] in Hrun.
    unfold mbind, M_bind, mret, M_ret, bind, ret, throw, lift, gets in Hrun.
    cbn [fst snd] in Hrun.
    destruct (ai (globals w)) as [client|]; [| discriminate].
    destruct (generateContent env client _) as [response|e] eqn:Hg; [| discriminate].
    injection Hrun as <- _. exists client, response.
    split; [reflexivity |]. split; [exact Hg |].
    set (chunks_of := ((candidates response ≫= head) ≫= groundingMetadata)
                      ≫= groundingChunks).
    assert (Hs : grounding_sources response =
      match chunks_of with
      | Some chunks => SourcesChunks chunks
      | None => SourcesUndefined
      end).
    { subst chunks_of. unfold grounding_sources.
      destruct (candidates response) as [[|c cs]|]; try reflexivity.
      cbn. destruct (groundingMetadata c) as [md|]; [| reflexivity].
      cbn. destruct (groundingChunks md); reflexivity. }
    clearbody chunks_of. cbn [sources]. rewrite Hs. split; [reflexivity |].
    intros data w1 w2 Hr.
    apply renderResults_returns in Hr as (sv & svv & c & cs & al & st & lt & view & H).
    destruct H as (_ & _ & _ & _ & _ & _ & _ & Hview & Hm).
    assert (Hv : sources_card view = None).
    { unfold results_view, Result_bind in Hview.
      repeat (match type of Hview with
              | context [match ?x with _ => _ end] => destruct x; try discriminate
              end).
      now injection Hview as <-. }
    unfold sources_markup in Hm.
    destruct chunks_of as [chunks|]; cbv beta iota in Hm; [| exists view; now split].
    rewrite omap_source_link in Hm.
    destruct (omap web chunks) as [|wb webs]; [exists view; now split |].
    cbn [map] in Hm. eexists. split; [exact Hm |]. reflexivity.
Qed.

(** *** Errors *)

Lemma ok_false_iff (r : Response) : ok r = false <-> (status r < 200 \/ 299 < status r).
Proof. unfold ok. rewrite andb_false_iff, !Z.leb_gt. reflexivity. Qed.

(** The dispatcher on a provider other than ['Google AI'], by the
    answer to its request. *)
Lemma performAnalysis_fetch (env : Env) (kw c l : string) (p : AIProvider) (k : string)
      (w : World) :
  p <> GoogleAI ->
  performAnalysis env kw c l p k w =
    (match fetch env (chat_request kw c l p k) with
     | Throw e => Throw e
     | Return response =>
       if ok response then
         match JSON.parse (bodyText response) with
         | None => Throw SyntaxError
         | Some data =>
           Result_bind (get_prop (Some data) "choices") (fun choices =>
           Result_bind (get_index0 choices) (fun choice =>
           Result_bind (get_prop choice "message") (fun message =>
           Result_bind (get_prop message "content") (fun content =>
           Return {| responseText := content; sources := SourcesNull |}))))
         end
       else Throw (http_error p response)
     end,
     record_call (Fetch (chat_request kw c l p k)) w).
Proof.
  intros Hp. unfold performAnalysis, call_fetch, chat_request, response_json.
  destruct p; [congruence | | |]; cbn [is_google]; run;
    (destruct (fetch env _) as [resp|e]; [| reflexivity]);
    (destruct (ok resp); cbn [negb]; [| reflexivity]);
    (destruct (JSON.parse _) as [data|]; [| reflexivity]);
    unfold Result_bind;
    repeat (match goal with
            | |- context [match ?x with _ => _ end] => destruct x; try reflexivity
            end).
Qed.

Lemma failed_facts (e : exn) (w : World) :
  resultsContainer (failed e w) = MError generic_error_message
  /\ console (failed e w) = console w ++ [("", e)]
  /\ outbound (failed e w) = outbound w
  /\ globals (failed e w) = globals w.
Proof. repeat split. Qed.

Lemma on_submit_throw (env : Env) (w w1 : World) (p : AIProvider) (a : ascii) (k : string)
      (e : exn) :
  currentProvider (globals w) = Some p ->
  currentApiKey (globals w) = Some (String a k) ->
  JSString.nonempty (typed_keyword w) = true ->
  analyse_and_render env (typed_keyword w) (typed_country w) (typed_language w)
                     p (String a k) (loading w) = (Throw e, w1) ->
  on_submit env w = (Return tt, failed e w1).
Proof.
  intros Hp Hk Hkw Hrun.
  rewrite (on_submit_run env w p a k Hp Hk Hkw).
  unfold typed_keyword, typed_country, typed_language in Hrun. now rewrite Hrun.
Qed.

Lemma analyse_and_render_dispatch_throw (env : Env) (kw c l : string) (p : AIProvider)
      (k : string) (w w1 : World) (e : exn) :
  performAnalysis env kw c l p k w = (Throw e, w1) ->
  analyse_and_render env kw c l p k w = (Throw e, w1).
Proof. intros H. unfold analyse_and_render. run. now rewrite H. Qed.

(** C7, amended.  For OpenAI, Mistral and OpenRouter a response whose
    status is outside 200..299 makes the dispatcher throw an error
    whose message carries the provider, the status text and the body of
    the response (the numeric status is not in it), after a single
    request; the handler ends with that error logged and the generic
    message shown.  And whatever the provider and whatever exception
    the [try] block throws, while dispatching, interpreting or
    rendering, the submit handler catches it, logs it and shows the same
    generic message, with at most one call issued. *)
Theorem http_error_is_surfaced (env : Env) (w : World) (provider : AIProvider)
        (a : ascii) (k : string) :
  currentProvider (globals w) = Some provider ->
  currentApiKey (globals w) = Some (String a k) ->
  JSString.nonempty (typed_keyword w) = true ->
  let request := chat_request (typed_keyword w) (typed_country w) (typed_language w)
                              provider (String a k) in
  (forall response,
     provider <> GoogleAI ->
     fetch env request = Return response ->
     (status response < 200 \/ 299 < status response) ->
     let error := Error ("API request failed for " +:+ provider_text provider +:+ ": "
                         +:+ statusText response +:+ " - " +:+ bodyText response) in
     performAnalysis env (typed_keyword w) (typed_country w) (typed_language w)
                     provider (String a k) (loading w)
       = (Throw error, record_call (Fetch request) (loading w))
     /\ on_submit env w
        = (Return tt, failed error (record_call (Fetch request) (loading w)))
     /\ calls_issued (on_submit env) w = [Fetch request])
  /\ (forall e w1,
        analyse_and_render env (typed_keyword w) (typed_country w) (typed_language w)
                           provider (String a k) (loading w) = (Throw e, w1) ->
        on_submit env w = (Return tt, failed e w1)
        /\ resultsContainer (failed e w1) = MError generic_error_message
        /\ console (failed e w1) = console w1 ++ [("", e)]
        /\ outbound (failed e w1) = outbound w1
        /\ (length (calls_issued (on_submit env) w) <= 1)%nat).
Proof.
  intros Hcp Hck Hkw request. split.
  - intros response Hp Hfetch Hstatus error.
    apply ok_false_iff in Hstatus.
    assert (Hrun : performAnalysis env (typed_keyword w) (typed_country w) (typed_language w)
                     provider (String a k) (loading w)
                   = (Throw error, record_call (Fetch request) (loading w))).
    { rewrite performAnalysis_fetch by exact Hp. fold request. now rewrite Hfetch, Hstatus. }
    split; [exact Hrun |].
    assert (Hsub : on_submit env w
                   = (Return tt, failed error (record_call (Fetch request) (loading w)))).
    { apply (on_submit_throw env w _ provider a k); try assumption.
      now apply analyse_and_render_dispatch_throw. }
    split; [exact Hsub |].
    apply calls_issued_app. rewrite Hsub. reflexivity.
  - intros e w1 He. split; [now apply (on_submit_throw env w w1 provider a k) |].
    repeat split.
    rewrite on_submit_calls, Hcp, Hck. unfold typed_keyword in Hkw. rewrite Hkw.
    rewrite performAnalysis_calls.
    destruct provider; try (cbn; lia).
    destruct (ai (globals (loading w))); cbn; lia.
Qed.

(** *** Setup *)

(** C8, amended.  Setup with ['Google AI'] constructs the client with
    the build-time key [process.env.API_KEY]; the key the user entered
    is stored as [currentApiKey] and is not given to the client.  Later
    grounded dispatches issue their call through that client. *)
Theorem setup_builds_client_from_build_key (env : Env) (userKey : string) (w : World) :
  GoogleGenAI_rejects env (process_env_API_KEY env) = None ->
  let w' := snd (setupApplication env GoogleAI userKey w) in
  ai (globals w') = Some {| apiKey := process_env_API_KEY env |}
  /\ currentProvider (globals w') = Some GoogleAI
  /\ currentApiKey (globals w') = Some userKey
  /\ forall keyword country language key,
       calls_issued (performAnalysis env keyword country language GoogleAI key) w' =
         [GenerateContent {| apiKey := process_env_API_KEY env |}
            {| model := "gemini-2.5-flash";
               contents := createPrompt keyword country language true;
               config_tools_googleSearch := true |}].
Proof.
  intros Hctor w'.
  assert (Hai : ai (globals w') = Some {| apiKey := process_env_API_KEY env |}).
  { unfold w', setupApplication, new_GoogleGenAI, generateAndSetLogo. run.
    rewrite Hctor. reflexivity. }
  split; [exact Hai |].
  split; [unfold w', setupApplication, new_GoogleGenAI, generateAndSetLogo; run;
          rewrite Hctor; reflexivity |].
  split; [unfold w', setupApplication, new_GoogleGenAI, generateAndSetLogo; run;
          rewrite Hctor; reflexivity |].
  intros keyword country language key. rewrite performAnalysis_calls, Hai. reflexivity.
Qed.

(** *** Answers without the envelope *)

Lemma get_prop_nullish (v : jsval) (name : string) :
  get_prop v name = if nullish v then Throw TypeError else Return (optional (get_prop v name)).
Proof. destruct v as [[]|]; reflexivity. Qed.

Lemma get_index0_nullish (v : jsval) :
  get_index0 v = if nullish v then Throw TypeError else Return (optional (get_index0 v)).
Proof. destruct v as [[| | | [|c s] | |]|]; reflexivity. Qed.

(** The chain of accesses [data.choices[0].message.content]: it throws
    when [data] or one of the three values it goes through is [null]
    or [undefined], and gives the content, whatever it is, otherwise. *)
Lemma envelope_chain (data : json) :
  Result_bind (get_prop (Some data) "choices") (fun choices =>
  Result_bind (get_index0 choices) (fun choice =>
  Result_bind (get_prop choice "message") (fun message =>
  Result_bind (get_prop message "content") (fun content =>
  Return {| responseText := content; sources := SourcesNull |}))))
  = if nullish (Some data)
       || nullish (optional (get_prop (Some data) "choices"))
       || nullish (optional (get_index0 (optional (get_prop (Some data) "choices"))))
       || nullish (optional (get_prop
                     (optional (get_index0 (optional (get_prop (Some data) "choices"))))
                     "message"))
    then Throw TypeError
    else Return {| responseText := envelope_content data; sources := SourcesNull |}.
Proof.
  unfold envelope_content.
  rewrite (get_prop_nullish (Some data) "choices") at 1.
  destruct (nullish (Some data)); cbn [Result_bind orb]; [reflexivity |].
  set (choices := optional (get_prop (Some data) "choices")).
  rewrite (get_index0_nullish choices) at 1.
  destruct (nullish choices); cbn [Result_bind orb]; [reflexivity |].
  set (choice := optional (get_index0 choices)).
  rewrite (get_prop_nullish choice "message") at 1.
  destruct (nullish choice); cbn [Result_bind orb]; [reflexivity |].
  set (message := optional (get_prop choice "message")).
  rewrite (get_prop_nullish message "content") at 1.
  destruct (nullish message); cbn [Result_bind orb]; reflexivity.
Qed.

(** C10, amended.  For OpenAI, Mistral and OpenRouter, a 2xx response
    whose body is not JSON, or whose JSON has no text at
    [choices[0].message.content], never reaches the extraction of the
    JSON span.  When the body is not JSON the dispatcher throws a
    SyntaxError.  When it is, and the parsed [data], [data.choices],
    [data.choices[0]] or [data.choices[0].message] is [null] or
    [undefined], the dispatcher throws a TypeError from the access
    through it.  When all four are there, the dispatcher returns, with
    the content as [responseText] whatever it is; a content that is not
    a text, a missing one included, then makes [indexOf] or [substring]
    throw a TypeError in the handler.  In each case the request was
    issued once, and the submit handler ends with that exception
    logged, the generic message shown and the charts as they were. *)
Theorem missing_envelope_ends_in_generic_error (env : Env) (w : World)
        (provider : AIProvider) (a : ascii) (k : string) (response : Response) :
  provider <> GoogleAI ->
  currentProvider (globals w) = Some provider ->
  currentApiKey (globals w) = Some (String a k) ->
  JSString.nonempty (typed_keyword w) = true ->
  let request := chat_request (typed_keyword w) (typed_country w) (typed_language w)
                              provider (String a k) in
  fetch env request = Return response ->
  ok response = true ->
  let dispatched := record_call (Fetch request) (loading w) in
  let dispatch := performAnalysis env (typed_keyword w) (typed_country w) (typed_language w)
                                  provider (String a k) (loading w) in
  (JSON.parse (bodyText response) = None ->
     dispatch = (Throw SyntaxError, dispatched)
     /\ on_submit env w = (Return tt, failed SyntaxError dispatched))
  /\ (forall data,
        JSON.parse (bodyText response) = Some data ->
        let choices := optional (get_prop (Some data) "choices") in
        let choice := optional (get_index0 choices) in
        let message := optional (get_prop choice "message") in
        (nullish (Some data) || nullish choices || nullish choice || nullish message = true ->
           dispatch = (Throw TypeError, dispatched)
           /\ on_submit env w = (Return tt, failed TypeError dispatched))
        /\ (nullish (Some data) || nullish choices || nullish choice || nullish message = false ->
            dispatch = (Return {| responseText := optional (get_prop message "content");
                                  sources := SourcesNull |}, dispatched)
            /\ ((forall s, optional (get_prop message "content") <> Some (JStr s)) ->
                on_submit env w = (Return tt, failed TypeError dispatched))))
  /\ ((forall data s, JSON.parse (bodyText response) = Some data ->
                      envelope_content data <> Some (JStr s)) ->
      exists e,
        (e = SyntaxError \/ e = TypeError)
        /\ on_submit env w = (Return tt, failed e dispatched)
        /\ resultsContainer (failed e dispatched) = MError generic_error_message
        /\ console (failed e dispatched) = console w ++ [("", e)]
        /\ outbound (failed e dispatched) = outbound w ++ [Fetch request]
        /\ searchVolumeChart (globals (failed e dispatched)) = searchVolumeChart (globals w)
        /\ competitionChart (globals (failed e dispatched)) = competitionChart (globals w)).
Proof.
  intros Hp Hcp Hck Hkw request Hfetch Hok dispatched dispatch.
  assert (Hd : dispatch =
    (match JSON.parse (bodyText response) with
     | None => Throw SyntaxError
     | Some data =>
       Result_bind (get_prop (Some data) "choices") (fun choices =>
       Result_bind (get_index0 choices) (fun choice =>
       Result_bind (get_prop choice "message") (fun message =>
       Result_bind (get_prop message "content") (fun content =>
       Return {| responseText := content; sources := SourcesNull |}))))
     end, dispatched)).
  { unfold dispatch. rewrite performAnalysis_fetch by exact Hp. fold request.
    now rewrite Hfetch, Hok. }
  assert (Hthrown : forall e, dispatch = (Throw e, dispatched) ->
                              on_submit env w = (Return tt, failed e dispatched)).
  { intros e He. apply (on_submit_throw env w dispatched provider a k); try assumption.
    now apply analyse_and_render_dispatch_throw. }
  assert (Hreturned : forall content,
            dispatch = (Return {| responseText := content; sources := SourcesNull |},
                        dispatched) ->
            (forall s, content <> Some (JStr s)) ->
            on_submit env w = (Return tt, failed TypeError dispatched)).
  { intros content Hc Hns.
    apply (on_submit_throw env w dispatched provider a k); try assumption.
    unfold analyse_and_render. run. fold dispatch. rewrite Hc. cbn [responseText].
    destruct content as [[]|]; try reflexivity. exfalso. now apply (Hns s). }
  assert (Hnone : JSON.parse (bodyText response) = None ->
                  dispatch = (Throw SyntaxError, dispatched)).
  { intros Hn. now rewrite Hd, Hn. }
  assert (Hsome : forall data, JSON.parse (bodyText response) = Some data ->
            dispatch =
              (if nullish (Some data)
                  || nullish (optional (get_prop (Some data) "choices"))
                  || nullish (optional (get_index0 (optional (get_prop (Some data) "choices"))))
                  || nullish (optional (get_prop
                       (optional (get_index0 (optional (get_prop (Some data) "choices"))))
                       "message"))
               then Throw TypeError
               else Return {| responseText := envelope_content data;
                              sources := SourcesNull |}, dispatched)).
  { intros data Hs. now rewrite Hd, Hs, envelope_chain. }
  split; [| split].
  - intros Hn. split; [now apply Hnone | apply Hthrown; now apply Hnone].
  - intros data Hs choices choice message. specialize (Hsome data Hs).
    fold choices choice message in Hsome. split.
    + intros Hnull. rewrite Hnull in Hsome. split; [exact Hsome | now apply Hthrown].
    + intros Hnull. rewrite Hnull in Hsome. split; [exact Hsome |].
      intros Hns. now apply (Hreturned _ Hsome).
  - intros Henv.
    assert (He : exists e, (e = SyntaxError \/ e = TypeError)
                           /\ on_submit env w = (Return tt, failed e dispatched)).
    { destruct (JSON.parse (bodyText response)) as [data|] eqn:Hparse.
      - exists TypeError. split; [now right |]. specialize (Hsome data eq_refl).
        destruct (_ || _) in Hsome; [now apply Hthrown |].
        apply (Hreturned _ Hsome). intros s. now apply Henv.
      - exists SyntaxError. split; [now left |]. apply Hthrown. now apply Hnone. }
    destruct He as (e & He & Hsub). exists e. split; [exact He |]. split; [exact Hsub |].
    repeat split.
Qed.

(** *** Reading the answer *)

Lemma map_items_strings (env : Env) (l : list string) :
  map_items env (JStr <$> l) = Return l.
Proof.
  induction l as [|s l IH]; [reflexivity |].
  cbn. rewrite IH. reflexivity.
Qed.

Lemma card_typed (env : Env) (label : option string) (value : option Q) :
  card env (JNum <$> value) (JStr <$> label) = Return (shown_card label value).
Proof. destruct value, label as [[|a s]|]; reflexivity. Qed.

Lemma list_items_typed (env : Env) (items : option (list string)) :
  list_items env ((fun l => JArr (JStr <$> l)) <$> items) = Return (default [] items).
Proof.
  destruct items as [l|]; [| reflexivity].
  unfold list_items. cbn. apply map_items_strings.
Qed.

(** C6, amended.  For an object whose members among the seven keys
    have the expected types (text labels, numbers, arrays of text),
    rendering succeeds; a list that is missing is shown empty; a number
    that is missing has no canvas and no chart; a number that is
    present has its canvas in the template, and its chart is drawn when
    the document then holds that canvas, which is for the parser of the
    browser to say since labels and items are written unescaped; a
    label that is missing or empty is shown as the "unavailable" marker
    when its number is present, and when both the label and its number
    are missing the card is left out altogether. *)
Theorem renderResults_defaults (env : Env) (ms : list (string * json)) (srcs : Sources)
        (w : World)
        (searchVolume : option string) (searchVolumeValue : option Q)
        (competition : option string) (competitionScore : option Q)
        (alternatives suggestedTitles longTailKeywords : option (list string)) :
  get_member "searchVolume" ms = JStr <$> searchVolume ->
  get_member "searchVolumeValue" ms = JNum <$> searchVolumeValue ->
  get_member "competition" ms = JStr <$> competition ->
  get_member "competitionScore" ms = JNum <$> competitionScore ->
  get_member "alternatives" ms = (fun l => JArr (JStr <$> l)) <$> alternatives ->
  get_member "suggestedTitles" ms = (fun l => JArr (JStr <$> l)) <$> suggestedTitles ->
  get_member "longTailKeywords" ms = (fun l => JArr (JStr <$> l)) <$> longTailKeywords ->
  let assigned :=
    MResults {| volume_card := shown_card searchVolume searchVolumeValue;
                competition_card := shown_card competition competitionScore;
                alternatives_items := default [] alternatives;
                suggestedTitles_items := default [] suggestedTitles;
                longTailKeywords_items := default [] longTailKeywords;
                sources_card := None |} in
  exists w' view,
    renderResults env (JObj ms) srcs w = (Return tt, w')
    /\ resultsContainer w' = MResults view
    /\ view = {| volume_card := shown_card searchVolume searchVolumeValue;
                 competition_card := shown_card competition competitionScore;
                 alternatives_items := default [] alternatives;
                 suggestedTitles_items := default [] suggestedTitles;
                 longTailKeywords_items := default [] longTailKeywords;
                 sources_card := sources_markup srcs |}
    /\ searchVolumeChart (globals w') =
         match searchVolumeValue with
         | Some q =>
           if document_getElementById env SearchVolumeCanvas assigned
           then Some (BarChart (JNum q) (Number_toLocaleString_arEG env q))
           else None
         | None => None
         end
    /\ competitionChart (globals w') =
         match competitionScore with
         | Some q =>
           if document_getElementById env CompetitionCanvas assigned
           then Some (DoughnutChart (Fin q) (gauge_color (Fin q)))
           else None
         | None => None
         end
    /\ (forall q, searchVolume = None -> searchVolumeValue = Some q ->
         volume_card view = Some {| card_text := unavailable; card_canvas := true |})
    /\ (forall q, competition = None -> competitionScore = Some q ->
         competition_card view = Some {| card_text := unavailable; card_canvas := true |})
    /\ (searchVolume = None -> searchVolumeValue = None -> volume_card view = None)
    /\ (competition = None -> competitionScore = None -> competition_card view = None)
    /\ (forall a s, searchVolume = Some (String a s) -> searchVolumeValue = None ->
         volume_card view = Some {| card_text := String a s; card_canvas := false |})
    /\ (forall a s, competition = Some (String a s) -> competitionScore = None ->
         competition_card view = Some {| card_text := String a s; card_canvas := false |}).
Proof.
  intros H1 H2 H3 H4 H5 H6 H7 assigned. subst assigned.
  unfold renderResults. run. cbn [get_prop].
  rewrite H1, H2, H3, H4, H5, H6, H7.
  unfold results_view. rewrite !card_typed, !list_items_typed. cbn [Result_bind].
  unfold renderSearchVolumeChart, renderCompetitionChart, getElementById. run.
  set (found := document_getElementById env). clearbody found.
  destruct searchVolumeValue as [q1|], competitionScore as [q2|];
    destruct (sources_markup srcs) as [links|];
    cbn;
    repeat (match goal with
            | |- context [found ?c ?m] => destruct (found c m)
            end; cbn);
    eexists; eexists; (split; [reflexivity |]); cbn;
    (split; [reflexivity |]); (split; [reflexivity |]);
    repeat split; try reflexivity; intros; subst; try discriminate; reflexivity.
Qed.

(** *** Concrete runs *)

(** C1, at the text [1{].  With an opening brace at position 1 and no
    closing brace, [substring(1, 0)] swaps its arguments and selects
    ["1"], which parses as the number 1; the handler renders a result
    page (with no card and empty lists) and logs no error. *)
Theorem unclosed_brace_is_rendered :
  JSString.indexOf "1{" "{" = 1
  /\ JSString.lastIndexOf "1{" "}" = -1
  /\ jsonString "1{" = "1"
  /\ JSON.parse "1" = Some (JNum 1)
  /\ fst (performAnalysis (openai_env unclosed_answer) "seo tools" "" "" OpenAI openai_key
            (loading (openai_world unclosed_answer)))
     = Return {| responseText := Some (JStr "1{"); sources := SourcesNull |}
  /\ resultsContainer (snd (on_submit (openai_env unclosed_answer)
                                      (openai_world unclosed_answer)))
     = MResults {| volume_card := None; competition_card := None;
                   alternatives_items := []; suggestedTitles_items := [];
                   longTailKeywords_items := []; sources_card := None |}
  /\ console (snd (on_submit (openai_env unclosed_answer) (openai_world unclosed_answer))) = [].
Proof. repeat split; vm_compute; reflexivity. Qed.

(** After a setup for ['Google AI'] whose client construction failed,
    a dispatch for a non-empty keyword issues no call. *)
Lemma dispatch_without_client_issues_no_call :
  "seo tools" <> ""
  /\ currentProvider (globals (configured keyless_env GoogleAI "user-key" "seo tools"))
     = Some GoogleAI
  /\ performAnalysis keyless_env "seo tools" "" "" GoogleAI "user-key"
       (configured keyless_env GoogleAI "user-key" "seo tools")
     = (Throw (Error "Google AI client not initialized."),
        configured keyless_env GoogleAI "user-key" "seo tools")
  /\ calls_issued (performAnalysis keyless_env "seo tools" "" "" GoogleAI "user-key")
       (configured keyless_env GoogleAI "user-key" "seo tools") = []
  /\ length (calls_issued (performAnalysis keyless_env "seo tools" "" "" GoogleAI "user-key")
       (configured keyless_env GoogleAI "user-key" "seo tools")) <> 1%nat.
Proof. repeat split; try discriminate; vm_compute; reflexivity. Qed.

(** The example answer, with only [searchVolume] and
    [searchVolumeValue]: the page has no competition card, hence no
    "unavailable" marker for the competition label. *)
Lemma missing_competition_label_is_not_shown :
  resultsContainer (snd (on_submit (openai_env fenced_answer) (openai_world fenced_answer)))
  = MResults {| volume_card := Some {| card_text := "High"; card_canvas := true |};
                competition_card := None;
                alternatives_items := []; suggestedTitles_items := [];
                longTailKeywords_items := []; sources_card := None |}
  /\ card_text <$> competition_card
       {| volume_card := Some {| card_text := "High"; card_canvas := true |};
          competition_card := None;
          alternatives_items := []; suggestedTitles_items := [];
          longTailKeywords_items := []; sources_card := None |}
     <> Some unavailable.
Proof. split; [vm_compute; reflexivity | discriminate]. Qed.

(** The client holds the build-time key, not the key the user entered. *)
Lemma client_is_not_built_from_user_key :
  process_env_API_KEY keyed_env = Some "build-key"
  /\ ai (globals (snd (setupApplication keyed_env GoogleAI "user-key"
                         (initial_world "seo tools"))))
     = Some {| apiKey := Some "build-key" |}
  /\ ai (globals (snd (setupApplication keyed_env GoogleAI "user-key"
                         (initial_world "seo tools"))))
     <> Some {| apiKey := Some "user-key" |}.
Proof. repeat split; try discriminate; vm_compute; reflexivity. Qed.

(** A 200 response whose message has no [content]: the dispatcher
    returns, with [responseText] undefined. *)
Lemma dispatch_returns_without_content :
  ok contentless_answer = true
  /\ JSON.parse (bodyText contentless_answer)
     = Some (JObj [("choices", JArr [JObj [("message", JObj [("role", JStr "assistant")])]])])
  /\ envelope_content
       (JObj [("choices", JArr [JObj [("message", JObj [("role", JStr "assistant")])]])])
     = None
  /\ fst (performAnalysis (openai_env contentless_answer) "seo tools" "" "" OpenAI openai_key
            (loading (openai_world contentless_answer)))
     = Return {| responseText := None; sources := SourcesNull |}
  /\ forall e,
       fst (performAnalysis (openai_env contentless_answer) "seo tools" "" "" OpenAI openai_key
              (loading (openai_world contentless_answer)))
       <> Throw e.
Proof.
  repeat split; try (vm_compute; reflexivity).
  intros e. vm_compute. discriminate.
Qed.

(** Two answers that differ in their status only, 404 and 503, as a
    server speaking HTTP/2 gives them, without a status text: the
    dispatcher throws the same error for both, so the error does not
    carry the status. *)
Lemma http_status_is_not_carried :
  status http2_not_found <> status http2_unavailable
  /\ fst (performAnalysis (openai_env http2_not_found) "seo tools" "" "" OpenAI openai_key
            (loading (openai_world http2_not_found)))
     = Throw (Error "API request failed for OpenAI:  - upstream failure")
  /\ fst (performAnalysis (openai_env http2_unavailable) "seo tools" "" "" OpenAI openai_key
            (loading (openai_world http2_unavailable)))
     = Throw (Error "API request failed for OpenAI:  - upstream failure").
Proof. repeat split; try discriminate; vm_compute; reflexivity. Qed.

(** *** Instances *)

Lemma competition_gauge_color_witness :
  getElementById keyless_env CompetitionCanvas gauge_world = true
  /\ competitionChart (globals (snd (renderCompetitionChart keyless_env (JNum 75) gauge_world)))
     = Some (DoughnutChart (Fin 75) "#EA4335").
Proof.
  split; [reflexivity |].
  destruct (competition_gauge_color keyless_env gauge_world 75 eq_refl)
    as (color & Hrun & _ & _ & Hhigh & _).
  rewrite Hrun. cbn. rewrite Hhigh; [reflexivity | reflexivity].
Defined.

Lemma createPrompt_instructions_witness :
  "Egypt" <> "" /\ "Arabic" <> ""
  /\ locationInstruction "Egypt" "Arabic"
     = " for the target country " +:+ JSString.quoted "Egypt"
       +:+ " and language " +:+ JSString.quoted "Arabic".
Proof.
  split; [discriminate |]. split; [discriminate |].
  refine (proj1 (createPrompt_instructions "seo tools" "Egypt" "Arabic" _ _)); discriminate.
Defined.

Lemma http_providers_request_witness :
  Mistral <> GoogleAI
  /\ exists req,
       calls_issued (performAnalysis keyless_env "seo tools" "Egypt" "" Mistral "key")
                    (initial_world "seo tools") = [Fetch req]
       /\ url req = "https://api.mistral.ai/v1/chat/completions"
       /\ headers req !! "Authorization" = Some "Bearer key".
Proof.
  split; [discriminate |].
  destruct (http_providers_request keyless_env "seo tools" "Egypt" "" Mistral "key"
              (initial_world "seo tools")) as [(req & Hcalls & Hurl & _ & _ & Hauth & _) _];
    [discriminate |].
  exists req. split; [exact Hcalls |]. split; [exact Hurl | exact Hauth].
Defined.

Lemma citations_only_when_grounded_witness :
  performAnalysis grounded_env "seo tools" "" "" GoogleAI "user-key" grounded_world
  = (Return {| responseText := Some (JStr "{}");
               sources := SourcesChunks
                 [{| web := Some {| uri := Some "https://example.com/a";
                                    title := Some "A" |} |};
                  {| web := None |}] |},
     record_call (GenerateContent {| apiKey := Some "build-key" |}
                    {| model := "gemini-2.5-flash";
                       contents := createPrompt "seo tools" "" "" true;
                       config_tools_googleSearch := true |}) grounded_world)
  /\ forall data w1 w2,
       renderResults grounded_env data
         (SourcesChunks
            [{| web := Some {| uri := Some "https://example.com/a"; title := Some "A" |} |};
             {| web := None |}]) w1
       = (Return tt, w2) ->
       exists view,
         resultsContainer w2 = MResults view
         /\ sources_card view
            = Some [{| href := "https://example.com/a"; link_text := "A" |}].
Proof.
  assert (H : performAnalysis grounded_env "seo tools" "" "" GoogleAI "user-key" grounded_world
    = (Return {| responseText := Some (JStr "{}");
                 sources := SourcesChunks
                   [{| web := Some {| uri := Some "https://example.com/a";
                                      title := Some "A" |} |};
                    {| web := None |}] |},
       record_call (GenerateContent {| apiKey := Some "build-key" |}
                      {| model := "gemini-2.5-flash";
                         contents := createPrompt "seo tools" "" "" true;
                         config_tools_googleSearch := true |}) grounded_world))
    by (vm_compute; reflexivity).
  split; [exact H |].
  destruct (proj2 (citations_only_when_grounded _ _ _ _ _ _ _ _ _ H) eq_refl)
    as (client & response & _ & Hg & _ & Hrender).
  injection Hg as <-. exact Hrender.
Defined.

Lemma renderResults_defaults_witness :
  get_member "searchVolume" [("searchVolume", JStr "High"); ("searchVolumeValue", JNum 5000)]
  = Some (JStr "High")
  /\ get_member "competition" [("searchVolume", JStr "High"); ("searchVolumeValue", JNum 5000)]
     = None
  /\ exists w' view,
       renderResults keyless_env
         (JObj [("searchVolume", JStr "High"); ("searchVolumeValue", JNum 5000)])
         SourcesNull (initial_world "seo tools") = (Return tt, w')
       /\ resultsContainer w' = MResults view
       /\ volume_card view = Some {| card_text := "High"; card_canvas := true |}
       /\ competition_card view = None
       /\ alternatives_items view = []
       /\ searchVolumeChart (globals w')
          = Some (BarChart (JNum 5000) (Number_toLocaleString_arEG keyless_env 5000))
       /\ competitionChart (globals w') = None.
Proof.
  split; [reflexivity |]. split; [reflexivity |].
  destruct (renderResults_defaults keyless_env
              [("searchVolume", JStr "High"); ("searchVolumeValue", JNum 5000)]
              SourcesNull (initial_world "seo tools")
              (Some "High") (Some 5000%Q) None None None None None
              eq_refl eq_refl eq_refl eq_refl eq_refl eq_refl eq_refl)
    as (w' & view & Hrun & Hm & Hview & Hbar & Hchart & _).
  exists w', view. split; [exact Hrun |]. split; [exact Hm |].
  rewrite Hview. repeat split; [exact Hbar | exact Hchart].
Defined.

Lemma http_error_is_surfaced_witness :
  OpenAI <> GoogleAI
  /\ currentProvider (globals (openai_world server_error)) = Some OpenAI
  /\ currentApiKey (globals (openai_world server_error)) = Some openai_key
  /\ JSString.nonempty (typed_keyword (openai_world server_error)) = true
  /\ fetch (openai_env server_error)
       (chat_request "seo tools" "" "" OpenAI openai_key) = Return server_error
  /\ (status server_error < 200 \/ 299 < status server_error)
  /\ on_submit (openai_env server_error) (openai_world server_error)
     = (Return tt,
        failed (Error "API request failed for OpenAI: Internal Server Error - upstream failure")
          (record_call (Fetch (chat_request "seo tools" "" "" OpenAI openai_key))
             (loading (openai_world server_error))))
  /\ on_submit offline_env (configured offline_env Mistral "sk" "seo tools")
     = (Return tt,
        failed (External "Failed to fetch")
          (record_call (Fetch (chat_request "seo tools" "" "" Mistral "sk"))
             (loading (configured offline_env Mistral "sk" "seo tools")))).
Proof.
  split; [discriminate |]. split; [reflexivity |]. split; [reflexivity |].
  split; [reflexivity |]. split; [reflexivity |]. split; [right; reflexivity |].
  split.
  - refine (proj1 (proj2 (proj1 (http_error_is_surfaced (openai_env server_error)
              (openai_world server_error) OpenAI "s" "k-user-key"
              eq_refl eq_refl eq_refl) server_error _ eq_refl _))).
    + discriminate.
    + right. reflexivity.
  - refine (proj1 (proj2 (http_error_is_surfaced offline_env
              (configured offline_env Mistral "sk" "seo tools") Mistral "s" "k"
              eq_refl eq_refl eq_refl) (External "Failed to fetch") _ _)).
    vm_compute. reflexivity.
Defined.

Lemma setup_builds_client_from_build_key_witness :
  GoogleGenAI_rejects keyed_env (process_env_API_KEY keyed_env) = None
  /\ ai (globals (snd (setupApplication keyed_env GoogleAI "user-key"
                         (initial_world "seo tools"))))
     = Some {| apiKey := Some "build-key" |}.
Proof.
  split; [reflexivity |].
  exact (proj1 (setup_builds_client_from_build_key keyed_env "user-key"
                  (initial_world "seo tools") eq_refl)).
Defined.

Lemma missing_envelope_ends_in_generic_error_witness :
  OpenAI <> GoogleAI
  /\ ok contentless_answer = true
  /\ JSON.parse (bodyText contentless_answer)
     = Some (JObj [("choices", JArr [JObj [("message", JObj [("role", JStr "assistant")])]])])
  /\ fst (performAnalysis (openai_env contentless_answer) "seo tools" "" "" OpenAI openai_key
            (loading (openai_world contentless_answer)))
     = Return {| responseText := None; sources := SourcesNull |}
  /\ on_submit (openai_env contentless_answer) (openai_world contentless_answer)
     = (Return tt,
        failed TypeError
          (record_call (Fetch (chat_request "seo tools" "" "" OpenAI openai_key))
             (loading (openai_world contentless_answer)))).
Proof.
  assert (Hparse : JSON.parse (bodyText contentless_answer)
    = Some (JObj [("choices", JArr [JObj [("message", JObj [("role", JStr "assistant")])]])]))
    by (vm_compute; reflexivity).
  split; [discriminate |]. split; [reflexivity |]. split; [exact Hparse |].
  destruct (proj2 (proj1 (proj2 (missing_envelope_ends_in_generic_error
                     (openai_env contentless_answer) (openai_world contentless_answer)
                     OpenAI "s" "k-user-key" contentless_answer
                     ltac:(discriminate) eq_refl eq_refl eq_refl eq_refl eq_refl))
                   _ Hparse) eq_refl) as [Hdispatch Hsubmit].
  split.
  - exact (f_equal fst Hdispatch).
  - apply Hsubmit. intros s. discriminate.
Defined.

(** *** What the parser consumes *)

Lemma append_cons (c : ascii) (a b : string) : String c a +:+ b = String c (a +:+ b).
Proof. reflexivity. Qed.

Lemma append_nil_l (a : string) : "" +:+ a = a.
Proof. reflexivity. Qed.

Lemma consumed_here (c : ascii) (r : string) : consumed (String c r) r c.
Proof. exists "". reflexivity. Qed.

Lemma consumed_cons (a c : ascii) (s r : string) :
  consumed s r c -> consumed (String a s) r c.
Proof. intros [p ->]. exists (String a p). reflexivity. Qed.

Lemma consumed_app (p s r : string) (c : ascii) :
  consumed s r c -> consumed (p +:+ s) r c.
Proof. intros [q ->]. exists (p +:+ q). now rewrite append_assoc. Qed.

(** Extending a consumed prefix. *)
Lemma consumed_trans (s r r' : string) (c c' : ascii) :
  consumed s r c -> consumed r r' c' -> consumed s r' c'.
Proof.
  intros [p ->] [q ->]. exists (p +:+ String c q).
  rewrite append_assoc. reflexivity.
Qed.

Lemma skip_ws_suffix (s : string) : exists p, s = p +:+ skip_ws s.
Proof.
  induction s as [|c s [p IH]]; [now exists "" |].
  cbn [skip_ws]. destruct (is_ws c).
  - exists (String c p). rewrite append_cons. now f_equal.
  - now exists "".
Qed.

Lemma consumed_skip_ws (s r : string) (c : ascii) :
  consumed (skip_ws s) r c -> consumed s r c.
Proof.
  intros H. destruct (skip_ws_suffix s) as [p Hp]. rewrite Hp. now apply consumed_app.
Qed.

Lemma consumed_after_ws (s r r' : string) (c c' : ascii) :
  consumed s r c -> skip_ws r = String c' r' -> consumed s r' c'.
Proof.
  intros H E. apply (consumed_trans s r r' c c' H).
  apply consumed_skip_ws. rewrite E. apply consumed_here.
Qed.

Lemma span_digits_consumed (s : string) (acc : Z) (count : nat) n k r :
  span_digits s acc count = (n, k, r) ->
  (r = s /\ k = count) \/ (exists c, is_digit c /\ consumed s r c).
Proof.
  revert acc count. induction s as [|c s IH]; intros acc count H; cbn in H.
  - injection H as _ <- <-. now left.
  - destruct (digit_of c) as [d|] eqn:E.
    + right. destruct (IH _ _ H) as [[-> _] | (c' & Hd & Hc)].
      * exists c. split; [now exists d | apply consumed_here].
      * exists c'. split; [exact Hd | now apply consumed_cons].
    + injection H as _ <- <-. now left.
Qed.

Lemma parse_int_consumed (s : string) n r :
  parse_int s = Some (n, r) -> exists c, is_digit c /\ consumed s r c.
Proof.
  destruct s as [|c s]; [discriminate |]. cbn.
  destruct (digit_of c) as [d|] eqn:E; [| discriminate].
  assert (Hc : is_digit c) by now exists d.
  destruct d as [|d|d].
  - intros H. injection H as _ <-. exists c. split; [exact Hc | apply consumed_here].
  - destruct (span_digits s _ 1) as [[n' k] r'] eqn:Es. intros H. injection H as _ <-.
    destruct (span_digits_consumed _ _ _ _ _ _ Es) as [[-> _] | (c' & Hd & Hcons)].
    + exists c. split; [exact Hc | apply consumed_here].
    + exists c'. split; [exact Hd | now apply consumed_cons].
  - destruct (span_digits s _ 1) as [[n' k] r'] eqn:Es. intros H. injection H as _ <-.
    destruct (span_digits_consumed _ _ _ _ _ _ Es) as [[-> _] | (c' & Hd & Hcons)].
    + exists c. split; [exact Hc | apply consumed_here].
    + exists c'. split; [exact Hd | now apply consumed_cons].
Qed.

Lemma parse_frac_consumed (s : string) (n0 : Z) m k r :
  parse_frac s n0 = Some (m, k, r) ->
  r = s \/ exists c, is_digit c /\ consumed s r c.
Proof.
  destruct s as [|c s]; cbn.
  - intros H. injection H as _ _ <-. now left.
  - destruct (code_is c 46).
    + destruct (span_digits s n0 0) as [[m' k'] r'] eqn:Es.
      destruct k' as [|k']; [discriminate |]. intros H. injection H as _ _ <-.
      destruct (span_digits_consumed _ _ _ _ _ _ Es) as [[_ ?] | (c' & Hd & Hcons)];
        [discriminate |].
      right. exists c'. split; [exact Hd | now apply consumed_cons].
    + intros H. injection H as _ _ <-. now left.
Qed.

Lemma parse_exp_consumed (s : string) e r :
  parse_exp s = Some (e, r) ->
  r = s \/ exists c, is_digit c /\ consumed s r c.
Proof.
  destruct s as [|c s]; cbn.
  - intros H. injection H as _ <-. now left.
  - destruct (code_is c 101 || code_is c 69).
    + destruct (match s with
                | String c' r' =>
                  if code_is c' 45 then (true, r')
                  else if code_is c' 43 then (false, r') else (false, s)
                | EmptyString => (false, s)
                end) as [neg r1] eqn:Esign.
      destruct (span_digits r1 0 0) as [[e' k'] r2] eqn:Es.
      destruct k' as [|k']; [discriminate |]. intros H. injection H as _ <-.
      destruct (span_digits_consumed _ _ _ _ _ _ Es) as [[_ ?] | (c' & Hd & Hcons)];
        [discriminate |].
      right. exists c'. split; [exact Hd |]. apply consumed_cons.
      destruct s as [|c2 s2]; [injection Esign as _ <-; exact Hcons |].
      destruct (code_is c2 45); [injection Esign as _ <-; now apply consumed_cons |].
      destruct (code_is c2 43); [injection Esign as _ <-; now apply consumed_cons |].
      injection Esign as _ <-. exact Hcons.
    + intros H. injection H as _ <-. now left.
Qed.

Lemma parse_number_consumed (s : string) q r :
  parse_number s = Some (q, r) -> exists c, is_digit c /\ consumed s r c.
Proof.
  unfold parse_number.
  destruct (match s with
            | String c r0 => if code_is c 45 then (true, r0) else (false, s)
            | EmptyString => (false, s)
            end) as [neg s1] eqn:Esign.
  destruct (parse_int s1) as [[n s2]|] eqn:Ei; [| discriminate].
  destruct (parse_frac s2 n) as [[[m k] s3]|] eqn:Ef; [| discriminate].
  destruct (parse_exp s3) as [[e s4]|] eqn:Ee; [| discriminate].
  intros H. injection H as _ <-.
  assert (H1 : exists c, is_digit c /\ consumed s1 s4 c).
  { destruct (parse_int_consumed _ _ _ Ei) as (c1 & Hd1 & Hc1).
    assert (H2 : exists c, is_digit c /\ consumed s1 s3 c).
    { destruct (parse_frac_consumed _ _ _ _ _ Ef) as [-> | (c2 & Hd2 & Hc2)];
        [now exists c1 |].
      exists c2. split; [exact Hd2 | exact (consumed_trans _ _ _ _ _ Hc1 Hc2)]. }
    destruct H2 as (c2 & Hd2 & Hc2).
    destruct (parse_exp_consumed _ _ _ Ee) as [-> | (c3 & Hd3 & Hc3)];
      [now exists c2 |].
    exists c3. split; [exact Hd3 | exact (consumed_trans _ _ _ _ _ Hc2 Hc3)]. }
  destruct H1 as (c & Hd & Hc). exists c. split; [exact Hd |].
  destruct s as [|c0 s0]; [injection Esign as _ <-; exact Hc |].
  destruct (code_is c0 45); injection Esign as _ <-; [now apply consumed_cons | exact Hc].
Qed.

Lemma parse_chars_consumed_bounded (n : nat) (s : string) acc items r :
  (String.length s <= n)%nat ->
  parse_chars s acc = Some (items, r) -> consumed s r (chr 34).
Proof.
  revert s acc. induction n as [|n IH]; intros s acc Hlen;
    (destruct s as [|c s]; [discriminate |]); cbn in Hlen; [lia |].
  cbn [parse_chars].
  destruct (code_is c 34) eqn:E34.
  - intros H. injection H as _ <-.
    apply Nat.eqb_eq in E34. unfold chr. rewrite <- E34, ascii_nat_embedding.
    apply consumed_here.
  - destruct (code_is c 92).
    + destruct s as [|e s1]; [discriminate |].
      destruct (code_is e 117).
      * destruct s1 as [|h1 [|h2 [|h3 [|h4 r2]]]]; try discriminate.
        destruct (hex4 h1 h2 h3 h4); [| discriminate].
        intros H. apply IH in H; [| cbn in Hlen; lia].
        now repeat apply consumed_cons.
      * destruct (simple_escape e); [| discriminate].
        intros H. apply IH in H; [| cbn in Hlen; lia]. now repeat apply consumed_cons.
    + destruct (nat_of_ascii c <? 32)%nat; [discriminate |].
      intros H. apply IH in H; [| lia]. now apply consumed_cons.
Qed.

Lemma parse_chars_consumed (s : string) acc items r :
  parse_chars s acc = Some (items, r) -> consumed s r (chr 34).
Proof. apply (parse_chars_consumed_bounded (String.length s)). lia. Qed.

Lemma code_is_eq (c : ascii) (n : nat) : code_is c n = true -> c = chr n.
Proof.
  unfold code_is, chr. intros H. apply Nat.eqb_eq in H.
  now rewrite <- H, ascii_nat_embedding.
Qed.

Lemma prefix_drop (lit s : string) :
  String.prefix lit s = true -> s = lit +:+ JSString.drop (String.length lit) s.
Proof.
  revert s. induction lit as [|a lit IH]; intros s; [reflexivity |].
  destruct s as [|b s]; cbn; [discriminate |].
  destruct (ascii_dec a b) as [-> |]; [| discriminate].
  intros H. rewrite append_cons. f_equal. now apply IH.
Qed.

Lemma parse_literal_consumed (p : string) (c : ascii) (v v' : json) (s r : string) :
  parse_literal (p +:+ String c "") v s = Some (v', r) -> consumed s r c.
Proof.
  unfold parse_literal. destruct (String.prefix _ s) eqn:E; [| discriminate].
  intros H. injection H as _ <-. apply prefix_drop in E.
  exists p. rewrite E at 1. now rewrite append_assoc.
Qed.

Lemma parse_consumed (fuel : nat) :
  (forall s v r, parse_value fuel s = Some (v, r) -> value_consumed s r)
  /\ (forall s acc v r, parse_elements fuel s acc = Some (v, r) -> consumed s r (chr 93))
  /\ (forall s acc v r, parse_members fuel s acc = Some (v, r) -> consumed s r rbrace).
Proof.
  induction fuel as [|fuel (IHv & IHe & IHm)]; [repeat split; discriminate |].
  split; [| split].
  - intros s v r. destruct s as [|c s]; [discriminate |]. cbn [parse_value].
    destruct (code_is c 123) eqn:E123.
    { apply code_is_eq in E123. subst c.
      destruct (skip_ws s) as [|c' r'] eqn:Ews; [discriminate |].
      destruct (code_is c' 125) eqn:E125.
      - intros H. injection H as _ <-. apply code_is_eq in E125. subst c'.
        exists rbrace. split; [| now exists s].
        apply consumed_cons, consumed_skip_ws. rewrite Ews. apply consumed_here.
      - intros H. apply IHm in H. exists rbrace. split; [| now exists s].
        apply consumed_cons, consumed_skip_ws. rewrite Ews. exact H. }
    destruct (code_is c 91) eqn:E91.
    { destruct (skip_ws s) as [|c' r'] eqn:Ews; [discriminate |].
      destruct (code_is c' 93) eqn:E93.
      - intros H. injection H as _ <-. apply code_is_eq in E93. subst c'.
        exists (chr 93). split; [| discriminate].
        apply consumed_cons, consumed_skip_ws. rewrite Ews. apply consumed_here.
      - intros H. apply IHe in H. exists (chr 93). split; [| discriminate].
        apply consumed_cons, consumed_skip_ws. rewrite Ews. exact H. }
    destruct (code_is c 34).
    { destruct (parse_chars s []) as [[items r']|] eqn:Ec; [| discriminate].
      intros H. injection H as _ <-. apply parse_chars_consumed in Ec.
      exists (chr 34). split; [now apply consumed_cons | discriminate]. }
    destruct (code_is c 116).
    { intros H. apply (parse_literal_consumed "tru" "e") in H.
      exists "e"%char. split; [exact H | discriminate]. }
    destruct (code_is c 102).
    { intros H. apply (parse_literal_consumed "fals" "e") in H.
      exists "e"%char. split; [exact H | discriminate]. }
    destruct (code_is c 110).
    { intros H. apply (parse_literal_consumed "nul" "l") in H.
      exists "l"%char. split; [exact H | discriminate]. }
    destruct (parse_number (String c s)) as [[q r']|] eqn:En; [| discriminate].
    intros H. injection H as _ <-.
    destruct (parse_number_consumed _ _ _ En) as (d & [x Hd] & Hc).
    exists d. split; [exact Hc |]. intros ->. discriminate Hd.
  - intros s acc v r. cbn [parse_elements].
    destruct (parse_value fuel s) as [[v1 r1]|] eqn:Ev; [| discriminate].
    apply IHv in Ev. destruct Ev as (c1 & Hc1 & _).
    destruct (skip_ws r1) as [|c r'] eqn:Ews; [discriminate |].
    pose proof (consumed_after_ws _ _ _ _ _ Hc1 Ews) as Hc.
    destruct (code_is c 44).
    { intros H. apply IHe in H. apply consumed_skip_ws in H.
      exact (consumed_trans _ _ _ _ _ Hc H). }
    destruct (code_is c 93) eqn:E93; [| discriminate].
    intros H. injection H as _ <-. apply code_is_eq in E93. now subst c.
  - intros s acc v r. cbn [parse_members].
    destruct s as [|c s]; [discriminate |].
    destruct (code_is c 34); [| discriminate].
    destruct (parse_chars s []) as [[items r1]|] eqn:Ec; [| discriminate].
    apply parse_chars_consumed in Ec.
    destruct (skip_ws r1) as [|c1 r2] eqn:Ews1; [discriminate |].
    pose proof (consumed_after_ws _ _ _ _ _ Ec Ews1) as Hc1.
    destruct (code_is c1 58); [| discriminate].
    destruct (parse_value fuel (skip_ws r2)) as [[v1 r3]|] eqn:Ev; [| discriminate].
    apply IHv in Ev. destruct Ev as (c3 & Hc3 & _). apply consumed_skip_ws in Hc3.
    pose proof (consumed_trans _ _ _ _ _ Hc1 Hc3) as Hc13.
    destruct (skip_ws r3) as [|c2 r4] eqn:Ews3; [discriminate |].
    pose proof (consumed_after_ws _ _ _ _ _ Hc13 Ews3) as Hc4.
    destruct (code_is c2 44).
    { intros H. apply IHm in H. apply consumed_skip_ws in H.
      apply consumed_cons. exact (consumed_trans _ _ _ _ _ Hc4 H). }
    destruct (code_is c2 125) eqn:E125; [| discriminate].
    intros H. injection H as _ <-. apply code_is_eq in E125. subst c2.
    now apply consumed_cons.
Qed.

(** *** Texts without an opening brace *)

Lemma length_append (a b : string) :
  String.length (a +:+ b) = (String.length a + String.length b)%nat.
Proof. induction a as [|c a IH]; [reflexivity |]. rewrite append_cons. cbn. now rewrite IH. Qed.

Lemma last_char_app (p r : string) : r <> "" -> last_char (p +:+ r) = last_char r.
Proof.
  intros Hr. induction p as [|c p IH]; [reflexivity |].
  rewrite append_cons. cbn [last_char]. rewrite IH.
  destruct (p +:+ r) eqn:E; [| reflexivity].
  destruct p; [change (r = "") in E; congruence | rewrite append_cons in E; discriminate E].
Qed.

Lemma has_char_app (c : ascii) (p r : string) :
  has_char c (p +:+ r) = has_char c p || has_char c r.
Proof.
  induction p as [|a p IH]; [reflexivity |].
  rewrite append_cons. cbn [has_char]. rewrite IH. now rewrite orb_assoc.
Qed.

Lemma last_char_skip_ws (s : string) (c : ascii) :
  last_char s = Some c -> is_ws c = false -> last_char (skip_ws s) = Some c.
Proof.
  intros Hl Hc. induction s as [|a s IH]; [discriminate |].
  cbn [skip_ws]. destruct (is_ws a) eqn:Ea; [| exact Hl].
  apply IH. cbn [last_char] in Hl. destruct s; [| exact Hl].
  injection Hl as ->. congruence.
Qed.

Lemma parse_needs_open_brace (s : string) :
  has_char lbrace s = false -> last_char s = Some rbrace -> JSON.parse s = None.
Proof.
  intros Hno Hlast. unfold JSON.parse.
  destruct (parse_value _ (skip_ws s)) as [[v r]|] eqn:E; [| reflexivity].
  apply parse_consumed in E. destruct E as (c & [p Hp] & Hbrace).
  pose proof (last_char_skip_ws s rbrace Hlast eq_refl) as Hl1.
  destruct r as [|a r].
  - exfalso. rewrite Hp, last_char_app in Hl1 by discriminate.
    injection Hl1 as ->. destruct (Hbrace eq_refl) as [t Ht].
    destruct (skip_ws_suffix s) as [q Hq].
    rewrite Hq, Ht, has_char_app in Hno. cbn in Hno.
    now rewrite orb_true_r in Hno.
  - rewrite Hp, last_char_app in Hl1 by discriminate.
    change (String c (String a r)) with (String c "" +:+ String a r) in Hl1.
    rewrite last_char_app in Hl1 by discriminate.
    pose proof (last_char_skip_ws _ rbrace Hl1 eq_refl) as Hl2.
    destruct (skip_ws (String a r)); [discriminate | reflexivity].
Qed.

Lemma indexOf_from_absent (s : string) (i : Z) :
  0 <= i -> JSString.indexOf_from "{" s i = -1 -> has_char lbrace s = false.
Proof.
  revert i. induction s as [|a s IH]; intros i Hi; [reflexivity |].
  cbn [JSString.indexOf_from String.prefix].
  destruct (ascii_dec "{" a) as [<- | Hne];
    [replace (String.prefix "" s) with true by (destruct s; reflexivity); lia |].
  intros H. cbn [has_char]. rewrite (IH (i + 1)) by (lia || exact H).
  rewrite orb_false_r. apply Ascii.eqb_neq. intros ->. now apply Hne.
Qed.

Lemma lastIndexOf_from_found (s : string) (i found : Z) :
  JSString.lastIndexOf_from "}" s i found = found
  \/ exists p q, s = p +:+ String rbrace q
                 /\ JSString.lastIndexOf_from "}" s i found = i + Z.of_nat (String.length p).
Proof.
  revert i found. induction s as [|a s IH]; intros i found; [now left |].
  cbn [JSString.lastIndexOf_from String.prefix].
  destruct (ascii_dec "}" a) as [<- | Hne].
  - replace (String.prefix "" s) with true by (destruct s; reflexivity).
    destruct (IH (i + 1) i) as [-> | (p & q & -> & ->)].
    + right. exists "", s. split; [reflexivity |]. cbn. lia.
    + right. exists (String "}" p), q. split; [reflexivity |]. cbn [String.length]. lia.
  - destruct (IH (i + 1) found) as [-> | (p & q & -> & ->)]; [now left |].
    right. exists (String a p), q. split; [reflexivity |]. cbn [String.length]. lia.
Qed.

Lemma substring_prefix (p : string) (c : ascii) (q : string) :
  String.substring 0 (S (String.length p)) (p +:+ String c q) = p +:+ String c "".
Proof.
  induction p as [|a p IH]; [destruct q; reflexivity |].
  rewrite !append_cons. cbn [String.length]. cbn [String.substring]. now rewrite IH.
Qed.

Lemma substring_to_start (t : string) (a : Z) : a <= 0 -> JSString.substring t a 0 = "".
Proof.
  intros Ha. unfold JSString.substring, JSString.clamp.
  replace (Z.min (Z.max a 0) _) with 0 by lia.
  replace (Z.min (Z.max 0 0) _) with 0 by lia.
  destruct t; reflexivity.
Qed.

Lemma substring_from_start (p q : string) (c : ascii) (a : Z) :
  a <= 0 ->
  JSString.substring (p +:+ String c q) a (Z.of_nat (String.length p) + 1)
  = p +:+ String c "".
Proof.
  intros Ha. unfold JSString.substring, JSString.clamp.
  rewrite length_append. cbn [String.length].
  replace (Z.min (Z.max a 0) _) with 0 by lia.
  replace (Z.min (Z.max (Z.of_nat (String.length p) + 1) 0) _)
    with (Z.of_nat (S (String.length p))) by lia.
  replace (Z.min 0 _) with 0 by lia.
  replace (Z.max 0 _) with (Z.of_nat (S (String.length p))) by lia.
  rewrite Z.sub_0_r, Nat2Z.id. change (Z.to_nat 0) with 0%nat.
  apply substring_prefix.
Qed.

(** Without an opening brace the span selected is empty or ends with
    a closing brace and has no opening one. *)
Lemma jsonString_without_open_brace (t : string) :
  JSString.indexOf t "{" = -1 ->
  jsonString t = ""
  \/ (last_char (jsonString t) = Some rbrace /\ has_char lbrace (jsonString t) = false).
Proof.
  intros Hi. pose proof (indexOf_from_absent t 0 ltac:(lia) Hi) as Hno.
  unfold jsonString. rewrite Hi. unfold JSString.lastIndexOf.
  destruct (lastIndexOf_from_found t 0 (-1)) as [-> | (p & q & Ht & ->)].
  - left. apply substring_to_start. lia.
  - right. subst t. rewrite Z.add_0_l, substring_from_start by lia. split.
    + now rewrite last_char_app by discriminate.
    + change (String rbrace q) with (String rbrace "" +:+ q) in Hno.
      rewrite <- append_assoc, has_char_app in Hno.
      now apply orb_false_iff in Hno.
Qed.

Lemma parse_empty : JSON.parse "" = None.
Proof. reflexivity. Qed.

(** A text without an opening brace never yields parsed data. *)
Lemma without_open_brace_nothing_parses (t : string) :
  JSString.indexOf t "{" = -1 -> JSON.parse (jsonString t) = None.
Proof.
  intros Hi. destruct (jsonString_without_open_brace t Hi) as [-> | [Hl Hno]];
    [apply parse_empty | now apply parse_needs_open_brace].
Qed.

(** Whenever the span selected does not parse, the handler ends on
    its error path. *)
Lemma unparsable_span_is_an_error (env : Env) (w w1 : World) (p : AIProvider) (a : ascii)
      (k : string) (analysis : Analysis) (t : string) :
  currentProvider (globals w) = Some p ->
  currentApiKey (globals w) = Some (String a k) ->
  JSString.nonempty (typed_keyword w) = true ->
  performAnalysis env (typed_keyword w) (typed_country w) (typed_language w)
                  p (String a k) (loading w) = (Return analysis, w1) ->
  responseText analysis = Some (JStr t) ->
  JSON.parse (jsonString t) = None ->
  on_submit env w = (Return tt, failed SyntaxError w1).
Proof.
  intros Hp Hk Hkw Hrun Ht Hparse.
  apply (on_submit_throw env w w1 p a k); try assumption.
  unfold analyse_and_render. run. rewrite Hrun, Ht. cbn. now rewrite Hparse.
Qed.

(** *** Fuel *)

Lemma consumed_length (s r : string) (c : ascii) :
  consumed s r c -> (String.length r < String.length s)%nat.
Proof. intros [p ->]. rewrite length_append. cbn. lia. Qed.

Lemma skip_ws_length (s : string) : (String.length (skip_ws s) <= String.length s)%nat.
Proof.
  destruct (skip_ws_suffix s) as [p Hp]. rewrite Hp at 2. rewrite length_append. lia.
Qed.

Lemma skip_ws_cons_length (s r : string) (c : ascii) :
  skip_ws s = String c r -> (String.length r < String.length s)%nat.
Proof.
  intros H. pose proof (skip_ws_length s) as L. rewrite H in L. cbn in L. lia.
Qed.

Lemma parse_value_step (fuel : nat) (c : ascii) (s : string) :
  parse_value (S fuel) (String c s) =
    if code_is c 123 then
      match skip_ws s with
      | String c' r' =>
        if code_is c' 125 then Some (JObj [], r') else parse_members fuel (skip_ws s) []
      | EmptyString => None
      end
    else if code_is c 91 then
      match skip_ws s with
      | String c' r' =>
        if code_is c' 93 then Some (JArr [], r') else parse_elements fuel (skip_ws s) []
      | EmptyString => None
      end
    else if code_is c 34 then
      match parse_chars s [] with
      | Some (items, r') => Some (JStr (encode_items items), r')
      | None => None
      end
    else if code_is c 116 then parse_literal "true" (JBool true) (String c s)
    else if code_is c 102 then parse_literal "false" (JBool false) (String c s)
    else if code_is c 110 then parse_literal "null" JNull (String c s)
    else
      match parse_number (String c s) with
      | Some (q, r') => Some (JNum q, r')
      | None => None
      end.
Proof. reflexivity. Qed.

Lemma parse_elements_step (fuel : nat) (s : string) (acc : list json) :
  parse_elements (S fuel) s acc =
    match parse_value fuel s with
    | None => None
    | Some (v, r) =>
      match skip_ws r with
      | String c r' =>
        if code_is c 44 then parse_elements fuel (skip_ws r') (v :: acc)
        else if code_is c 93 then Some (JArr (rev (v :: acc)), r')
        else None
      | EmptyString => None
      end
    end.
Proof. reflexivity. Qed.

Lemma parse_members_step (fuel : nat) (s : string) (acc : list (string * json)) :
  parse_members (S fuel) s acc =
    match s with
    | String c r =>
      if code_is c 34 then
        match parse_chars r [] with
        | None => None
        | Some (items, r1) =>
          match skip_ws r1 with
          | String c1 r2 =>
            if code_is c1 58 then
              match parse_value fuel (skip_ws r2) with
              | None => None
              | Some (v, r3) =>
                match skip_ws r3 with
                | String c2 r4 =>
                  if code_is c2 44
                  then parse_members fuel (skip_ws r4) ((encode_items items, v) :: acc)
                  else if code_is c2 125
                  then Some (JObj (rev ((encode_items items, v) :: acc)), r4)
                  else None
                | EmptyString => None
                end
              end
            else None
          | EmptyString => None
          end
        end
      else None
    | EmptyString => None
    end.
Proof. reflexivity. Qed.

(** Beyond two units of fuel per character (and one or two more),
    more fuel changes nothing. *)
Lemma fuel_stable (fuel : nat) :
  (forall s, (2 * String.length s + 1 <= fuel)%nat ->
             parse_value (S fuel) s = parse_value fuel s)
  /\ (forall s acc, (2 * String.length s + 2 <= fuel)%nat ->
                    parse_elements (S fuel) s acc = parse_elements fuel s acc)
  /\ (forall s acc, (2 * String.length s + 2 <= fuel)%nat ->
                    parse_members (S fuel) s acc = parse_members fuel s acc).
Proof.
  induction fuel as [|fuel (IHv & IHe & IHm)]; [repeat split; intros; lia |].
  split; [| split].
  - intros s Hf. destruct s as [|c s]; [reflexivity |].
    cbn [String.length] in Hf. pose proof (skip_ws_length s) as Hws.
    rewrite !parse_value_step.
    rewrite IHm by lia. rewrite IHe by lia. reflexivity.
  - intros s acc Hf. rewrite !parse_elements_step.
    rewrite IHv by lia.
    destruct (parse_value fuel s) as [[v r]|] eqn:Ev; [| reflexivity].
    apply parse_consumed in Ev. destruct Ev as (c1 & Hc1 & _).
    apply consumed_length in Hc1.
    destruct (skip_ws r) as [|c r'] eqn:Ews; [reflexivity |].
    apply skip_ws_cons_length in Ews.
    pose proof (skip_ws_length r') as Hws.
    destruct (code_is c 44); [| reflexivity].
    apply IHe. lia.
  - intros s acc Hf. rewrite !parse_members_step.
    destruct s as [|c s]; [reflexivity |]. cbn [String.length] in Hf.
    destruct (code_is c 34); [| reflexivity].
    destruct (parse_chars s []) as [[items r1]|] eqn:Ec; [| reflexivity].
    apply parse_chars_consumed, consumed_length in Ec.
    destruct (skip_ws r1) as [|c1 r2] eqn:Ews1; [reflexivity |].
    apply skip_ws_cons_length in Ews1.
    destruct (code_is c1 58); [| reflexivity].
    pose proof (skip_ws_length r2) as Hws2.
    rewrite IHv by lia.
    destruct (parse_value fuel (skip_ws r2)) as [[v r3]|] eqn:Ev; [| reflexivity].
    apply parse_consumed in Ev. destruct Ev as (c3 & Hc3 & _).
    apply consumed_length in Hc3.
    destruct (skip_ws r3) as [|c2 r4] eqn:Ews3; [reflexivity |].
    apply skip_ws_cons_length in Ews3.
    pose proof (skip_ws_length r4) as Hws4.
    destruct (code_is c2 44); [| reflexivity].
    apply IHm. lia.
Qed.

(** [JSON.parse] gives the answer any larger amount of fuel gives. *)
Lemma parse_fuel_enough (text : string) (extra : nat) :
  parse_value (extra + (2 * String.length text + 2)) (skip_ws text)
  = parse_value (2 * String.length text + 2) (skip_ws text).
Proof.
  induction extra as [|extra IH]; [reflexivity |].
  rewrite <- IH. cbn [Nat.add]. apply (proj1 (fuel_stable _)).
  pose proof (skip_ws_length text). lia.
Qed.

(** *** The span between the braces *)

Lemma prefix_nil (s : string) : String.prefix "" s = true.
Proof. destruct s; reflexivity. Qed.

Lemma indexOf_from_first (p x : string) (i : Z) :
  has_char lbrace p = false ->
  JSString.indexOf_from "{" (p +:+ String lbrace x) i = i + Z.of_nat (String.length p).
Proof.
  revert i. induction p as [|a p IH]; intros i Hp.
  - change ("" +:+ String lbrace x) with (String lbrace x).
    cbn [JSString.indexOf_from String.prefix].
    destruct (ascii_dec "{" lbrace) as [_ | Hne]; [| now exfalso; apply Hne].
    rewrite prefix_nil. cbn. lia.
  - rewrite append_cons. cbn [has_char] in Hp. apply orb_false_iff in Hp as [Ha Hp].
    cbn [JSString.indexOf_from String.prefix].
    destruct (ascii_dec "{" a) as [<- | Hne]; [discriminate Ha |].
    rewrite IH by exact Hp. cbn [String.length]. lia.
Qed.

Lemma lastIndexOf_from_absent (s : string) (i found : Z) :
  has_char rbrace s = false -> JSString.lastIndexOf_from "}" s i found = found.
Proof.
  revert i found. induction s as [|a s IH]; intros i found Hs; [reflexivity |].
  cbn [has_char] in Hs. apply orb_false_iff in Hs as [Ha Hs].
  cbn [JSString.lastIndexOf_from String.prefix].
  destruct (ascii_dec "}" a) as [<- | Hne]; [discriminate Ha |].
  now apply IH.
Qed.

Lemma lastIndexOf_from_last (p q : string) (i found : Z) :
  has_char rbrace q = false ->
  JSString.lastIndexOf_from "}" (p +:+ String rbrace q) i found
  = i + Z.of_nat (String.length p).
Proof.
  intros Hq. revert i found. induction p as [|a p IH]; intros i found.
  - change ("" +:+ String rbrace q) with (String rbrace q).
    cbn [JSString.lastIndexOf_from String.prefix].
    destruct (ascii_dec "}" rbrace) as [_ | Hne]; [| now exfalso; apply Hne].
    rewrite prefix_nil, lastIndexOf_from_absent by exact Hq. cbn. lia.
  - rewrite append_cons. cbn [JSString.lastIndexOf_from].
    rewrite IH. cbn [String.length]. lia.
Qed.

Lemma substring_middle (p x q : string) :
  String.substring (String.length p) (String.length x) (p +:+ x +:+ q) = x.
Proof.
  induction p as [|a p IH].
  - change ("" +:+ x +:+ q) with (x +:+ q). cbn [String.length].
    induction x as [|b x IHx]; [destruct q; reflexivity |].
    rewrite append_cons. cbn. now rewrite IHx.
  - rewrite append_cons. cbn. exact IH.
Qed.

(** With the first opening brace before the last closing brace, the
    span selected runs from the one to the other, both included. *)
Lemma jsonString_span (p m q : string) :
  has_char lbrace p = false ->
  has_char rbrace q = false ->
  jsonString (p +:+ String lbrace (m +:+ String rbrace q))
  = String lbrace (m +:+ String rbrace "").
Proof.
  intros Hp Hq. unfold jsonString, JSString.indexOf, JSString.lastIndexOf.
  rewrite indexOf_from_first by exact Hp.
  replace (p +:+ String lbrace (m +:+ String rbrace q))
    with ((p +:+ String lbrace m) +:+ String rbrace q) at 2
    by (now rewrite append_assoc, append_cons).
  rewrite lastIndexOf_from_last by exact Hq.
  rewrite length_append. cbn [String.length].
  unfold JSString.substring, JSString.clamp.
  rewrite !length_append. cbn [String.length]. rewrite length_append. cbn [String.length].
  set (lp := String.length p). set (lm := String.length m). set (lq := String.length q).
  replace (Z.min (Z.max (0 + Z.of_nat lp) 0) _) with (Z.of_nat lp) by lia.
  replace (Z.min (Z.max (0 + Z.of_nat (lp + S lm) + 1) 0) _)
    with (Z.of_nat (lp + S (S lm))) by lia.
  replace (Z.min (Z.of_nat lp) _) with (Z.of_nat lp) by lia.
  replace (Z.max (Z.of_nat lp) _) with (Z.of_nat (lp + S (S lm))) by lia.
  replace (Z.of_nat (lp + S (S lm)) - Z.of_nat lp) with (Z.of_nat (S (S lm))) by lia.
  rewrite !Nat2Z.id.
  replace (S (S lm)) with (String.length (String lbrace (m +:+ String rbrace "")))
    by (cbn [String.length]; rewrite length_append; cbn; unfold lm; lia).
  unfold lp.
  replace (String lbrace (m +:+ String rbrace q))
    with (String lbrace (m +:+ String rbrace "") +:+ q)
    by (rewrite append_cons, append_assoc; reflexivity).
  apply substring_middle.
Qed.

Lemma substring_head (p r : string) :
  String.substring 0 (String.length p) (p +:+ r) = p.
Proof.
  induction p as [|a p IH]; [destruct r; reflexivity |].
  rewrite append_cons. cbn. now rewrite IH.
Qed.

(** With an opening brace and no closing brace at all, the span
    selected is what stands before the opening brace. *)
Lemma jsonString_unclosed (p x : string) :
  has_char lbrace p = false ->
  has_char rbrace (p +:+ String lbrace x) = false ->
  jsonString (p +:+ String lbrace x) = p.
Proof.
  intros Hp Hno. unfold jsonString, JSString.indexOf, JSString.lastIndexOf.
  rewrite indexOf_from_first by exact Hp.
  rewrite lastIndexOf_from_absent by exact Hno.
  unfold JSString.substring, JSString.clamp.
  rewrite length_append. cbn [String.length].
  set (lp := String.length p). set (lx := String.length x).
  replace (Z.min (Z.max (0 + Z.of_nat lp) 0) _) with (Z.of_nat lp) by lia.
  replace (Z.min (Z.max (-1 + 1) 0) _) with 0 by lia.
  replace (Z.min (Z.of_nat lp) 0) with 0 by lia.
  replace (Z.max (Z.of_nat lp) 0) with (Z.of_nat lp) by lia.
  rewrite Z.sub_0_r, Nat2Z.id. change (Z.to_nat 0) with 0%nat.
  apply substring_head.
Qed.

(* ================================================================== *)
(** ** Further properties of the program *)

(** *** More on the span between the braces *)

Lemma parse_members_object (fuel : nat) (s : string) (acc : list (string * json))
      (v : json) (r : string) :
  parse_members fuel s acc = Some (v, r) -> exists ms, v = JObj ms.
Proof.
  revert s acc. induction fuel as [|fuel IH]; intros s acc; [discriminate |].
  rewrite parse_members_step.
  destruct s as [|c s]; [discriminate |].
  destruct (code_is c 34); [| discriminate].
  destruct (parse_chars s []) as [[items r1]|]; [| discriminate].
  destruct (skip_ws r1) as [|c1 r2]; [discriminate |].
  destruct (code_is c1 58); [| discriminate].
  destruct (parse_value fuel (skip_ws r2)) as [[v1 r3]|]; [| discriminate].
  destruct (skip_ws r3) as [|c2 r4]; [discriminate |].
  destruct (code_is c2 44); [apply IH |].
  destruct (code_is c2 125); [| discriminate].
  intros H. injection H as <- _. eauto.
Qed.

Lemma parse_open_brace_object (x : string) (v : json) :
  JSON.parse (String lbrace x) = Some v -> exists ms, v = JObj ms.
Proof.
  unfold JSON.parse. change (skip_ws (String lbrace x)) with (String lbrace x).
  cbn [String.length]. replace (2 * S (String.length x) + 2)%nat
    with (S (2 * String.length x + 3)) by lia.
  rewrite parse_value_step. change (code_is lbrace 123) with true. cbv iota.
  destruct (skip_ws x) as [|c' r'] eqn:Ews; [discriminate |].
  destruct (code_is c' 125).
  - destruct (skip_ws r'); [| discriminate]. intros H. injection H as <-. eauto.
  - rewrite <- Ews.
    destruct (parse_members _ _ _) as [[v' r]|] eqn:Em; [| discriminate].
    apply parse_members_object in Em. destruct Em as [ms ->].
    destruct (skip_ws r); [| discriminate]. intros H. injection H as <-. eauto.
Qed.

(** X1.  When the first opening brace of the text stands before its
    last closing brace, the handler parses exactly the text from the
    one to the other, both included, and whatever that text parses to
    is an object. *)
Theorem braces_in_order_select_an_object (p m q : string) :
  has_char lbrace p = false ->
  has_char rbrace q = false ->
  jsonString (p +:+ String lbrace (m +:+ String rbrace q))
    = String lbrace (m +:+ String rbrace "")
  /\ forall data,
       JSON.parse (jsonString (p +:+ String lbrace (m +:+ String rbrace q))) = Some data ->
       exists ms, data = JObj ms.
Proof.
  intros Hp Hq. rewrite (jsonString_span p m q Hp Hq). split; [reflexivity |].
  intros data. apply parse_open_brace_object.
Qed.

Lemma braces_in_order_select_an_object_witness :
  has_char lbrace "Sure! " = false
  /\ has_char rbrace " Bye." = false
  /\ jsonString ("Sure! " +:+ String lbrace ("}{" +:+ String rbrace " Bye."))
     = String lbrace ("}{" +:+ String rbrace "").
Proof.
  split; [reflexivity |]. split; [reflexivity |].
  exact (proj1 (braces_in_order_select_an_object "Sure! " "}{" " Bye." eq_refl eq_refl)).
Defined.

(** X2.  When the answer of the provider is a text without any
    opening brace, nothing is rendered: the submission ends on the
    error path with a SyntaxError logged. *)
Theorem text_without_open_brace_is_an_error (env : Env) (w w1 : World) (p : AIProvider)
        (a : ascii) (k : string) (analysis : Analysis) (t : string) :
  currentProvider (globals w) = Some p ->
  currentApiKey (globals w) = Some (String a k) ->
  JSString.nonempty (typed_keyword w) = true ->
  performAnalysis env (typed_keyword w) (typed_country w) (typed_language w)
                  p (String a k) (loading w) = (Return analysis, w1) ->
  responseText analysis = Some (JStr t) ->
  JSString.indexOf t "{" = -1 ->
  on_submit env w = (Return tt, failed SyntaxError w1)
  /\ resultsContainer (failed SyntaxError w1) = MError generic_error_message.
Proof.
  intros Hp Hk Hkw Hrun Ht Hi. split; [| reflexivity].
  apply (unparsable_span_is_an_error env w w1 p a k analysis t); try assumption.
  now apply without_open_brace_nothing_parses.
Qed.

Lemma text_without_open_brace_is_an_error_witness :
  JSString.indexOf "all done }" "{" = -1
  /\ resultsContainer
       (snd (on_submit (openai_env (completion "all done }"))
                       (openai_world (completion "all done }"))))
     = MError generic_error_message.
Proof.
  split; [reflexivity |].
  pose proof (text_without_open_brace_is_an_error
    (openai_env (completion "all done }")) (openai_world (completion "all done }"))
    (record_call (Fetch (chat_request "seo tools" "" "" OpenAI openai_key))
       (loading (openai_world (completion "all done }"))))
    OpenAI "s" "k-user-key"
    {| responseText := Some (JStr "all done }"); sources := SourcesNull |}
    "all done }" eq_refl eq_refl eq_refl) as H.
  destruct H as [Hrun Hm]; [vm_compute; reflexivity | reflexivity | reflexivity |].
  rewrite Hrun. exact Hm.
Defined.

(** *** The submit handler as a whole *)

Lemma renderResults_controls env data srcs : frame controls (renderResults env data srcs).
Proof.
  unfold renderResults, renderSearchVolumeChart, renderCompetitionChart.
  repeat frame_step.
Qed.

Lemma renderResults_console env data srcs : frame console (renderResults env data srcs).
Proof.
  unfold renderResults, renderSearchVolumeChart, renderCompetitionChart.
  repeat frame_step.
Qed.

Lemma performAnalysis_controls env kw c l p k : frame controls (performAnalysis env kw c l p k).
Proof.
  intros w. rewrite performAnalysis_world.
  destruct p; try reflexivity. destruct (ai (globals w)); reflexivity.
Qed.

Lemma performAnalysis_console env kw c l p k : frame console (performAnalysis env kw c l p k).
Proof.
  intros w. rewrite performAnalysis_world.
  destruct p; try reflexivity. destruct (ai (globals w)); reflexivity.
Qed.

Lemma analyse_and_render_frame {B} (f : World -> B) env kw c l p k :
  frame f (performAnalysis env kw c l p k) ->
  (forall data srcs, frame f (renderResults env data srcs)) ->
  frame f (analyse_and_render env kw c l p k).
Proof.
  intros Hd Hr. unfold analyse_and_render.
  apply frame_bind; [exact Hd |]. intros analysis.
  apply frame_bind; [apply frame_lift |]. intros t.
  destruct (JSON.parse _); [apply Hr | apply frame_throw].
Qed.

(** When the [try] block completes, the page shows results. *)
Lemma analyse_and_render_returns env kw c l p k (w w1 : World) :
  analyse_and_render env kw c l p k w = (Return tt, w1) ->
  exists view, resultsContainer w1 = MResults view.
Proof.
  unfold analyse_and_render. intros H.
  apply bind_returns in H as (analysis & w2 & _ & H).
  apply bind_returns in H as (t & w3 & _ & H).
  destruct (JSON.parse _) as [data|]; [| discriminate].
  apply renderResults_returns in H as (sv & svv & cc & cs & al & st & lt & view & H).
  destruct H as (_ & _ & _ & _ & _ & _ & _ & _ & Hm).
  rewrite Hm. destruct (sources_markup _); cbn; eauto.
Qed.

(** X3.  The submit handler never lets an exception escape, whatever
    the state of the page and whatever the collaborators answer. *)
Theorem on_submit_never_throws (env : Env) (w : World) :
  fst (on_submit env w) = Return tt.
Proof.
  destruct (currentProvider (globals w)) as [p|] eqn:Hp.
  2: { unfold on_submit. run. now rewrite Hp. }
  destruct (currentApiKey (globals w)) as [[|a k]|] eqn:Hk.
  1, 3: unfold on_submit; run; now rewrite Hp, Hk.
  destruct (JSString.nonempty (typed_keyword w)) eqn:Hkw.
  - rewrite (on_submit_run env w p a k Hp Hk Hkw).
    destruct (analyse_and_render _ _ _ _ _ _ _) as [[[]|e] w']; reflexivity.
  - unfold on_submit. run. rewrite Hp, Hk. cbn.
    unfold typed_keyword in Hkw. now rewrite Hkw.
Qed.

(** X4.  Once a submission has started (session configured, keyword
    not blank), it ends with the four controls enabled again and the
    button caption restored, and the results container holds either a
    rendered result, with nothing logged, or the generic error message,
    with exactly one entry logged: the loader never stays. *)
Theorem submission_ends_enabled (env : Env) (w : World) (p : AIProvider)
        (a : ascii) (k : string) :
  currentProvider (globals w) = Some p ->
  currentApiKey (globals w) = Some (String a k) ->
  JSString.nonempty (typed_keyword w) = true ->
  controls (snd (on_submit env w))
    = {| form_disabled := form_disabled (controls w);
         input_disabled := false; countryInput_disabled := false;
         languageInput_disabled := false; button_disabled := false;
         button_textContent := idle_caption |}
  /\ ((exists view, resultsContainer (snd (on_submit env w)) = MResults view
                    /\ console (snd (on_submit env w)) = console w)
      \/ (exists e, resultsContainer (snd (on_submit env w)) = MError generic_error_message
                    /\ console (snd (on_submit env w)) = console w ++ [("", e)])).
Proof.
  intros Hp Hk Hkw. rewrite (on_submit_run env w p a k Hp Hk Hkw).
  pose proof (analyse_and_render_frame controls env
                (JSString.trim (input_value (fields w)))
                (JSString.trim (countryInput_value (fields w)))
                (JSString.trim (languageInput_value (fields w))) p (String a k)
                (performAnalysis_controls _ _ _ _ _ _)
                (renderResults_controls env) (loading w)) as Hc.
  pose proof (analyse_and_render_frame console env
                (JSString.trim (input_value (fields w)))
                (JSString.trim (countryInput_value (fields w)))
                (JSString.trim (languageInput_value (fields w))) p (String a k)
                (performAnalysis_console _ _ _ _ _ _)
                (renderResults_console env) (loading w)) as Hl.
  destruct (analyse_and_render _ _ _ _ _ _ _) as [[[]|e] w1] eqn:Hrun; cbn [snd] in *.
  - split.
    + unfold succeeded, setLoading. run. cbn. now rewrite Hc.
    + left. apply analyse_and_render_returns in Hrun as [view Hv].
      exists view. split; [exact Hv | exact Hl].
  - split.
    + unfold failed, setLoading. run. cbn. now rewrite Hc.
    + right. exists e. split; [reflexivity |].
      unfold failed, setLoading. run. cbn. now rewrite Hl.
Qed.

Lemma submission_ends_enabled_witness :
  currentProvider (globals (openai_world server_error)) = Some OpenAI
  /\ currentApiKey (globals (openai_world server_error)) = Some openai_key
  /\ JSString.nonempty (typed_keyword (openai_world server_error)) = true
  /\ input_disabled (controls (snd (on_submit (openai_env server_error)
                                             (openai_world server_error)))) = false.
Proof.
  split; [reflexivity |]. split; [reflexivity |]. split; [reflexivity |].
  rewrite (proj1 (submission_ends_enabled (openai_env server_error)
                    (openai_world server_error) OpenAI "s" "k-user-key"
                    eq_refl eq_refl eq_refl)).
  reflexivity.
Defined.

(** X5.  Without a provider, or without a non-empty key, a submission
    only shows the message asking to set them up: it issues no call
    and leaves the controls, the globals and the console as they
    are. *)
Theorem unconfigured_submission_only_asks_for_setup (env : Env) (w : World) :
  currentProvider (globals w) = None
  \/ currentApiKey (globals w) = None
  \/ currentApiKey (globals w) = Some "" ->
  on_submit env w = (Return tt, set_resultsContainer (MError not_configured_message) w).
Proof.
  intros H. unfold on_submit, renderError. run.
  destruct (currentProvider (globals w)) as [p|]; [| reflexivity].
  destruct H as [H | [-> | ->]]; [discriminate | reflexivity | reflexivity].
Qed.

Lemma unconfigured_submission_only_asks_for_setup_witness :
  currentProvider (globals (initial_world "seo tools")) = None
  /\ outbound (snd (on_submit keyless_env (initial_world "seo tools"))) = [].
Proof.
  split; [reflexivity |].
  rewrite (unconfigured_submission_only_asks_for_setup keyless_env
             (initial_world "seo tools") (or_introl eq_refl)).
  reflexivity.
Defined.

(** X6.  With a configured session, a keyword that trims to nothing
    (empty, or white space only) makes the submission a no-op: the page
    is left exactly as it was, with no loader shown and no call issued. *)
Theorem blank_keyword_is_ignored (env : Env) (w : World) (p : AIProvider)
        (a : ascii) (k : string) :
  currentProvider (globals w) = Some p ->
  currentApiKey (globals w) = Some (String a k) ->
  JSString.is_blank (input_value (fields w)) = true ->
  on_submit env w = (Return tt, w).
Proof.
  intros Hp Hk Hb. unfold on_submit. run. rewrite Hp, Hk. cbn.
  unfold JSString.trim. unfold JSString.is_blank in Hb.
  destruct (JSString.trimStart (input_value (fields w))); [reflexivity | discriminate].
Qed.

Lemma blank_keyword_is_ignored_witness :
  JSString.is_blank "    " = true
  /\ on_submit (openai_env server_error)
       (configured (openai_env server_error) OpenAI openai_key "    ")
     = (Return tt, configured (openai_env server_error) OpenAI openai_key "    ").
Proof.
  split; [reflexivity |].
  exact (blank_keyword_is_ignored (openai_env server_error)
           (configured (openai_env server_error) OpenAI openai_key "    ")
           OpenAI "s" "k-user-key" eq_refl eq_refl eq_refl).
Defined.

Lemma performAnalysis_generate (env : Env) (kw c l : string) (k : string) (w : World)
      (client : GoogleGenAI) :
  ai (globals w) = Some client ->
  performAnalysis env kw c l GoogleAI k w =
    (match generateContent env client
             {| model := "gemini-2.5-flash"; contents := createPrompt kw c l true;
                config_tools_googleSearch := true |} with
     | Throw e => Throw e
     | Return response =>
       Return {| responseText := jsval_of_text (text response);
                 sources := grounding_sources response |}
     end,
     record_call (GenerateContent client
                    {| model := "gemini-2.5-flash"; contents := createPrompt kw c l true;
                       config_tools_googleSearch := true |}) w).
Proof.
  intros Hai. unfold performAnalysis, call_generateContent. cbn [is_google]. run.
  rewrite Hai. destruct (generateContent env client _); reflexivity.
Qed.

(** X7.  When the call to the provider is rejected (transport
    failure, SDK error), the rejection is what the handler logs; the
    page shows the generic error, and exactly one call was issued: the
    call is not repeated. *)
Theorem rejected_call_is_surfaced_once (env : Env) (w : World) (p : AIProvider)
        (a : ascii) (k : string) (e : exn) :
  currentProvider (globals w) = Some p ->
  currentApiKey (globals w) = Some (String a k) ->
  JSString.nonempty (typed_keyword w) = true ->
  match p, ai (globals w) with
  | GoogleAI, None => False
  | GoogleAI, Some client =>
    generateContent env client
      {| model := "gemini-2.5-flash";
         contents := createPrompt (typed_keyword w) (typed_country w) (typed_language w) true;
         config_tools_googleSearch := true |} = Throw e
  | _, _ =>
    fetch env (chat_request (typed_keyword w) (typed_country w) (typed_language w)
                            p (String a k)) = Throw e
  end ->
  exists call,
    on_submit env w = (Return tt, failed e (record_call call (loading w)))
    /\ calls_issued (on_submit env) w = [call]
    /\ console (snd (on_submit env w)) = console w ++ [("", e)]
    /\ resultsContainer (snd (on_submit env w)) = MError generic_error_message.
Proof.
  intros Hp Hk Hkw Hrej.
  assert (Hd : exists call,
    performAnalysis env (typed_keyword w) (typed_country w) (typed_language w)
                    p (String a k) (loading w) = (Throw e, record_call call (loading w))).
  { destruct p.
    - destruct (ai (globals w)) as [client|] eqn:Hai; [| contradiction].
      eexists. rewrite (performAnalysis_generate env _ _ _ _ (loading w) client Hai).
      now rewrite Hrej.
    - eexists. rewrite performAnalysis_fetch by discriminate. now rewrite Hrej.
    - eexists. rewrite performAnalysis_fetch by discriminate. now rewrite Hrej.
    - eexists. rewrite performAnalysis_fetch by discriminate. now rewrite Hrej. }
  destruct Hd as [call Hd]. exists call.
  assert (Hs : on_submit env w = (Return tt, failed e (record_call call (loading w)))).
  { apply (on_submit_throw env w _ p a k); try assumption.
    now apply analyse_and_render_dispatch_throw. }
  split; [exact Hs |]. split; [apply calls_issued_app; now rewrite Hs |].
  rewrite Hs. split; reflexivity.
Qed.

Lemma rejected_call_is_surfaced_once_witness :
  currentProvider (globals (configured offline_env Mistral openai_key "seo tools"))
  = Some Mistral
  /\ fetch offline_env (chat_request "seo tools" "" "" Mistral openai_key)
     = Throw (External "Failed to fetch")
  /\ exists call,
       calls_issued (on_submit offline_env)
         (configured offline_env Mistral openai_key "seo tools") = [call]
       /\ console (snd (on_submit offline_env
                          (configured offline_env Mistral openai_key "seo tools")))
          = [("", External "Failed to fetch")].
Proof.
  split; [reflexivity |]. split; [reflexivity |].
  destruct (rejected_call_is_surfaced_once offline_env
              (configured offline_env Mistral openai_key "seo tools")
              Mistral "s" "k-user-key" (External "Failed to fetch")
              eq_refl eq_refl eq_refl eq_refl) as (call & _ & Hcalls & Hlog & _).
  exists call. split; [exact Hcalls | exact Hlog].
Defined.

(** *** More on the dispatcher *)

(** X8.  Of the three HTTP providers only OpenRouter identifies the
    caller: its request has the four headers [Content-Type],
    [Authorization], [HTTP-Referer: https://keyword-analyzer.com] and
    [X-Title: Keyword Analyzer]; the requests to OpenAI and Mistral
    have the first two and no other. *)
Theorem only_openrouter_identifies_the_caller (env : Env) (keyword country language : string)
        (provider : AIProvider) (apiKey : string) (w : World) :
  provider <> GoogleAI ->
  exists req,
    calls_issued (performAnalysis env keyword country language provider apiKey) w = [Fetch req]
    /\ dom (headers req) =
         match provider with
         | OpenRouter => {["Content-Type"; "Authorization"; "HTTP-Referer"; "X-Title"]}
         | _ => {["Content-Type"; "Authorization"]}
         end
    /\ headers req !! "HTTP-Referer" =
         match provider with
         | OpenRouter => Some "https://keyword-analyzer.com"
         | _ => None
         end
    /\ headers req !! "X-Title" =
         match provider with
         | OpenRouter => Some "Keyword Analyzer"
         | _ => None
         end.
Proof.
  intros Hp. eexists. rewrite performAnalysis_calls.
  destruct provider; [congruence | | |]; (split; [reflexivity |]);
    cbn [headers]; unfold request_headers; rewrite !dom_insert_L, dom_empty_L;
    (split; [set_solver |]); split; by simplify_map_eq.
Qed.

Lemma only_openrouter_identifies_the_caller_witness :
  OpenRouter <> GoogleAI
  /\ exists req,
       calls_issued (performAnalysis keyless_env "seo tools" "" "" OpenRouter "key")
                    (initial_world "seo tools") = [Fetch req]
       /\ headers req !! "X-Title" = Some "Keyword Analyzer".
Proof.
  split; [discriminate |].
  destruct (only_openrouter_identifies_the_caller keyless_env "seo tools" "" "" OpenRouter
              "key" (initial_world "seo tools")) as (req & Hc & _ & _ & Ht);
    [discriminate |].
  exists req. split; [exact Hc | exact Ht].
Defined.

(** X9.  The key reaches the provider in the [Authorization] header
    and nowhere else: two dispatches that differ only in the key issue
    calls with the same URL, method and body and the same headers apart
    from [Authorization], and for ['Google AI'] the very same call. *)
Theorem key_is_confined_to_authorization (env : Env) (keyword country language : string)
        (provider : AIProvider) (key1 key2 : string) (w : World) :
  (provider <> GoogleAI ->
   exists r1 r2,
     calls_issued (performAnalysis env keyword country language provider key1) w = [Fetch r1]
     /\ calls_issued (performAnalysis env keyword country language provider key2) w
        = [Fetch r2]
     /\ url r1 = url r2 /\ method r1 = method r2 /\ body r1 = body r2
     /\ delete "Authorization" (headers r1) = delete "Authorization" (headers r2)
     /\ headers r1 !! "Authorization" = Some ("Bearer " +:+ key1)
     /\ headers r2 !! "Authorization" = Some ("Bearer " +:+ key2))
  /\ (provider = GoogleAI ->
      calls_issued (performAnalysis env keyword country language provider key1) w
      = calls_issued (performAnalysis env keyword country language provider key2) w).
Proof.
  rewrite !performAnalysis_calls. split.
  - intros Hp. eexists. eexists.
    destruct provider; [congruence | | |];
      (split; [reflexivity |]); (split; [reflexivity |]);
      cbn [url method body headers]; unfold request_headers;
      repeat split; try (by simplify_map_eq); try (now rewrite !delete_insert_eq);
      try (rewrite !(delete_insert_ne _ "Authorization") by discriminate;
           now rewrite !delete_insert_eq).
  - intros ->. destruct (ai (globals w)); reflexivity.
Qed.

Lemma key_is_confined_to_authorization_witness :
  Mistral <> GoogleAI
  /\ exists r1 r2,
       calls_issued (performAnalysis keyless_env "seo tools" "" "" Mistral "first")
                    (initial_world "seo tools") = [Fetch r1]
       /\ calls_issued (performAnalysis keyless_env "seo tools" "" "" Mistral "second")
                       (initial_world "seo tools") = [Fetch r2]
       /\ body r1 = body r2.
Proof.
  split; [discriminate |].
  destruct (proj1 (key_is_confined_to_authorization keyless_env "seo tools" "" "" Mistral
                     "first" "second" (initial_world "seo tools")))
    as (r1 & r2 & H1 & H2 & _ & _ & Hb & _); [discriminate |].
  exists r1, r2. repeat split; assumption.
Defined.

(** X10.  A grounded dispatch never fails for lack of grounding
    metadata: whatever the response of the client holds, the dispatcher
    returns its text and, as sources, the chunks of the first candidate
    if the response has candidates, that candidate has metadata and the
    metadata has chunks, and [undefined] otherwise, in which case a
    rendered page has no source card. *)
Theorem grounded_dispatch_tolerates_missing_metadata (env : Env)
        (keyword country language key : string) (w : World) (client : GoogleGenAI)
        (response : GenerateContentResponse) :
  ai (globals w) = Some client ->
  generateContent env client
    {| model := "gemini-2.5-flash";
       contents := createPrompt keyword country language true;
       config_tools_googleSearch := true |} = Return response ->
  exists analysis w1,
    performAnalysis env keyword country language GoogleAI key w = (Return analysis, w1)
    /\ responseText analysis = jsval_of_text (text response)
    /\ sources analysis =
         match ((candidates response ≫= head) ≫= groundingMetadata) ≫= groundingChunks with
         | Some chunks => SourcesChunks chunks
         | None => SourcesUndefined
         end
    /\ (((candidates response ≫= head) ≫= groundingMetadata) ≫= groundingChunks = None ->
        forall data w2 w3,
          renderResults env data (sources analysis) w2 = (Return tt, w3) ->
          exists view, resultsContainer w3 = MResults view /\ sources_card view = None).
Proof.
  intros Hai Hg. eexists. eexists.
  rewrite (performAnalysis_generate env _ _ _ _ w client Hai), Hg.
  split; [reflexivity |]. split; [reflexivity |]. cbn [sources].
  assert (Hs : grounding_sources response =
    match ((candidates response ≫= head) ≫= groundingMetadata) ≫= groundingChunks with
    | Some chunks => SourcesChunks chunks
    | None => SourcesUndefined
    end).
  { unfold grounding_sources. destruct (candidates response) as [[|c cs]|]; try reflexivity.
    cbn. destruct (groundingMetadata c) as [md|]; [| reflexivity].
    cbn. destruct (groundingChunks md); reflexivity. }
  split; [exact Hs |]. intros Hnone data w2 w3 Hr. rewrite Hs, Hnone in Hr.
  apply renderResults_returns in Hr as (sv & svv & c & cs & al & st & lt & view & H).
  destruct H as (_ & _ & _ & _ & _ & _ & _ & Hview & Hm).
  exists view. split; [exact Hm |].
  unfold results_view, Result_bind in Hview.
  repeat (match type of Hview with
          | context [match ?x with _ => _ end] => destruct x; try discriminate
          end).
  now injection Hview as <-.
Qed.

Lemma grounded_dispatch_tolerates_missing_metadata_witness :
  ai (globals bare_world) = Some {| apiKey := Some "build-key" |}
  /\ exists analysis w1,
       performAnalysis bare_env "seo tools" "" "" GoogleAI "user-key" bare_world
       = (Return analysis, w1)
       /\ sources analysis = SourcesUndefined.
Proof.
  split; [reflexivity |].
  destruct (grounded_dispatch_tolerates_missing_metadata bare_env "seo tools" "" ""
              "user-key" bare_world {| apiKey := Some "build-key" |} bare_answer
              eq_refl eq_refl) as (analysis & w1 & Hrun & _ & Hs & _).
  exists analysis, w1. split; [exact Hrun | exact Hs].
Defined.

(** X11.  A grounded answer that carries no text ends on the error
    path: the handler logs a TypeError and shows the generic message,
    after the one call. *)
Theorem grounded_answer_without_text_is_an_error (env : Env) (w : World) (a : ascii)
        (k : string) (client : GoogleGenAI) (response : GenerateContentResponse) :
  currentProvider (globals w) = Some GoogleAI ->
  currentApiKey (globals w) = Some (String a k) ->
  JSString.nonempty (typed_keyword w) = true ->
  ai (globals w) = Some client ->
  generateContent env client
    {| model := "gemini-2.5-flash";
       contents := createPrompt (typed_keyword w) (typed_country w) (typed_language w) true;
       config_tools_googleSearch := true |} = Return response ->
  text response = None ->
  exists call,
    on_submit env w = (Return tt, failed TypeError (record_call call (loading w)))
    /\ calls_issued (on_submit env) w = [call].
Proof.
  intros Hp Hk Hkw Hai Hg Ht.
  exists (GenerateContent client
            {| model := "gemini-2.5-flash";
               contents := createPrompt (typed_keyword w) (typed_country w)
                                        (typed_language w) true;
               config_tools_googleSearch := true |}).
  match goal with |- on_submit env w = (Return tt, ?x) /\ _ =>
    assert (Hs : on_submit env w = (Return tt, x)) end.
  { apply (on_submit_throw env w _ GoogleAI a k); try assumption.
    unfold analyse_and_render. run.
    rewrite (performAnalysis_generate env _ _ _ _ (loading w) client Hai), Hg.
    cbn. rewrite Ht. reflexivity. }
  split; [exact Hs |]. apply calls_issued_app. now rewrite Hs.
Qed.

Lemma grounded_answer_without_text_is_an_error_witness :
  currentProvider (globals bare_world) = Some GoogleAI
  /\ text bare_answer = None
  /\ resultsContainer (snd (on_submit bare_env bare_world)) = MError generic_error_message.
Proof.
  split; [reflexivity |]. split; [reflexivity |].
  destruct (grounded_answer_without_text_is_an_error bare_env bare_world "u" "ser-key"
              {| apiKey := Some "build-key" |} bare_answer
              eq_refl eq_refl eq_refl eq_refl eq_refl eq_refl) as (call & Hs & _).
  rewrite Hs. reflexivity.
Defined.

(** *** Setup as a whole *)

Lemma setupApplication_http (env : Env) (p : AIProvider) (key : string) (w : World) :
  p <> GoogleAI ->
  setupApplication env p key w =
    (Return tt,
     set_controls
       {| form_disabled := false; input_disabled := false; countryInput_disabled := false;
          languageInput_disabled := false; button_disabled := false;
          button_textContent := button_textContent (controls w) |}
       (set_panels {| settingsPanel_hidden := true; setupMessage_hidden := true |}
          (set_logoContainer LogoEmpty
             (set_globals
                (set_ai None (set_currentApiKey (Some key)
                                (set_currentProvider (Some p) (globals w)))) w)))).
Proof.
  intros Hp. unfold setupApplication. destruct p; [congruence | | |]; reflexivity.
Qed.

Lemma setupApplication_google (env : Env) (key : string) (w : World) :
  GoogleGenAI_rejects env (process_env_API_KEY env) = None ->
  setupApplication env GoogleAI key w =
    (Return tt,
     set_controls
       {| form_disabled := false; input_disabled := false; countryInput_disabled := false;
          languageInput_disabled := false; button_disabled := false;
          button_textContent := button_textContent (controls w) |}
       (set_panels {| settingsPanel_hidden := true; setupMessage_hidden := true |}
          (record_call (GenerateImages {| apiKey := process_env_API_KEY env |})
             (set_logoContainer LogoLoader
                (set_globals
                   (set_ai (Some {| apiKey := process_env_API_KEY env |})
                      (set_currentApiKey (Some key)
                         (set_currentProvider (Some GoogleAI) (globals w)))) w))))).
Proof.
  intros Hc. unfold setupApplication, new_GoogleGenAI, generateAndSetLogo. run.
  rewrite Hc. reflexivity.
Qed.

Lemma setupApplication_rejected (env : Env) (key : string) (w : World) (e : exn) :
  GoogleGenAI_rejects env (process_env_API_KEY env) = Some e ->
  setupApplication env GoogleAI key w =
    (Return tt,
     set_controls
       {| form_disabled := true; input_disabled := true; countryInput_disabled := true;
          languageInput_disabled := true; button_disabled := true;
          button_textContent := button_textContent (controls w) |}
       (set_panels {| settingsPanel_hidden := false; setupMessage_hidden := false |}
          (set_resultsContainer (MError setup_failed_message)
             (log_error "Failed to initialize:" e
                (set_globals
                   (set_currentApiKey (Some key)
                      (set_currentProvider (Some GoogleAI) (globals w))) w))))).
Proof.
  intros Hc. unfold setupApplication, new_GoogleGenAI, showSetup, renderError. run.
  rewrite Hc. reflexivity.
Qed.

(** X12.  Setup never lets an exception escape, for any provider,
    key, state and environment. *)
Theorem setupApplication_never_throws (env : Env) (provider : AIProvider) (key : string)
        (w : World) :
  fst (setupApplication env provider key w) = Return tt.
Proof.
  destruct provider.
  - destruct (GoogleGenAI_rejects env (process_env_API_KEY env)) as [e|] eqn:E.
    + now rewrite (setupApplication_rejected env key w e E).
    + now rewrite (setupApplication_google env key w E).
  - now rewrite setupApplication_http.
  - now rewrite setupApplication_http.
  - now rewrite setupApplication_http.
Qed.

(** X13.  When the construction of the client fails, setup logs the
    failure, shows the setup-failed message, disables the keyword form
    and shows the settings panel and the setup message again.  The
    provider and the key were already recorded, the client is left as
    it was before, and no call is issued. *)
Theorem failed_setup_returns_to_setup (env : Env) (key : string) (w : World) (e : exn) :
  GoogleGenAI_rejects env (process_env_API_KEY env) = Some e ->
  let w' := snd (setupApplication env GoogleAI key w) in
  console w' = console w ++ [("Failed to initialize:", e)]
  /\ resultsContainer w' = MError setup_failed_message
  /\ controls w'
     = {| form_disabled := true; input_disabled := true; countryInput_disabled := true;
          languageInput_disabled := true; button_disabled := true;
          button_textContent := button_textContent (controls w) |}
  /\ panels w' = {| settingsPanel_hidden := false; setupMessage_hidden := false |}
  /\ ai (globals w') = ai (globals w)
  /\ currentProvider (globals w') = Some GoogleAI
  /\ currentApiKey (globals w') = Some key
  /\ outbound w' = outbound w
  /\ logoContainer w' = logoContainer w.
Proof.
  intros Hc w'. unfold w'. rewrite (setupApplication_rejected env key w e Hc).
  repeat split.
Qed.

Lemma failed_setup_returns_to_setup_witness :
  GoogleGenAI_rejects keyless_env (process_env_API_KEY keyless_env)
  = Some (External "An API Key must be set when running in a browser")
  /\ form_disabled (controls (snd (setupApplication keyless_env GoogleAI "user-key"
                                     (initial_world "seo tools")))) = true.
Proof.
  split; [reflexivity |].
  destruct (failed_setup_returns_to_setup keyless_env "user-key" (initial_world "seo tools")
              _ eq_refl) as (_ & _ & Hc & _).
  rewrite Hc. reflexivity.
Defined.

(** X14.  Setup for OpenAI, Mistral or OpenRouter discards the Google
    client and clears the logo without issuing any call; a grounded
    dispatch after it stops at its guard, with no call issued. *)
Theorem http_setup_discards_the_client (env : Env) (provider : AIProvider) (key : string)
        (w : World) :
  provider <> GoogleAI ->
  let w' := snd (setupApplication env provider key w) in
  ai (globals w') = None
  /\ logoContainer w' = LogoEmpty
  /\ outbound w' = outbound w
  /\ console w' = console w
  /\ resultsContainer w' = resultsContainer w
  /\ forall keyword country language k,
       performAnalysis env keyword country language GoogleAI k w'
       = (Throw (Error "Google AI client not initialized."), w').
Proof.
  intros Hp w'. unfold w'. rewrite (setupApplication_http env provider key w Hp).
  cbn [snd]. repeat split.
Qed.

Lemma http_setup_discards_the_client_witness :
  OpenAI <> GoogleAI
  /\ ai (globals grounded_world) = Some {| apiKey := Some "build-key" |}
  /\ ai (globals (snd (setupApplication grounded_env OpenAI "sk" grounded_world))) = None.
Proof.
  split; [discriminate |]. split; [reflexivity |].
  refine (proj1 (http_setup_discards_the_client grounded_env OpenAI "sk" grounded_world _)).
  discriminate.
Defined.

(** X15.  After a setup that succeeded with a non-empty key, a
    submission with a keyword that is not blank passes the
    configuration check and issues exactly one call, to the provider
    just set up: a chat request carrying that key, or a grounded
    request through the client just constructed. *)
Theorem setup_then_submit_issues_one_call (env : Env) (provider : AIProvider) (a : ascii)
        (k : string) (w : World) :
  JSString.nonempty (typed_keyword w) = true ->
  (provider = GoogleAI -> GoogleGenAI_rejects env (process_env_API_KEY env) = None) ->
  calls_issued (on_submit env) (snd (setupApplication env provider (String a k) w)) =
    [match provider with
     | GoogleAI =>
       GenerateContent {| apiKey := process_env_API_KEY env |}
         {| model := "gemini-2.5-flash";
            contents := createPrompt (typed_keyword w) (typed_country w) (typed_language w)
                                     true;
            config_tools_googleSearch := true |}
     | _ => Fetch (chat_request (typed_keyword w) (typed_country w) (typed_language w)
                                provider (String a k))
     end].
Proof.
  intros Hkw Hc.
  set (w' := snd (setupApplication env provider (String a k) w)).
  assert (Hrun : exists client,
            currentProvider (globals w') = Some provider
            /\ currentApiKey (globals w') = Some (String a k)
            /\ fields w' = fields w
            /\ ai (globals (loading w')) = client
            /\ (provider = GoogleAI ->
                client = Some {| apiKey := process_env_API_KEY env |})).
  { unfold w'. destruct provider.
    - rewrite (setupApplication_google env _ w (Hc eq_refl)). eexists. repeat split.
    - rewrite setupApplication_http by discriminate. eexists. repeat split. discriminate.
    - rewrite setupApplication_http by discriminate. eexists. repeat split. discriminate.
    - rewrite setupApplication_http by discriminate. eexists. repeat split. discriminate. }
  destruct Hrun as (client & Hp & Hk & Hf & Hai & Hclient).
  rewrite on_submit_calls, Hp, Hk, Hf. unfold typed_keyword in Hkw. rewrite Hkw.
  rewrite performAnalysis_calls, Hai.
  destruct provider; try reflexivity. now rewrite (Hclient eq_refl).
Qed.

Lemma setup_then_submit_issues_one_call_witness :
  JSString.nonempty (typed_keyword (initial_world " seo tools ")) = true
  /\ calls_issued (on_submit keyless_env)
       (snd (setupApplication keyless_env Mistral "sk" (initial_world " seo tools ")))
     = [Fetch (chat_request "seo tools" "" "" Mistral "sk")].
Proof.
  split; [reflexivity |].
  exact (setup_then_submit_issues_one_call keyless_env Mistral "s" "k"
           (initial_world " seo tools ") eq_refl
           (fun H => ltac:(discriminate H))).
Defined.

(** *** Rendering as a whole *)

Lemma card_canvas_defined (env : Env) (value label : jsval) (c : option Card) :
  card env value label = Return c -> canvas_of c = is_defined value.
Proof.
  unfold card, Result_bind.
  destruct (is_defined value) eqn:Ev; cbn [orb].
  - destruct (label_text env label); [| discriminate]. intros H. now injection H as <-.
  - destruct (truthy label).
    + destruct (label_text env label); [| discriminate]. intros H. now injection H as <-.
    + intros H. now injection H as <-.
Qed.

Lemma results_view_cards (env : Env) (sv svv c cs al st lt : jsval) (view : ResultsView) :
  results_view env sv svv c cs al st lt = Return view ->
  canvas_of (volume_card view) = is_defined svv
  /\ canvas_of (competition_card view) = is_defined cs
  /\ sources_card view = None
  /\ list_items env al = Return (alternatives_items view)
  /\ list_items env st = Return (suggestedTitles_items view)
  /\ list_items env lt = Return (longTailKeywords_items view).
Proof.
  unfold results_view, Result_bind.
  destruct (card env svv sv) as [c1|] eqn:E1; [| discriminate].
  destruct (card env cs c) as [c2|] eqn:E2; [| discriminate].
  destruct (list_items env al) as [l1|]; [| discriminate].
  destruct (list_items env st) as [l2|]; [| discriminate].
  destruct (list_items env lt) as [l3|]; [| discriminate].
  intros H. injection H as <-. cbn.
  apply card_canvas_defined in E1, E2. repeat split; assumption.
Qed.

Lemma modify_returns (g : World -> World) (w w' : World) (u : unit) :
  modify g w = (Return u, w') -> w' = g w.
Proof. unfold modify. intros H. now injection H. Qed.

Lemma renderSearchVolumeChart_returns (env : Env) (v : json) (w w' : World) :
  renderSearchVolumeChart env v w = (Return tt, w') ->
  if getElementById env SearchVolumeCanvas w
  then exists t, toLocaleString env v = Return t
                 /\ w' = set_globals (set_searchVolumeChart (Some (BarChart v t)) (globals w)) w
  else w' = w.
Proof.
  unfold renderSearchVolumeChart. run.
  destruct (getElementById env SearchVolumeCanvas w); cbn [negb].
  - destruct (toLocaleString env v) as [t|]; [| discriminate].
    unfold modify. intros H. injection H as <-. eauto.
  - intros H. now injection H as <-.
Qed.

Lemma renderCompetitionChart_returns (env : Env) (v : json) (w w' : World) :
  renderCompetitionChart env v w = (Return tt, w') ->
  if getElementById env CompetitionCanvas w
  then exists n, to_number env v = Return n
                 /\ w' = set_globals
                           (set_competitionChart (Some (DoughnutChart n (gauge_color n)))
                                                 (globals w)) w
  else w' = w.
Proof.
  unfold renderCompetitionChart. run.
  destruct (getElementById env CompetitionCanvas w); cbn [negb].
  - destruct (to_number env v) as [n|]; [| discriminate].
    unfold modify. intros H. injection H as <-. eauto.
  - intros H. now injection H as <-.
Qed.

(** When [renderResults] returns: the reads, the view written to the
    results container, the final markup and the two charts. *)
Lemma renderResults_returns_charts (env : Env) (data : json) (srcs : Sources) (w w' : World) :
  renderResults env data srcs w = (Return tt, w') ->
  exists sv svv c cs al st lt view,
    get_prop (Some data) "searchVolume" = Return sv
    /\ get_prop (Some data) "searchVolumeValue" = Return svv
    /\ get_prop (Some data) "competition" = Return c
    /\ get_prop (Some data) "competitionScore" = Return cs
    /\ get_prop (Some data) "alternatives" = Return al
    /\ get_prop (Some data) "suggestedTitles" = Return st
    /\ get_prop (Some data) "longTailKeywords" = Return lt
    /\ results_view env sv svv c cs al st lt = Return view
    /\ resultsContainer w' =
         match sources_markup srcs with
         | Some links => append_sources links (MResults view)
         | None => MResults view
         end
    /\ match svv with
       | Some v =>
         if document_getElementById env SearchVolumeCanvas (MResults view)
         then exists t, toLocaleString env v = Return t
                        /\ searchVolumeChart (globals w') = Some (BarChart v t)
         else searchVolumeChart (globals w') = None
       | None => searchVolumeChart (globals w') = None
       end
    /\ match cs with
       | Some v =>
         if document_getElementById env CompetitionCanvas (MResults view)
         then exists n, to_number env v = Return n
                        /\ competitionChart (globals w')
                           = Some (DoughnutChart n (gauge_color n))
         else competitionChart (globals w') = None
       | None => competitionChart (globals w') = None
       end.
Proof.
  unfold renderResults. intros H.
  apply bind_returns in H as ([] & w1 & ->%modify_returns & H).
  apply bind_returns in H as ([] & w2 & ->%modify_returns & H).
  apply bind_returns in H as ([] & w3 & ->%modify_returns & H).
  apply bind_returns in H as (sv & w4 & [Hsv ->]%lift_returns & H).
  apply bind_returns in H as (svv & w5 & [Hsvv ->]%lift_returns & H).
  apply bind_returns in H as (c & w6 & [Hc ->]%lift_returns & H).
  apply bind_returns in H as (cs & w7 & [Hcs ->]%lift_returns & H).
  apply bind_returns in H as (al & w8 & [Hal ->]%lift_returns & H).
  apply bind_returns in H as (st & w9 & [Hst ->]%lift_returns & H).
  apply bind_returns in H as (lt & w10 & [Hlt ->]%lift_returns & H).
  apply bind_returns in H as (view & w11 & [Hview ->]%lift_returns & H).
  apply bind_returns in H as ([] & w12 & ->%modify_returns & H).
  apply bind_returns in H as ([] & w13 & H13 & H).
  apply bind_returns in H as ([] & w14 & H14 & H).
  exists sv, svv, c, cs, al, st, lt, view. repeat (split; [assumption |]).
  assert (H13' : resultsContainer w13 = MResults view
                 /\ competitionChart (globals w13) = None
                 /\ match svv with
                    | Some v =>
                      if document_getElementById env SearchVolumeCanvas (MResults view)
                      then exists t, toLocaleString env v = Return t
                                     /\ searchVolumeChart (globals w13) = Some (BarChart v t)
                      else searchVolumeChart (globals w13) = None
                    | None => searchVolumeChart (globals w13) = None
                    end).
  { destruct svv as [v|].
    - apply renderSearchVolumeChart_returns in H13.
      unfold getElementById in H13. cbn [resultsContainer set_resultsContainer] in H13.
      destruct (document_getElementById env SearchVolumeCanvas (MResults view)).
      + destruct H13 as (t & Ht & ->). repeat split. exists t. split; [exact Ht | reflexivity].
      + subst w13. repeat split.
    - unfold ret in H13. injection H13 as <-. repeat split. }
  destruct H13' as (Hm13 & Hc13 & Hs13).
  assert (H14' : resultsContainer w14 = MResults view
                 /\ searchVolumeChart (globals w14) = searchVolumeChart (globals w13)
                 /\ match cs with
                    | Some v =>
                      if document_getElementById env CompetitionCanvas (MResults view)
                      then exists n, to_number env v = Return n
                                     /\ competitionChart (globals w14)
                                        = Some (DoughnutChart n (gauge_color n))
                      else competitionChart (globals w14) = None
                    | None => competitionChart (globals w14) = None
                    end).
  { destruct cs as [v|].
    - apply renderCompetitionChart_returns in H14.
      unfold getElementById in H14. rewrite Hm13 in H14.
      destruct (document_getElementById env CompetitionCanvas (MResults view)).
      + destruct H14 as (n & Hn & ->). repeat split; [exact Hm13 |].
        exists n. split; [exact Hn | reflexivity].
      + subst w14. repeat split; assumption.
    - unfold ret in H14. injection H14 as <-. repeat split; assumption. }
  destruct H14' as (Hm14 & Hs14 & Hc14).
  assert (Hfinal : globals w' = globals w14
                   /\ resultsContainer w' =
                        match sources_markup srcs with
                        | Some links => append_sources links (MResults view)
                        | None => MResults view
                        end).
  { destruct (sources_markup srcs) as [links|].
    - apply modify_returns in H. subst w'. cbn. now rewrite Hm14.
    - unfold ret in H. injection H as <-. split; [reflexivity | exact Hm14]. }
  destruct Hfinal as [Hg ->]. split; [reflexivity |]. rewrite Hg. split.
  - rewrite Hs14. exact Hs13.
  - exact Hc14.
Qed.

(** X16.  After a rendering that returned, the markup written to the
    results container holds a canvas exactly where the answer has a
    value (anything but [undefined]) for it, and a chart exists exactly
    where such a canvas was written and the document then holds it: a
    bar chart for [searchVolumeValue], a gauge for [competitionScore].
    Whether the document holds the canvas is for the parser of the
    browser to say, since labels and items are written unescaped. *)
Theorem charts_exactly_where_canvases (env : Env) (data : json) (srcs : Sources)
        (w w' : World) :
  renderResults env data srcs w = (Return tt, w') ->
  exists assigned,
    resultsContainer w' =
      match sources_markup srcs with
      | Some links => append_sources links (MResults assigned)
      | None => MResults assigned
      end
    /\ (canvas_of (volume_card assigned) = true
        <-> exists v, get_prop (Some data) "searchVolumeValue" = Return (Some v))
    /\ (canvas_of (competition_card assigned) = true
        <-> exists v, get_prop (Some data) "competitionScore" = Return (Some v))
    /\ (is_Some (searchVolumeChart (globals w'))
        <-> canvas_of (volume_card assigned) = true
            /\ document_getElementById env SearchVolumeCanvas (MResults assigned) = true)
    /\ (is_Some (competitionChart (globals w'))
        <-> canvas_of (competition_card assigned) = true
            /\ document_getElementById env CompetitionCanvas (MResults assigned) = true).
Proof.
  intros H.
  apply renderResults_returns_charts in H
    as (sv & svv & c & cs & al & st & lt & v0 & _ & Hsvv & _ & Hcs & _ & _ & _ & Hview
        & Hm & Hchart1 & Hchart2).
  destruct (results_view_cards env _ _ _ _ _ _ _ v0 Hview) as (Hcv & Hcc & _).
  exists v0. split; [exact Hm |].
  rewrite Hcv, Hcc, Hsvv, Hcs.
  split; [| split; [| split]].
  - split; [destruct svv; [eauto | discriminate] |].
    intros [v Heq]. injection Heq as ->. reflexivity.
  - split; [destruct cs; [eauto | discriminate] |].
    intros [v Heq]. injection Heq as ->. reflexivity.
  - destruct svv as [v|]; cbn [is_defined].
    + destruct (document_getElementById env SearchVolumeCanvas (MResults v0)).
      * destruct Hchart1 as (t & _ & ->). split; eauto.
      * rewrite Hchart1. split; [intros [x Hx]; discriminate | intros [_ Hf]; discriminate].
    + rewrite Hchart1. split; [intros [x Hx]; discriminate | intros [Hf _]; discriminate].
  - destruct cs as [v|]; cbn [is_defined].
    + destruct (document_getElementById env CompetitionCanvas (MResults v0)).
      * destruct Hchart2 as (n & _ & ->). split; eauto.
      * rewrite Hchart2. split; [intros [x Hx]; discriminate | intros [_ Hf]; discriminate].
    + rewrite Hchart2. split; [intros [x Hx]; discriminate | intros [Hf _]; discriminate].
Qed.

Lemma charts_exactly_where_canvases_witness :
  fst (renderResults keyless_env
         (JObj [("searchVolume", JStr "<!--"); ("competitionScore", JNum 50)])
         SourcesNull (initial_world "seo tools")) = Return tt
  /\ competitionChart
       (globals (snd (renderResults keyless_env
                        (JObj [("searchVolume", JStr "<!--"); ("competitionScore", JNum 50)])
                        SourcesNull (initial_world "seo tools")))) = None
  /\ exists assigned,
       canvas_of (competition_card assigned) = true
       /\ document_getElementById keyless_env CompetitionCanvas (MResults assigned) = false
       /\ (is_Some (competitionChart
                      (globals (snd (renderResults keyless_env
                                       (JObj [("searchVolume", JStr "<!--");
                                              ("competitionScore", JNum 50)])
                                       SourcesNull (initial_world "seo tools")))))
           <-> canvas_of (competition_card assigned) = true
               /\ document_getElementById keyless_env CompetitionCanvas (MResults assigned)
                  = true).
Proof.
  split; [reflexivity |]. split; [reflexivity |].
  destruct (charts_exactly_where_canvases keyless_env
              (JObj [("searchVolume", JStr "<!--"); ("competitionScore", JNum 50)])
              SourcesNull (initial_world "seo tools")
              (snd (renderResults keyless_env
                      (JObj [("searchVolume", JStr "<!--"); ("competitionScore", JNum 50)])
                      SourcesNull (initial_world "seo tools"))))
    as (assigned & Hm & _ & _ & _ & Hiff); [vm_compute; reflexivity |].
  exists assigned. cbn in Hm. injection Hm as <-.
  split; [reflexivity |]. split; [reflexivity | exact Hiff].
Defined.

(** X17.  A list key ([alternatives], [suggestedTitles] or
    [longTailKeywords]) that holds a truthy value which is not an
    array, such as a text of comma-separated items, makes the whole
    rendering fail: [renderResults] throws, leaving the results
    container empty and both charts removed. *)
Theorem list_given_as_text_fails_the_rendering (env : Env) (ms : list (string * json))
        (srcs : Sources) (w : World) (key : string) (v : json) :
  key = "alternatives" \/ key = "suggestedTitles" \/ key = "longTailKeywords" ->
  get_member key ms = Some v ->
  truthy (Some v) = true ->
  (forall items, v <> JArr items) ->
  exists e,
    renderResults env (JObj ms) srcs w =
      (Throw e,
       set_resultsContainer MEmpty
         (set_globals (set_competitionChart None
                         (set_searchVolumeChart None (globals w))) w)).
Proof.
  intros Hkey Hget Htruthy Hnot.
  assert (Hl : list_items env (Some v) = Throw TypeError).
  { unfold list_items. rewrite Htruthy. destruct v; try reflexivity.
    exfalso. now apply (Hnot items). }
  assert (Hview : forall sv svv c cs al st lt,
            al = Some v \/ st = Some v \/ lt = Some v ->
            exists e, results_view env sv svv c cs al st lt = Throw e).
  { intros sv svv c cs al st lt Hw. unfold results_view, Result_bind.
    destruct (card env svv sv); [| eauto].
    destruct (card env cs c); [| eauto].
    destruct Hw as [-> | [-> | ->]].
    - rewrite Hl. eauto.
    - destruct (list_items env al); [| eauto]. rewrite Hl. eauto.
    - destruct (list_items env al); [| eauto]. destruct (list_items env st); [| eauto].
      rewrite Hl. eauto. }
  unfold renderResults. run. cbn [get_prop].
  destruct (Hview (get_member "searchVolume" ms) (get_member "searchVolumeValue" ms)
                  (get_member "competition" ms) (get_member "competitionScore" ms)
                  (get_member "alternatives" ms) (get_member "suggestedTitles" ms)
                  (get_member "longTailKeywords" ms)) as [e He].
  { destruct Hkey as [-> | [-> | ->]]; rewrite Hget; auto. }
  exists e. rewrite He. reflexivity.
Qed.

Lemma list_given_as_text_fails_the_rendering_witness :
  get_member "alternatives" [("alternatives", JStr "seo, sem, ppc")]
  = Some (JStr "seo, sem, ppc")
  /\ truthy (Some (JStr "seo, sem, ppc")) = true
  /\ resultsContainer
       (snd (renderResults keyless_env (JObj [("alternatives", JStr "seo, sem, ppc")])
               SourcesNull gauge_world)) = MEmpty.
Proof.
  split; [reflexivity |]. split; [reflexivity |].
  destruct (list_given_as_text_fails_the_rendering keyless_env
              [("alternatives", JStr "seo, sem, ppc")] SourcesNull gauge_world
              "alternatives" (JStr "seo, sem, ppc")
              (or_introl eq_refl) eq_refl eq_refl
              (fun items H => ltac:(discriminate H))) as [e He].
  rewrite He. reflexivity.
Defined.

(** X18.  A [searchVolumeValue] that is [null] is not [undefined], so
    its canvas is written and its chart attempted.  When the document
    holds that canvas, the rendering throws a TypeError from the call
    of [toLocaleString] on [null], after the markup was written and
    with no chart; a rendering that returns is one in which the
    document did not hold the canvas, and it has no bar chart. *)
Theorem null_volume_fails_the_rendering (env : Env) (ms : list (string * json))
        (srcs : Sources) (w : World) :
  get_member "searchVolumeValue" ms = Some JNull ->
  (forall view,
     results_view env (get_member "searchVolume" ms) (Some JNull)
                  (get_member "competition" ms) (get_member "competitionScore" ms)
                  (get_member "alternatives" ms) (get_member "suggestedTitles" ms)
                  (get_member "longTailKeywords" ms) = Return view ->
     document_getElementById env SearchVolumeCanvas (MResults view) = true ->
     canvas_of (volume_card view) = true
     /\ renderResults env (JObj ms) srcs w =
          (Throw TypeError,
           set_resultsContainer (MResults view)
             (set_globals (set_competitionChart None
                             (set_searchVolumeChart None (globals w))) w)))
  /\ (forall w',
        renderResults env (JObj ms) srcs w = (Return tt, w') ->
        searchVolumeChart (globals w') = None
        /\ exists assigned,
             resultsContainer w' =
               match sources_markup srcs with
               | Some links => append_sources links (MResults assigned)
               | None => MResults assigned
               end
             /\ canvas_of (volume_card assigned) = true
             /\ document_getElementById env SearchVolumeCanvas (MResults assigned) = false).
Proof.
  intros Hget. split.
  - intros view Hview Hfound. split.
    + destruct (results_view_cards env _ _ _ _ _ _ _ view Hview) as (Hcv & _). exact Hcv.
    + unfold renderResults. run. cbn [get_prop]. rewrite Hget, Hview.
      unfold renderSearchVolumeChart, getElementById. run.
      cbn [resultsContainer set_resultsContainer]. rewrite Hfound. reflexivity.
  - intros w' H.
    apply renderResults_returns_charts in H
      as (sv & svv & c & cs & al & st & lt & view & _ & Hsvv & _ & _ & _ & _ & _ & Hview
          & Hm & Hchart & _).
    cbn [get_prop] in Hsvv. rewrite Hget in Hsvv. injection Hsvv as <-.
    destruct (results_view_cards env _ _ _ _ _ _ _ view Hview) as (Hcv & _).
    destruct (document_getElementById env SearchVolumeCanvas (MResults view)) eqn:Hfound.
    + destruct Hchart as (t & Ht & _). discriminate Ht.
    + split; [exact Hchart |]. exists view. split; [exact Hm |]. split; [exact Hcv | exact Hfound].
Qed.

Lemma null_volume_fails_the_rendering_witness :
  get_member "searchVolumeValue" [("searchVolume", JStr "High"); ("searchVolumeValue", JNull)]
  = Some JNull
  /\ renderResults keyless_env
       (JObj [("searchVolume", JStr "High"); ("searchVolumeValue", JNull)])
       SourcesNull (initial_world "seo tools")
     = (Throw TypeError,
        set_resultsContainer
          (MResults {| volume_card := Some {| card_text := "High"; card_canvas := true |};
                       competition_card := None;
                       alternatives_items := []; suggestedTitles_items := [];
                       longTailKeywords_items := []; sources_card := None |})
          (initial_world "seo tools")).
Proof.
  split; [reflexivity |].
  exact (proj2 (proj1 (null_volume_fails_the_rendering keyless_env
                         [("searchVolume", JStr "High"); ("searchVolumeValue", JNull)]
                         SourcesNull (initial_world "seo tools") eq_refl)
                      _ eq_refl eq_refl)).
Defined.

(** X19.  A list key that holds [null] (or any other falsy value) is
    shown as an empty list: when the rendering returns, the list the
    page shows for that key is empty. *)
Theorem falsy_list_is_shown_empty (env : Env) (ms : list (string * json)) (srcs : Sources)
        (w w' : World) (v : json) :
  truthy (Some v) = false ->
  renderResults env (JObj ms) srcs w = (Return tt, w') ->
  exists view,
    resultsContainer w' = MResults view
    /\ (get_member "alternatives" ms = Some v -> alternatives_items view = [])
    /\ (get_member "suggestedTitles" ms = Some v -> suggestedTitles_items view = [])
    /\ (get_member "longTailKeywords" ms = Some v -> longTailKeywords_items view = []).
Proof.
  intros Hfalsy H.
  apply renderResults_returns_charts in H
    as (sv & svv & c & cs & al & st & lt & v0 & _ & _ & _ & _ & Hal & Hst & Hlt & Hview
        & Hm & _).
  destruct (results_view_cards env _ _ _ _ _ _ _ v0 Hview) as (_ & _ & _ & H1 & H2 & H3).
  cbn [get_prop] in Hal, Hst, Hlt. injection Hal as <-. injection Hst as <-.
  injection Hlt as <-.
  assert (Hempty : list_items env (Some v) = Return []).
  { unfold list_items. now rewrite Hfalsy. }
  assert (Hfinal : exists view, resultsContainer w' = MResults view
                                /\ alternatives_items view = alternatives_items v0
                                /\ suggestedTitles_items view = suggestedTitles_items v0
                                /\ longTailKeywords_items view = longTailKeywords_items v0).
  { destruct (sources_markup srcs) as [links|]; [| now exists v0].
    eexists. split; [exact Hm |]. repeat split. }
  destruct Hfinal as (view & Hmv & Ha & Hs & Hl). exists view. split; [exact Hmv |].
  rewrite Ha, Hs, Hl.
  repeat split; intros Hget; rewrite Hget, Hempty in *; congruence.
Qed.

Lemma falsy_list_is_shown_empty_witness :
  truthy (Some JNull) = false
  /\ exists view,
       resultsContainer
         (snd (renderResults keyless_env (JObj [("alternatives", JNull)]) SourcesNull
                 (initial_world "seo tools"))) = MResults view
       /\ alternatives_items view = [].
Proof.
  split; [reflexivity |].
  destruct (falsy_list_is_shown_empty keyless_env [("alternatives", JNull)] SourcesNull
              (initial_world "seo tools")
              (snd (renderResults keyless_env (JObj [("alternatives", JNull)]) SourcesNull
                      (initial_world "seo tools"))) JNull eq_refl)
    as (view & Hm & Ha & _); [vm_compute; reflexivity |].
  exists view. split; [exact Hm | exact (Ha eq_refl)].
Defined.

(** *** What every handler keeps *)

Section Preserves.
Context (P : World -> Prop).

Lemma preserves_ret {A} (a : A) : preserves P (mret a).
Proof. intros w H. exact H. Qed.

Lemma preserves_throw {A} (e : exn) : preserves P (@throw A e).
Proof. intros w H. exact H. Qed.

Lemma preserves_lift {A} (r : Result A) : preserves P (lift r).
Proof. intros w H. exact H. Qed.

Lemma preserves_gets {A} (g : World -> A) : preserves P (gets g).
Proof. intros w H. exact H. Qed.

Lemma preserves_modify (g : World -> World) :
  (forall w, P w -> P (g w)) -> preserves P (modify g).
Proof. intros H w Hw. apply H, Hw. Qed.

Lemma preserves_bind {A C} (m : M A) (k : A -> M C) :
  preserves P m -> (forall a, preserves P (k a)) -> preserves P (m ≫= k).
Proof.
  intros Hm Hk w Hw. specialize (Hm w Hw). run.
  destruct (m w) as [[a|e] w']; cbn in *; [apply Hk, Hm | exact Hm].
Qed.

Lemma preserves_try_catch {A} (m : M A) (h : exn -> M A) :
  preserves P m -> (forall e, preserves P (h e)) -> preserves P (try_catch m h).
Proof.
  intros Hm Hh w Hw. specialize (Hm w Hw). unfold try_catch.
  destruct (m w) as [[a|e] w']; cbn in *; [exact Hm | apply Hh, Hm].
Qed.

Lemma preserves_finally {A} (m : M A) (c : M unit) :
  preserves P m -> preserves P c -> preserves P (finally m c).
Proof.
  intros Hm Hc w Hw. specialize (Hm w Hw). unfold finally.
  destruct (m w) as [r w']; cbn in *. specialize (Hc w' Hm).
  destruct (c w') as [[u|e] w'']; exact Hc.
Qed.

Lemma frame_preserves {A B} (f : World -> B) (m : M A) :
  (forall w w', f w' = f w -> P w -> P w') -> frame f m -> preserves P m.
Proof. intros Hf Hm w Hw. exact (Hf w _ (Hm w) Hw). Qed.

End Preserves.

Ltac preserves_step :=
  lazymatch goal with
  | |- preserves _ (_ ≫= _) => apply preserves_bind; [| intros ?]
  | |- preserves _ (mret _) => apply preserves_ret
  | |- preserves _ (ret _) => apply (preserves_ret _)
  | |- preserves _ (throw _) => apply preserves_throw
  | |- preserves _ (lift _) => apply preserves_lift
  | |- preserves _ (gets _) => apply preserves_gets
  | |- preserves _ (match ?x with _ => _ end) => destruct x
  | |- preserves _ (if ?x then _ else _) => destruct x
  end.

Lemma performAnalysis_globals env kw c l p k : frame globals (performAnalysis env kw c l p k).
Proof.
  intros w. rewrite performAnalysis_world.
  destruct p; try reflexivity. destruct (ai (globals w)); reflexivity.
Qed.

Lemma charts_well_formed_globals (w w' : World) :
  globals w' = globals w -> charts_well_formed w -> charts_well_formed w'.
Proof. unfold charts_well_formed. now intros ->. Qed.

Ltac charts_step :=
  first
    [ preserves_step
    | apply preserves_modify; intros ? [? ?]; split; cbn; solve [auto] ].

Lemma renderResults_charts_well_formed (env : Env) (data : json) (srcs : Sources) (w : World) :
  charts_well_formed (snd (renderResults env data srcs w)).
Proof.
  assert (Htail : forall m : M unit, preserves charts_well_formed m ->
            charts_well_formed
              (snd ((assign (set_searchVolumeChart None);;
                     assign (set_competitionChart None);; m) w))).
  { intros m Hm. run. cbn. apply Hm. split; exact I. }
  unfold renderResults. apply Htail.
  unfold renderSearchVolumeChart, renderCompetitionChart, assign.
  repeat charts_step.
Qed.

Lemma on_submit_charts_well_formed (env : Env) :
  preserves charts_well_formed (on_submit env).
Proof.
  unfold on_submit, analyse_and_render, setLoading, renderError.
  repeat charts_step.
  - apply preserves_finally; [| repeat charts_step].
    apply preserves_try_catch; [| intros e; repeat charts_step].
    apply preserves_bind.
    + apply (frame_preserves _ globals); [apply charts_well_formed_globals |].
      apply performAnalysis_globals.
    + intros analysis. repeat charts_step.
      intros w0 _. apply renderResults_charts_well_formed.
Qed.

Lemma on_world_snd {A} (m : M A) (pg : Page) :
  snd (on_world m pg) = set_world (snd (m (world pg))) pg.
Proof. unfold on_world. now destruct (m (world pg)). Qed.

(** The statement an event runs on the state of the keyword form. *)
Lemma handle_world (env : Env) (ev : Event) (pg pg' : Page) :
  handle env ev pg = Some pg' ->
  world pg' = world pg
  \/ (exists p key, world pg' = snd (setupApplication env p key (world pg)))
  \/ world pg' = snd (showSetup (world pg))
  \/ world pg' = snd (on_submit env (world pg))
  \/ world pg' = snd (on_settings_toggle (world pg))
  \/ (exists src, world pg' = set_logoContainer (LogoImage src) (world pg))
  \/ (exists e, world pg' = log_error "Error generating logo:" e (world pg)).
Proof.
  destruct ev; cbn [handle].
  - unfold main.
    destruct (getItem "ai_provider" pg) as [[|a sp]|];
      [| destruct (getItem "api_key" pg) as [[|b sk]|] |].
    3: destruct (as_AIProvider (String a sp)) as [p|]; [| discriminate].
    3: { cbn [fmap option_fmap option_map]. rewrite on_world_snd.
         intros H. injection H as <-. right. left. now exists p, (String b sk). }
    all: cbn [fmap option_fmap option_map]; rewrite on_world_snd;
      intros H; injection H as <-; right; right; left; reflexivity.
  - unfold on_apiKey_submit.
    destruct (_ && _).
    + destruct (as_AIProvider (providerSelect_value pg)) as [p|]; [| discriminate].
      cbn [fmap option_fmap option_map]. rewrite on_world_snd.
      intros H. injection H as <-. right. left.
      now exists p, (JSString.trim (apiKeyInput_value pg)).
    + intros H. injection H as <-. now left.
  - rewrite on_world_snd. intros H. injection H as <-. do 3 right. now left.
  - rewrite on_world_snd. intros H. injection H as <-. do 4 right. now left.
  - intros H. injection H as <-. unfold generateAndSetLogo_settled.
    destruct (Result_bind outcome first_imageBytes) as [bytes|e].
    + do 5 right. left. eexists. reflexivity.
    + do 6 right. eexists. reflexivity.
Qed.

Lemma handle_preserves (env : Env) (P : World -> Prop) :
  (forall p key, preserves P (setupApplication env p key)) ->
  preserves P showSetup ->
  preserves P (on_submit env) ->
  preserves P on_settings_toggle ->
  (forall l w, P w -> P (set_logoContainer l w)) ->
  (forall label e w, P w -> P (log_error label e w)) ->
  forall ev pg pg', handle env ev pg = Some pg' -> P (world pg) -> P (world pg').
Proof.
  intros Hsetup Hshow Hsubmit Htoggle Hlogo Hlog ev pg pg' H HP.
  destruct (handle_world env ev pg pg' H)
    as [-> | [(p & key & ->) | [-> | [-> | [-> | [(src & ->) | (e & ->)]]]]]]; auto.
  now apply Hsetup.
Qed.

(** What setup leaves behind, for every provider and outcome of the
    constructor. *)
Lemma setupApplication_cases (env : Env) (p : AIProvider) (key : string) (w : World) :
  let w' := snd (setupApplication env p key w) in
  currentProvider (globals w') = Some p
  /\ currentApiKey (globals w') = Some key
  /\ searchVolumeChart (globals w') = searchVolumeChart (globals w)
  /\ competitionChart (globals w') = competitionChart (globals w)
  /\ countryInput_disabled (controls w') = input_disabled (controls w')
  /\ languageInput_disabled (controls w') = input_disabled (controls w')
  /\ button_disabled (controls w') = input_disabled (controls w')
  /\ ((p <> GoogleAI /\ ai (globals w') = None /\ outbound w' = outbound w)
      \/ (p = GoogleAI /\ GoogleGenAI_rejects env (process_env_API_KEY env) = None
          /\ ai (globals w') = Some {| apiKey := process_env_API_KEY env |}
          /\ outbound w'
             = outbound w ++ [GenerateImages {| apiKey := process_env_API_KEY env |}])
      \/ (p = GoogleAI /\ ai (globals w') = ai (globals w) /\ outbound w' = outbound w)).
Proof.
  intros w'. unfold w'. destruct p.
  - destruct (GoogleGenAI_rejects env (process_env_API_KEY env)) as [e|] eqn:E.
    + rewrite (setupApplication_rejected env key w e E). repeat split. right. right.
      repeat split.
    + rewrite (setupApplication_google env key w E). repeat split. right. left.
      repeat split.
  - rewrite setupApplication_http by discriminate. repeat split. left. repeat split.
    discriminate.
  - rewrite setupApplication_http by discriminate. repeat split. left. repeat split.
    discriminate.
  - rewrite setupApplication_http by discriminate. repeat split. left. repeat split.
    discriminate.
Qed.

(** X20.  Whatever the page runs (the start of the script, a
    submission of either form, a click on the settings button, the
    settling of the image request), the charts it holds stay those of
    the two renderers: a bar chart, if any, in the first slot, and in
    the second a doughnut whose colour is the one of its score. *)
Theorem handlers_keep_charts_well_formed (env : Env) (ev : Event) (pg pg' : Page) :
  handle env ev pg = Some pg' ->
  charts_well_formed (world pg) ->
  charts_well_formed (world pg').
Proof.
  apply (handle_preserves env charts_well_formed).
  - intros p key w Hw.
    destruct (setupApplication_cases env p key w) as (_ & _ & Hs & Hc & _).
    unfold charts_well_formed in *. now rewrite Hs, Hc.
  - unfold showSetup. repeat charts_step.
  - apply on_submit_charts_well_formed.
  - unfold on_settings_toggle. repeat charts_step.
  - intros l w Hw. exact Hw.
  - intros label e w Hw. exact Hw.
Qed.

Lemma handlers_keep_charts_well_formed_witness :
  charts_well_formed (openai_world fenced_answer)
  /\ charts_well_formed
       (world (snd (on_world (on_submit (openai_env fenced_answer))
                             (sample_page (openai_world fenced_answer) "OpenAI" "")))).
Proof.
  assert (H0 : charts_well_formed (openai_world fenced_answer)) by (split; exact I).
  split; [exact H0 |].
  exact (handlers_keep_charts_well_formed (openai_env fenced_answer) KeywordFormSubmit
           (sample_page (openai_world fenced_answer) "OpenAI" "") _ eq_refl H0).
Defined.

Lemma controls_agree_controls (w w' : World) :
  controls w' = controls w -> controls_agree w -> controls_agree w'.
Proof. unfold controls_agree. now intros ->. Qed.

Lemma on_submit_controls_agree (env : Env) : preserves controls_agree (on_submit env).
Proof.
  unfold on_submit, renderError.
  repeat preserves_step;
    try (apply preserves_modify; intros w0; apply controls_agree_controls; reflexivity).
  - apply preserves_modify. intros w0 _. repeat split.
  - apply preserves_finally; [| apply preserves_modify; intros w0 _; repeat split].
    apply preserves_try_catch.
    + apply (frame_preserves _ controls); [apply controls_agree_controls |].
      apply analyse_and_render_frame;
        [apply performAnalysis_controls | intros; apply renderResults_controls].
    + intros e. repeat preserves_step;
        apply preserves_modify; intros w0; apply controls_agree_controls; reflexivity.
Qed.

(** X21.  Whatever the page runs, the three fields and the button of
    the keyword form stay enabled or disabled together. *)
Theorem handlers_keep_controls_together (env : Env) (ev : Event) (pg pg' : Page) :
  handle env ev pg = Some pg' ->
  controls_agree (world pg) ->
  controls_agree (world pg').
Proof.
  apply (handle_preserves env controls_agree).
  - intros p key w _.
    destruct (setupApplication_cases env p key w) as (_ & _ & _ & _ & H1 & H2 & H3 & _).
    repeat split; assumption.
  - intros w _. repeat split.
  - apply on_submit_controls_agree.
  - intros w Hw. exact Hw.
  - intros l w Hw. exact Hw.
  - intros label e w Hw. exact Hw.
Qed.

Lemma handlers_keep_controls_together_witness :
  controls_agree (openai_world server_error)
  /\ controls_agree
       (world (snd (on_world (on_submit (openai_env server_error))
                             (sample_page (openai_world server_error) "OpenAI" "")))).
Proof.
  assert (H0 : controls_agree (openai_world server_error)) by (repeat split).
  split; [exact H0 |].
  exact (handlers_keep_controls_together (openai_env server_error) KeywordFormSubmit
           (sample_page (openai_world server_error) "OpenAI" "") _ eq_refl H0).
Defined.

Lemma on_submit_appends (env : Env) (w : World) :
  outbound (snd (on_submit env w)) = outbound w ++ calls_issued (on_submit env) w.
Proof.
  assert (H : exists cs, outbound (snd (on_submit env w)) = outbound w ++ cs).
  { destruct (currentProvider (globals w)) as [p|] eqn:Hp;
      [destruct (currentApiKey (globals w)) as [[|a k]|] eqn:Hk |].
    2: destruct (JSString.nonempty (JSString.trim (input_value (fields w)))) eqn:Hkw.
    2: { rewrite (on_submit_run env w p a k Hp Hk Hkw).
         pose proof (analyse_and_render_outbound env
           (JSString.trim (input_value (fields w)))
           (JSString.trim (countryInput_value (fields w)))
           (JSString.trim (languageInput_value (fields w))) p (String a k) (loading w)) as H.
         rewrite performAnalysis_world in H.
         destruct (analyse_and_render _ _ _ _ _ _ _) as [[u|e] w']; cbn [snd] in *;
           unfold succeeded, failed, setLoading; run; cbn; rewrite H;
           destruct p; try (eexists; reflexivity);
           destruct (ai (globals (loading w))); try (eexists; reflexivity);
           exists []; cbn; now rewrite app_nil_r. }
    all: exists []; unfold on_submit; run; rewrite ?Hp, ?Hk; cbn;
      rewrite ?Hkw; cbn; now rewrite app_nil_r. }
  destruct H as [cs H]. rewrite (calls_issued_app _ _ _ H). exact H.
Qed.

Lemma on_submit_calls_cases (env : Env) (w : World) :
  calls_issued (on_submit env) w = []
  \/ (exists req, calls_issued (on_submit env) w = [Fetch req])
  \/ (exists c params, ai (globals w) = Some c
                       /\ calls_issued (on_submit env) w = [GenerateContent c params]).
Proof.
  rewrite on_submit_calls.
  destruct (currentProvider (globals w)) as [p|]; [| now left].
  destruct (currentApiKey (globals w)) as [[|a k]|]; try now left.
  destruct (JSString.nonempty _); [| now left].
  rewrite performAnalysis_calls.
  change (ai (globals (loading w))) with (ai (globals w)).
  destruct p; try (right; left; eexists; reflexivity).
  destruct (ai (globals w)) as [c|]; [| now left].
  right. right. eexists _, _. split; reflexivity.
Qed.

Lemma on_submit_google_key (env : Env) :
  preserves (google_key_is_build_key env) (on_submit env).
Proof.
  intros w [Hclient Hcalls].
  pose proof (on_submit_session env w) as Hs. unfold session in Hs.
  injection Hs as Hai Hp _. split.
  - intros c Hc. rewrite Hai in Hc. rewrite Hp. now apply Hclient.
  - rewrite on_submit_appends. apply Forall_app. split; [exact Hcalls |].
    destruct (on_submit_calls_cases env w) as [-> | [[req ->] | (c & params & Hc & ->)]].
    + constructor.
    + constructor; [| constructor]. intros c Hc. discriminate Hc.
    + constructor; [| constructor]. intros c' Hc'. injection Hc' as <-.
      now apply Hclient.
Qed.

(** X22.  Whatever the page runs, Google is only reached with the
    build-time key: a client exists only while the provider is
    ['Google AI'], it holds the build-time key, which the constructor
    accepted, and every call recorded for a client went through one
    that holds it. *)
Theorem handlers_reach_google_with_build_key (env : Env) (ev : Event) (pg pg' : Page) :
  handle env ev pg = Some pg' ->
  google_key_is_build_key env (world pg) ->
  google_key_is_build_key env (world pg').
Proof.
  apply (handle_preserves env (google_key_is_build_key env)).
  - intros p key w [Hclient Hcalls].
    destruct (setupApplication_cases env p key w)
      as (Hp & _ & _ & _ & _ & _ & _
          & [(Hn & Hai & Ho) | [(-> & Hr & Hai & Ho) | (-> & Hai & Ho)]]).
    + split; [intros c Hc; rewrite Hai in Hc; discriminate Hc | now rewrite Ho].
    + split.
      * intros c Hc. rewrite Hai in Hc. injection Hc as <-. repeat split; assumption.
      * rewrite Ho. apply Forall_app. split; [exact Hcalls |].
        constructor; [| constructor]. intros c Hc. now injection Hc as <-.
    + split; [| now rewrite Ho].
      intros c Hc. rewrite Hai in Hc. destruct (Hclient c Hc) as (Hk & _ & Hr).
      repeat split; assumption.
  - intros w Hw. exact Hw.
  - apply on_submit_google_key.
  - intros w Hw. exact Hw.
  - intros l w Hw. exact Hw.
  - intros label e w Hw. exact Hw.
Qed.

Lemma handlers_reach_google_with_build_key_witness :
  google_key_is_build_key keyed_env (initial_world "")
  /\ ai (globals (world (default (sample_page (initial_world "") "Google AI" " user-key ")
                           (handle keyed_env ApiKeyFormSubmit
                              (sample_page (initial_world "") "Google AI" " user-key ")))))
     = Some {| apiKey := Some "build-key" |}
  /\ google_key_is_build_key keyed_env
       (world (default (sample_page (initial_world "") "Google AI" " user-key ")
                 (handle keyed_env ApiKeyFormSubmit
                    (sample_page (initial_world "") "Google AI" " user-key ")))).
Proof.
  assert (H0 : google_key_is_build_key keyed_env (initial_world "")).
  { split; [intros c Hc; discriminate Hc | constructor]. }
  split; [exact H0 |]. split; [reflexivity |].
  exact (handlers_reach_google_with_build_key keyed_env ApiKeyFormSubmit
           (sample_page (initial_world "") "Google AI" " user-key ") _ eq_refl H0).
Defined.

Lemma nonempty_neq (s : string) : JSString.nonempty s = true -> s <> "".
Proof. destruct s; [discriminate | discriminate]. Qed.

(** X23.  Whatever the page runs, the session in memory is the one in
    the storage: a provider held in [currentProvider] is the one the
    text stored under [ai_provider] denotes, and a key held in
    [currentApiKey] is the non-empty text stored under [api_key]. *)
Theorem handlers_keep_session_saved (env : Env) (ev : Event) (pg pg' : Page) :
  handle env ev pg = Some pg' ->
  session_saved pg ->
  session_saved pg'.
Proof.
  intros H Hsaved.
  assert (Hkeep : forall w', currentProvider (globals w') = currentProvider (globals (world pg)) ->
                             currentApiKey (globals w') = currentApiKey (globals (world pg)) ->
                             session_saved (set_world w' pg)).
  { intros w' Hp Hk. destruct Hsaved as [H1 H2]. split; cbn [world set_world].
    - intros p Hp'. rewrite Hp in Hp'. exact (H1 p Hp').
    - intros k Hk'. rewrite Hk in Hk'. exact (H2 k Hk'). }
  destruct ev; cbn [handle] in H.
  - unfold main in H.
    destruct (getItem "ai_provider" pg) as [[|a sp]|] eqn:Eprov;
      [| destruct (getItem "api_key" pg) as [[|b sk]|] eqn:Ekey |].
    3: destruct (as_AIProvider (String a sp)) as [p|] eqn:Ecast; [| discriminate].
    3: { cbn [fmap option_fmap option_map] in H. rewrite on_world_snd in H.
         injection H as <-.
         destruct (setupApplication_cases env p (String b sk) (world pg))
           as (Hp & Hk & _).
         split; cbn [world set_world set_settings_fields].
         - intros p' Hp'. rewrite Hp in Hp'. injection Hp' as <-.
           exists (String a sp). split; [exact Eprov | exact Ecast].
         - intros k Hk'. rewrite Hk in Hk'. injection Hk' as <-.
           split; [exact Ekey | discriminate]. }
    all: cbn [fmap option_fmap option_map] in H; rewrite on_world_snd in H;
      injection H as <-; apply Hkeep; reflexivity.
  - unfold on_apiKey_submit in H.
    destruct (JSString.nonempty (JSString.trim (apiKeyInput_value pg))) eqn:Ekey;
      cbn [andb] in H; [| injection H as <-; exact Hsaved].
    destruct (JSString.nonempty (providerSelect_value pg));
      [| injection H as <-; exact Hsaved].
    destruct (as_AIProvider (providerSelect_value pg)) as [p|] eqn:Ecast; [| discriminate].
    cbn [fmap option_fmap option_map] in H. rewrite on_world_snd in H. injection H as <-.
    destruct (setupApplication_cases env p (JSString.trim (apiKeyInput_value pg)) (world pg))
      as (Hp & Hk & _).
    split; cbn [world set_world setItem].
    + intros p' Hp'. rewrite Hp in Hp'. injection Hp' as <-.
      exists (providerSelect_value pg). split; [| exact Ecast].
      unfold getItem, setItem, set_world. cbn [localStorage].
      rewrite lookup_insert_ne by discriminate. apply lookup_insert_eq.
    + intros k Hk'. rewrite Hk in Hk'. injection Hk' as <-.
      split; [| now apply nonempty_neq].
      unfold getItem, setItem, set_world. cbn [localStorage]. apply lookup_insert_eq.
  - rewrite on_world_snd in H. injection H as <-.
    pose proof (on_submit_session env (world pg)) as Hs. unfold session in Hs.
    injection Hs as _ Hp Hk. apply Hkeep; assumption.
  - rewrite on_world_snd in H. injection H as <-. apply Hkeep; reflexivity.
  - injection H as <-. unfold generateAndSetLogo_settled.
    destruct (Result_bind outcome first_imageBytes) as [bytes|e].
    + apply Hkeep; reflexivity.
    + destruct Hsaved as [H1 H2]. split; [exact H1 | exact H2].
Qed.

Lemma handlers_keep_session_saved_witness :
  session_saved (sample_page (initial_world "") "Mistral" " sk-1 ")
  /\ currentApiKey
       (globals (world (default (sample_page (initial_world "") "Mistral" " sk-1 ")
                          (handle keyless_env ApiKeyFormSubmit
                             (sample_page (initial_world "") "Mistral" " sk-1 ")))))
     = Some "sk-1"
  /\ session_saved (default (sample_page (initial_world "") "Mistral" " sk-1 ")
                      (handle keyless_env ApiKeyFormSubmit
                         (sample_page (initial_world "") "Mistral" " sk-1 "))).
Proof.
  assert (H0 : session_saved (sample_page (initial_world "") "Mistral" " sk-1 ")).
  { split; intros x Hx; discriminate Hx. }
  split; [exact H0 |]. split; [reflexivity |].
  exact (handlers_keep_session_saved keyless_env ApiKeyFormSubmit
           (sample_page (initial_world "") "Mistral" " sk-1 ") _ eq_refl H0).
Defined.

(** X24.  Whatever the page runs, the record of outbound calls is only
    extended, and by at most one call; a click on the settings button
    and the settling of the image request issue none. *)
Theorem handlers_issue_at_most_one_call (env : Env) (ev : Event) (pg pg' : Page) :
  handle env ev pg = Some pg' ->
  exists cs,
    outbound (world pg') = outbound (world pg) ++ cs
    /\ (length cs <= 1)%nat
    /\ match ev with
       | SettingsToggleClick | LogoRequestSettles _ => cs = []
       | _ => True
       end.
Proof.
  intros H.
  assert (Hnone : outbound (world pg') = outbound (world pg) ->
                  exists cs, outbound (world pg') = outbound (world pg) ++ cs
                             /\ (length cs <= 1)%nat /\ cs = []).
  { intros ->. exists []. rewrite app_nil_r. repeat split. cbn. lia. }
  assert (Hsome : exists cs, outbound (world pg') = outbound (world pg) ++ cs
                             /\ (length cs <= 1)%nat).
  { destruct (handle_world env ev pg pg' H)
      as [-> | [(p & key & ->) | [-> | [-> | [-> | [(src & ->) | (e & ->)]]]]]].
    - exists []. rewrite app_nil_r. split; [reflexivity | cbn; lia].
    - destruct (setupApplication_cases env p key (world pg))
        as (_ & _ & _ & _ & _ & _ & _
            & [(_ & _ & Ho) | [(_ & _ & _ & Ho) | (_ & _ & Ho)]]); rewrite Ho.
      + exists []. rewrite app_nil_r. split; [reflexivity | cbn; lia].
      + eexists. split; [reflexivity | cbn; lia].
      + exists []. rewrite app_nil_r. split; [reflexivity | cbn; lia].
    - exists []. rewrite app_nil_r. split; [reflexivity | cbn; lia].
    - rewrite on_submit_appends. eexists. split; [reflexivity |].
      destruct (on_submit_calls_cases env (world pg))
        as [-> | [[req ->] | (c & params & _ & ->)]]; cbn; lia.
    - exists []. rewrite app_nil_r. split; [reflexivity | cbn; lia].
    - exists []. rewrite app_nil_r. split; [reflexivity | cbn; lia].
    - exists []. rewrite app_nil_r. split; [reflexivity | cbn; lia]. }
  destruct ev; try (destruct Hsome as (cs & H1 & H2); exists cs; repeat split; assumption).
  - cbn [handle] in H. rewrite on_world_snd in H. injection H as <-.
    destruct (Hnone eq_refl) as (cs & H1 & H2 & H3). now exists cs.
  - cbn [handle] in H. injection H as <-.
    assert (Ho : outbound (world (generateAndSetLogo_settled outcome pg))
                 = outbound (world pg)).
    { unfold generateAndSetLogo_settled.
      destruct (Result_bind outcome first_imageBytes); reflexivity. }
    destruct (Hnone Ho) as (cs & H1 & H2 & H3). now exists cs.
Qed.

Lemma handlers_issue_at_most_one_call_witness :
  outbound (world (default (sample_page (initial_world "") "Google AI" " user-key ")
                     (handle keyed_env ApiKeyFormSubmit
                        (sample_page (initial_world "") "Google AI" " user-key "))))
  = [GenerateImages {| apiKey := Some "build-key" |}]
  /\ exists cs,
       outbound (world (default (sample_page (initial_world "") "Google AI" " user-key ")
                          (handle keyed_env ApiKeyFormSubmit
                             (sample_page (initial_world "") "Google AI" " user-key "))))
       = [] ++ cs
       /\ (length cs <= 1)%nat.
Proof.
  split; [reflexivity |].
  destruct (handlers_issue_at_most_one_call keyed_env ApiKeyFormSubmit
              (sample_page (initial_world "") "Google AI" " user-key ") _ eq_refl)
    as (cs & H1 & H2 & _).
  exists cs. split; [exact H1 | exact H2].
Defined.

(** X25.  Only a submission of the settings form writes the storage,
    and it writes the two entries [ai_provider] and [api_key] only;
    nothing the page runs removes an entry. *)
Theorem storage_is_written_by_the_settings_form_only (env : Env) (ev : Event)
        (pg pg' : Page) :
  handle env ev pg = Some pg' ->
  (ev <> ApiKeyFormSubmit -> localStorage pg' = localStorage pg)
  /\ (forall key, key <> "ai_provider" -> key <> "api_key" ->
                  getItem key pg' = getItem key pg)
  /\ (forall key, is_Some (getItem key pg) -> is_Some (getItem key pg')).
Proof.
  intros H.
  assert (Hsame : localStorage pg' = localStorage pg ->
            (ev <> ApiKeyFormSubmit -> localStorage pg' = localStorage pg)
            /\ (forall key, key <> "ai_provider" -> key <> "api_key" ->
                            getItem key pg' = getItem key pg)
            /\ (forall key, is_Some (getItem key pg) -> is_Some (getItem key pg'))).
  { intros Hs. unfold getItem. rewrite Hs. repeat split; auto. }
  destruct ev; cbn [handle] in H.
  - apply Hsame. unfold main in H.
    destruct (getItem "ai_provider" pg) as [[|a sp]|];
      [| destruct (getItem "api_key" pg) as [[|b sk]|] |].
    3: destruct (as_AIProvider (String a sp)) as [p|]; [| discriminate].
    all: cbn [fmap option_fmap option_map] in H; rewrite on_world_snd in H;
      injection H as <-; reflexivity.
  - unfold on_apiKey_submit in H. destruct (_ && _).
    + destruct (as_AIProvider (providerSelect_value pg)) as [p|]; [| discriminate].
      cbn [fmap option_fmap option_map] in H. rewrite on_world_snd in H. injection H as <-.
      unfold getItem, set_world, setItem. cbn [localStorage]. split; [congruence |]. split.
      * intros key H1 H2. now rewrite !lookup_insert_ne by congruence.
      * intros key Hkey.
        destruct (decide (key = "api_key")) as [-> | H2];
          [rewrite lookup_insert_eq; eauto |].
        rewrite lookup_insert_ne by congruence.
        destruct (decide (key = "ai_provider")) as [-> | H1];
          [rewrite lookup_insert_eq; eauto |].
        now rewrite lookup_insert_ne by congruence.
    + injection H as <-. now apply Hsame.
  - rewrite on_world_snd in H. injection H as <-. now apply Hsame.
  - rewrite on_world_snd in H. injection H as <-. now apply Hsame.
  - injection H as <-. apply Hsame. unfold generateAndSetLogo_settled.
    destruct (Result_bind outcome first_imageBytes); reflexivity.
Qed.

Lemma storage_is_written_by_the_settings_form_only_witness :
  getItem "api_key" (default (returning_page "OpenAI" "sk-old")
                       (handle keyless_env ApiKeyFormSubmit
                          (set_settings_fields "Mistral" "sk-new"
                             (returning_page "OpenAI" "sk-old")))) = Some "sk-new"
  /\ forall key, key <> "ai_provider" -> key <> "api_key" ->
       getItem key (default (returning_page "OpenAI" "sk-old")
                      (handle keyless_env ApiKeyFormSubmit
                         (set_settings_fields "Mistral" "sk-new"
                            (returning_page "OpenAI" "sk-old"))))
       = getItem key (set_settings_fields "Mistral" "sk-new"
                        (returning_page "OpenAI" "sk-old")).
Proof.
  split; [reflexivity |].
  exact (proj1 (proj2 (storage_is_written_by_the_settings_form_only keyless_env
                         ApiKeyFormSubmit
                         (set_settings_fields "Mistral" "sk-new"
                            (returning_page "OpenAI" "sk-old")) _ eq_refl))).
Defined.

(** X26.  The logo container is hidden only by an image request that
    failed, or whose response holds no first image, and nothing the
    page runs shows it again: once hidden it stays hidden, also when
    a later request delivers an image. *)
Theorem hidden_logo_stays_hidden (env : Env) (ev : Event) (pg pg' : Page) :
  handle env ev pg = Some pg' ->
  (logoContainer_hidden pg = true -> logoContainer_hidden pg' = true)
  /\ (logoContainer_hidden pg' <> logoContainer_hidden pg ->
      exists outcome e, ev = LogoRequestSettles outcome
                        /\ Result_bind outcome first_imageBytes = Throw e).
Proof.
  intros H.
  assert (Hsame : logoContainer_hidden pg' = logoContainer_hidden pg ->
            (logoContainer_hidden pg = true -> logoContainer_hidden pg' = true)
            /\ (logoContainer_hidden pg' <> logoContainer_hidden pg ->
                exists outcome e, ev = LogoRequestSettles outcome
                                  /\ Result_bind outcome first_imageBytes = Throw e)).
  { intros ->. split; [auto | congruence]. }
  destruct ev; cbn [handle] in H.
  - apply Hsame. unfold main in H.
    destruct (getItem "ai_provider" pg) as [[|a sp]|];
      [| destruct (getItem "api_key" pg) as [[|b sk]|] |].
    3: destruct (as_AIProvider (String a sp)) as [p|]; [| discriminate].
    all: cbn [fmap option_fmap option_map] in H; rewrite on_world_snd in H;
      injection H as <-; reflexivity.
  - apply Hsame. unfold on_apiKey_submit in H. destruct (_ && _).
    + destruct (as_AIProvider (providerSelect_value pg)) as [p|]; [| discriminate].
      cbn [fmap option_fmap option_map] in H. rewrite on_world_snd in H.
      injection H as <-. reflexivity.
    + injection H as <-. reflexivity.
  - rewrite on_world_snd in H. injection H as <-. now apply Hsame.
  - rewrite on_world_snd in H. injection H as <-. now apply Hsame.
  - injection H as <-.
    destruct (Result_bind outcome first_imageBytes) as [bytes|e] eqn:E.
    + apply Hsame. unfold generateAndSetLogo_settled. now rewrite E.
    + split; [| intros _; exists outcome, e; split; [reflexivity | exact E]].
      intros _. unfold generateAndSetLogo_settled. now rewrite E.
Qed.

Lemma hidden_logo_stays_hidden_witness :
  logoContainer_hidden
    (generateAndSetLogo_settled (Throw (External "quota"))
       (sample_page (initial_world "") "Google AI" "")) = true
  /\ logoContainer
       (world (generateAndSetLogo_settled (Return logo_response)
                 (generateAndSetLogo_settled (Throw (External "quota"))
                    (sample_page (initial_world "") "Google AI" ""))))
     = LogoImage "data:image/png;base64,iVBORw0KGgo="
  /\ logoContainer_hidden
       (generateAndSetLogo_settled (Return logo_response)
          (generateAndSetLogo_settled (Throw (External "quota"))
             (sample_page (initial_world "") "Google AI" ""))) = true.
Proof.
  split; [reflexivity |]. split; [reflexivity |].
  exact (proj1 (hidden_logo_stays_hidden keyed_env (LogoRequestSettles (Return logo_response))
                  (generateAndSetLogo_settled (Throw (External "quota"))
                     (sample_page (initial_world "") "Google AI" "")) _ eq_refl) eq_refl).
Defined.

Lemma as_AIProvider_nonempty (text : string) (p : AIProvider) :
  as_AIProvider text = Some p -> exists a s, text = String a s.
Proof. destruct text as [|a s]; [discriminate | eauto]. Qed.

(** X27.  What a submission of the settings form saves, the next start
    of the script restores: on any page that holds the storage the
    submission left, [main] sets up the provider that was selected with
    the key that was typed, trimmed, whatever the environment then
    answers, and leaves the storage as it found it. *)
Theorem saved_settings_are_restored (env env' : Env) (pg pg' fresh : Page)
        (p : AIProvider) :
  as_AIProvider (providerSelect_value pg) = Some p ->
  JSString.nonempty (JSString.trim (apiKeyInput_value pg)) = true ->
  handle env ApiKeyFormSubmit pg = Some pg' ->
  localStorage fresh = localStorage pg' ->
  exists pg'',
    handle env' ScriptRuns fresh = Some pg''
    /\ currentProvider (globals (world pg'')) = Some p
    /\ currentApiKey (globals (world pg'')) = Some (JSString.trim (apiKeyInput_value pg))
    /\ localStorage pg'' = localStorage pg'.
Proof.
  intros Hcast Hkey H Hfresh.
  destruct (as_AIProvider_nonempty _ _ Hcast) as (a & sp & Hprov).
  destruct (JSString.trim (apiKeyInput_value pg)) as [|b sk] eqn:Etrim; [discriminate |].
  cbn [handle] in H. unfold on_apiKey_submit in H.
  rewrite Etrim, Hprov in H. cbn [JSString.nonempty andb] in H.
  rewrite <- Hprov, Hcast in H.
  cbn [fmap option_fmap option_map] in H. rewrite on_world_snd in H. injection H as <-.
  assert (Hp : getItem "ai_provider" fresh = Some (providerSelect_value pg)).
  { unfold getItem. rewrite Hfresh. unfold set_world, setItem. cbn [localStorage].
    rewrite lookup_insert_ne by discriminate. apply lookup_insert_eq. }
  assert (Hk : getItem "api_key" fresh = Some (String b sk)).
  { unfold getItem. rewrite Hfresh. unfold set_world, setItem. cbn [localStorage].
    apply lookup_insert_eq. }
  cbn [handle]. unfold main. rewrite Hp, Hk, Hprov. rewrite <- Hprov, Hcast.
  cbn [fmap option_fmap option_map]. rewrite on_world_snd. eexists. split; [reflexivity |].
  destruct (setupApplication_cases env' p (String b sk) (world fresh)) as (H1 & H2 & _).
  cbn [world set_world set_settings_fields localStorage].
  split; [exact H1 |]. split; [exact H2 | exact Hfresh].
Qed.

Lemma saved_settings_are_restored_witness :
  handle keyless_env ScriptRuns (returning_page "Mistral" "sk-1")
  = Some (snd (on_world (setupApplication keyless_env Mistral "sk-1")
                        (set_settings_fields "Mistral" "sk-1"
                           (returning_page "Mistral" "sk-1"))))
  /\ exists pg'',
       handle keyless_env ScriptRuns (returning_page "Mistral" "sk-1") = Some pg''
       /\ currentProvider (globals (world pg'')) = Some Mistral
       /\ currentApiKey (globals (world pg'')) = Some "sk-1".
Proof.
  split; [reflexivity |].
  destruct (saved_settings_are_restored offline_env keyless_env
              (sample_page (initial_world "") "Mistral" " sk-1 ") _
              (returning_page "Mistral" "sk-1") Mistral eq_refl eq_refl eq_refl eq_refl)
    as (pg'' & H1 & H2 & H3 & _).
  exists pg''. split; [exact H1 |]. split; [exact H2 | exact H3].
Defined.

Lemma trim_blank (s : string) : JSString.is_blank s = true -> JSString.trim s = "".
Proof.
  unfold JSString.is_blank, JSString.trim.
  destruct (JSString.trimStart s); [reflexivity | discriminate].
Qed.

(** X28.  A submission of the settings form with a key that trims to
    nothing, or with no provider selected, does nothing at all:
    nothing is stored, no setup runs, the page is left as it was. *)
Theorem blank_settings_are_ignored (env : Env) (pg : Page) :
  JSString.is_blank (apiKeyInput_value pg) = true \/ providerSelect_value pg = "" ->
  on_apiKey_submit env pg = Some (Return tt, pg).
Proof.
  intros [Hb | Hp]; unfold on_apiKey_submit.
  - now rewrite (trim_blank _ Hb).
  - rewrite Hp. cbn [JSString.nonempty]. now rewrite andb_false_r.
Qed.

Lemma blank_settings_are_ignored_witness :
  JSString.is_blank "   " = true
  /\ on_apiKey_submit keyed_env (sample_page (initial_world "") "OpenAI" "   ")
     = Some (Return tt, sample_page (initial_world "") "OpenAI" "   ").
Proof.
  split; [reflexivity |].
  exact (blank_settings_are_ignored keyed_env (sample_page (initial_world "") "OpenAI" "   ")
           (or_introl eq_refl)).
Defined.

(** X29.  When the storage lacks the provider or the key, or holds an
    empty text for one of them, the start of the script only asks for
    setup: the settings panel and the setup message are shown, the
    keyword form and its controls are disabled, and nothing else
    changes: no session, no client, no call, no logo, storage and
    settings form as they were. *)
Theorem start_without_saved_settings_shows_setup (env : Env) (pg : Page) :
  getItem "ai_provider" pg = None \/ getItem "ai_provider" pg = Some ""
  \/ getItem "api_key" pg = None \/ getItem "api_key" pg = Some "" ->
  exists pg',
    main env pg = Some (Return tt, pg')
    /\ panels (world pg') = {| settingsPanel_hidden := false; setupMessage_hidden := false |}
    /\ controls (world pg')
       = {| form_disabled := true; input_disabled := true; countryInput_disabled := true;
            languageInput_disabled := true; button_disabled := true;
            button_textContent := button_textContent (controls (world pg)) |}
    /\ globals (world pg') = globals (world pg)
    /\ outbound (world pg') = outbound (world pg)
    /\ console (world pg') = console (world pg)
    /\ resultsContainer (world pg') = resultsContainer (world pg)
    /\ logoContainer (world pg') = logoContainer (world pg)
    /\ localStorage pg' = localStorage pg
    /\ providerSelect_value pg' = providerSelect_value pg
    /\ apiKeyInput_value pg' = apiKeyInput_value pg
    /\ logoContainer_hidden pg' = logoContainer_hidden pg.
Proof.
  intros H.
  assert (Hmain : main env pg = Some (on_world showSetup pg)).
  { unfold main.
    destruct H as [-> | [-> | [-> | ->]]]; try reflexivity;
      destruct (getItem "ai_provider" pg) as [[|a sp]|]; reflexivity. }
  rewrite Hmain. eexists. split; [reflexivity |]. repeat split.
Qed.

Lemma start_without_saved_settings_shows_setup_witness :
  getItem "api_key" (sample_page (initial_world "") "Google AI" "") = None
  /\ exists pg',
       main keyed_env (sample_page (initial_world "") "Google AI" "")
       = Some (Return tt, pg')
       /\ panels (world pg')
          = {| settingsPanel_hidden := false; setupMessage_hidden := false |}.
Proof.
  split; [reflexivity |].
  destruct (start_without_saved_settings_shows_setup keyed_env
              (sample_page (initial_world "") "Google AI" "")
              (or_intror (or_intror (or_introl eq_refl))))
    as (pg' & H1 & H2 & _).
  exists pg'. split; [exact H1 | exact H2].
Defined.

(** X30.  A rendering starts from a clean slate: what the results
    container showed before and the charts that existed before have no
    influence on its outcome, whether it returns or throws. *)
Theorem rendering_starts_from_a_clean_slate (env : Env) (data : json) (srcs : Sources)
        (w : World) (shown : Markup) (bar gauge : option Chart) :
  renderResults env data srcs
    (set_resultsContainer shown
       (set_globals (set_competitionChart gauge (set_searchVolumeChart bar (globals w))) w))
  = renderResults env data srcs w.
Proof. reflexivity. Qed.
